(** * recipe-app-api: a shallow embedding of the Django/DRF application

    The development follows the layout of the repository:
    - [Py]           the Python built-ins the views and the user manager call
                     ([str.strip], [str.rsplit], [str.lower], [str.split],
                     [int]);
    - [User], [Tag], [Ingredient], [Recipe], [core_models]
                     [core/models.py]: the tables and [UserManager];
    - [orm]          the queryset operations the views chain ([filter],
                     [order_by], [distinct], the many-to-many joins and
                     [RelatedManager.set]); the order in which a Python set
                     yields its elements is a parameter, [SetOrder];
    - [recpie_serializers]   [recpie/serializers.py], with the fields the
                     framework derives from the model columns;
    - [TagViewSet], [IngredientViewSet], [RecipeViewSet]
                     [recpie/views.py];
    - [user_serializer]      [user/serializer.py].

    A [str] is a Rocq [string]; a character stands for the code point with
    the same number, so the strings covered are those over code points
    below 256.  Primary keys and Python integers are [Z].  A table is the
    list of its rows, a queryset is the list of rows it yields, so that a
    join that yields a row twice is visible. *)

From stdpp Require Import gmap strings list sorting.
From Stdlib Require Import ZArith Ascii String.

Local Open Scope Z_scope.

(** ** Exceptions and results *)

Inductive exn : Type :=
  | ValueError
  | ValidationError
  | IntegrityError
  | Http404
  | MultipleObjectsReturned.

Inductive result (A : Type) : Type :=
  | Ok (a : A)
  | Raise (e : exn).
Arguments Ok {A} a.
Arguments Raise {A} e.

(** The error monad of a request: [x ← r; k] runs [k] unless [r] raised. *)
#[global] Instance result_ret : MRet result := λ A a, Ok a.
#[global] Instance result_bind : MBind result := λ A B k r,
  match r with
  | Ok a => k a
  | Raise e => Raise e
  end.

#[global] Instance exn_eq_dec : EqDecision exn.
Proof. solve_decision. Defined.

(** ** Python built-ins *)

Module Py.

Definition ord (c : ascii) : N := N_of_ascii c.

(** [str.isspace] on one character: the characters [str.strip()] removes. *)
Definition isspace (c : ascii) : bool :=
  let n := ord c in
  (((9 <=? n) && (n <=? 13)) || ((28 <=? n) && (n <=? 32))
   || (n =? 133) || (n =? 160))%N.

Definition lower_char (c : ascii) : ascii :=
  let n := ord c in
  if (((65 <=? n) && (n <=? 90))
      || ((192 <=? n) && (n <=? 222) && negb (n =? 215)))%N
  then ascii_of_N (n + 32)
  else c.

(** [s.lower()] *)
Fixpoint lower (s : string) : string :=
  match s with
  | EmptyString => EmptyString
  | String c s' => String (lower_char c) (lower s')
  end.

Fixpoint lstrip (s : string) : string :=
  match s with
  | EmptyString => EmptyString
  | String c s' => if isspace c then lstrip s' else s
  end.

Fixpoint rstrip (s : string) : string :=
  match s with
  | EmptyString => EmptyString
  | String c s' =>
      match rstrip s' with
      | EmptyString => if isspace c then EmptyString else String c EmptyString
      | t => String c t
      end
  end.

(** [s.strip()] *)
Definition strip (s : string) : string := rstrip (lstrip s).

(** [s.rsplit(sep, 1)] unpacked into two names: [None] stands for the
    [ValueError] of unpacking the one-element list returned when [sep]
    does not occur in [s]. *)
Fixpoint rsplit1 (sep : ascii) (s : string) : option (string * string) :=
  match s with
  | EmptyString => None
  | String c s' =>
      match rsplit1 sep s' with
      | Some (a, b) => Some (String c a, b)
      | None => if Ascii.eqb c sep then Some (EmptyString, s') else None
      end
  end.

(** [s.split(sep)] for a one-character separator. *)
Fixpoint split (sep : ascii) (s : string) : list string :=
  match s with
  | EmptyString => [EmptyString]
  | String c s' =>
      if Ascii.eqb c sep then EmptyString :: split sep s'
      else match split sep s' with
           | h :: t => String c h :: t
           | [] => [String c EmptyString]
           end
  end.

(** The white space [int] skips around a literal: the ASCII white space
    of the C parser, and the non-ASCII white space the conversion maps to
    a blank first. *)
Definition int_isspace (c : ascii) : bool :=
  let n := ord c in
  (((9 <=? n) && (n <=? 13)) || (n =? 32) || (n =? 133) || (n =? 160))%N.

Fixpoint int_lstrip (s : string) : string :=
  match s with
  | EmptyString => EmptyString
  | String c s' => if int_isspace c then int_lstrip s' else s
  end.

Fixpoint int_rstrip (s : string) : string :=
  match s with
  | EmptyString => EmptyString
  | String c s' =>
      match int_rstrip s' with
      | EmptyString =>
          if int_isspace c then EmptyString else String c EmptyString
      | t => String c t
      end
  end.

Definition digit_val (c : ascii) : option Z :=
  let n := ord c in
  if ((48 <=? n) && (n <=? 57))%N then Some (Z.of_N n - 48) else None.

(** The digits after the first one: single underscores may separate
    digits, and the literal may not end in one. *)
Fixpoint int_digits (acc : Z) (prev_underscore : bool) (s : string)
  : option Z :=
  match s with
  | EmptyString => if prev_underscore then None else Some acc
  | String c s' =>
      if Ascii.eqb c "_"%char then
        if prev_underscore then None else int_digits acc true s'
      else
        match digit_val c with
        | Some d => int_digits (10 * acc + d) false s'
        | None => None
        end
  end.

(** The number of digits of a literal, underscores not counted, and the
    largest number [int] converts: the default of
    [sys.get_int_max_str_digits()]. *)
Fixpoint count_digits (s : string) : Z :=
  match s with
  | EmptyString => 0
  | String c s' =>
      match digit_val c with
      | Some _ => 1 + count_digits s'
      | None => count_digits s'
      end
  end.

Definition max_str_digits : Z := 4300.

Definition int_unsigned (s : string) : option Z :=
  if decide (max_str_digits < count_digits s) then None
  else
    match s with
    | EmptyString => None
    | String c s' =>
        match digit_val c with
        | Some d => int_digits d false s'
        | None => None
        end
    end.

(** [int(s)] for a [str] argument, base ten; [None] is [ValueError], also
    the one of a literal with more than [max_str_digits] digits. *)
Definition int (s : string) : option Z :=
  match int_rstrip (int_lstrip s) with
  | String "+" r => int_unsigned r
  | String "-" r => Z.opp <$> int_unsigned r
  | body => int_unsigned body
  end.

(** Truth value of [x] for the [Optional[str]] a [dict.get] returns. *)
Definition truthy (x : option string) : bool :=
  match x with
  | Some (String _ _) => true
  | _ => false
  end.

(** [s.startswith(c)] and [s.endswith(c)] for a one-character [c]. *)
Definition startswith (c : ascii) (s : string) : bool :=
  match s with
  | EmptyString => false
  | String d _ => Ascii.eqb d c
  end.

Fixpoint endswith (c : ascii) (s : string) : bool :=
  match s with
  | EmptyString => false
  | String d EmptyString => Ascii.eqb d c
  | String _ s' => endswith c s'
  end.

(** [os.path.join(a, b)] of [posixpath]. *)
Definition path_join (a b : string) : string :=
  if startswith "/" b then b
  else if bool_decide (a = EmptyString) || endswith "/" a then a +:+ b
  else a +:+ "/" +:+ b.

End Py.

(** ** core/models.py *)

Module User.
Record t : Type := mk {
  id : Z;
  email : string;
  name : string;
  password : string;
  is_active : bool;
  is_staff : bool;
  is_superuser : bool
}.
End User.

Module Tag.
Record t : Type := mk {
  id : Z;
  user : Z;
  name : string
}.
End Tag.

Module Ingredient.
Record t : Type := mk {
  id : Z;
  name : string;
  user : Z
}.
End Ingredient.

(** [tag] and [ingredient] hold the primary keys the rows of the
    many-to-many table link this recipe to; [price] counts hundredths. *)
Module Recipe.
Record t : Type := mk {
  id : Z;
  user : Z;
  title : string;
  time : Z;
  price : Z;
  link : string;
  ingredient : list Z;
  tag : list Z;
  image : option string
}.
End Recipe.

#[global] Instance User_eq_dec : EqDecision User.t.
Proof. solve_decision. Defined.
#[global] Instance Tag_eq_dec : EqDecision Tag.t.
Proof. solve_decision. Defined.
#[global] Instance Ingredient_eq_dec : EqDecision Ingredient.t.
Proof. solve_decision. Defined.
#[global] Instance Recipe_eq_dec : EqDecision Recipe.t.
Proof. solve_decision. Defined.

(** The database: one list of rows per model. *)
Record DB : Type := mkDB {
  users : list User.t;
  tags : list Tag.t;
  ingredients : list Ingredient.t;
  recipes : list Recipe.t
}.

(** The password hasher of the framework, its salt fixed ([set_password]
    stores what [make_password] returns); [None] is the unusable
    password. *)
Class Hasher : Type := make_password : option string → string.

(** Primary key of the next inserted row. *)
Definition next_id (ids : list Z) : Z := 1 + foldr Z.max 0 ids.

Module core_models.
Section with_hasher.
Context `{Hasher}.

(** [BaseUserManager.normalize_email]: the domain part is lowercased. *)
Definition normalize_email (email : option string) : string :=
  let email := default EmptyString email in
  match Py.rsplit1 "@" (Py.strip email) with
  | None => email
  | Some (email_name, domain_part) =>
      email_name +:+ "@" +:+ Py.lower domain_part
  end.

(** [user.save()] of a new row: the email column is unique. *)
Definition save_new_user (u : User.t) (db : DB) : result (DB * User.t) :=
  if decide (User.email u ∈ User.email <$> users db) then
    Raise IntegrityError
  else
    let u' := User.mk (next_id (User.id <$> users db)) (User.email u)
                (User.name u) (User.password u) (User.is_active u)
                (User.is_staff u) (User.is_superuser u) in
    Ok (mkDB (users db ++ [u']) (tags db) (ingredients db) (recipes db), u').

(** The [UPDATE] of a row that exists. *)
Definition update_user_row (u : User.t) (db : DB) : DB :=
  mkDB ((λ v, if decide (User.id v = User.id u) then u else v) <$> users db)
       (tags db) (ingredients db) (recipes db).

(** [user.save()] of a row that exists: the email column is unique, so the
    row is not written when another row holds its email. *)
Definition save_user (u : User.t) (db : DB) : result DB :=
  if decide (User.email u
             ∈ User.email <$> filter (λ v, User.id v ≠ User.id u) (users db))
  then Raise IntegrityError
  else Ok (update_user_row u db).

(** [UserManager.create_user]; [name] is the one extra field the
    callers pass. *)
Definition create_user (email : option string) (password : option string)
    (name : string) (db : DB) : result (DB * User.t) :=
  if negb (Py.truthy email) then Raise ValueError
  else
    let user := User.mk 0 (normalize_email email) name
                  (make_password password) true false false in
    save_new_user user db.

(** [UserManager.create_superuser] *)
Definition create_superuser (email : option string)
    (password : option string) (db : DB) : result (DB * User.t) :=
  '(db1, user) ← create_user email password EmptyString db;
  let user := User.mk (User.id user) (User.email user) (User.name user)
                (User.password user) (User.is_active user) true true in
  db2 ← save_user user db1;
  Ok (db2, user).

End with_hasher.
End core_models.

(** [recipe_image_file_path]; [uuid4] is the text of [uuid.uuid4()]. *)
Definition recipe_image_file_path (uuid4 : string)
    (instance : option Recipe.t) (filename : string) : string :=
  let ext := default EmptyString (last (Py.split "." filename)) in
  let final_name := (uuid4 +:+ "." +:+ ext)%string in
  Py.path_join "uploads/recipe/" final_name.

(** What the framework brings to a file upload and to a login: the check
    of an [ImageField] on the name and the content of a file, the storage
    that saves a file under a name and returns the name it used, and
    [check_password(raw, encoded)] of the hasher. *)
Class ImageValidator : Type := valid_image : string → string → bool.
Class Storage : Type := storage_save : string → string.
Class PasswordChecker : Type := check_password : string → string → bool.


(** ** The queryset operations the views chain *)

(** Models with a [user] foreign key, and models with a primary key. *)
Class HasUser (A : Type) : Type := user_of : A → Z.
Class HasPk (A : Type) : Type := pk_of : A → Z.

#[global] Instance Tag_user : HasUser Tag.t := Tag.user.
#[global] Instance Ingredient_user : HasUser Ingredient.t := Ingredient.user.
#[global] Instance Recipe_user : HasUser Recipe.t := Recipe.user.
#[global] Instance User_pk : HasPk User.t := User.id.
#[global] Instance Tag_pk : HasPk Tag.t := Tag.id.
#[global] Instance Ingredient_pk : HasPk Ingredient.t := Ingredient.id.
#[global] Instance Recipe_pk : HasPk Recipe.t := Recipe.id.

(** The order in which Python iterates over a set is not specified:
    [set_iter l] is what [list(set(l))] yields, the distinct elements of
    [l] in some order. *)
Class SetOrder : Type := {
  set_iter : list Z → list Z;
  set_iter_perm : ∀ l, set_iter l ≡ₚ remove_dups l
}.

Module orm.

(** [qs.filter(user=u)] *)
Definition filter_user {A : Type} `{HasUser A} (u : Z) (qs : list A)
  : list A :=
  filter (λ x, user_of x = u) qs.

(** [qs.filter(pk=k)] *)
Definition filter_pk {A : Type} `{HasPk A} (k : Z) (qs : list A) : list A :=
  filter (λ x, pk_of x = k) qs.

(** [qs.filter(recipe__isnull=False)] on tags: the join with the link
    table yields a tag once for every link row that points to it. *)
Definition filter_recipe_isnull_false (db : DB) (qs : list Tag.t)
  : list Tag.t :=
  t ← qs; r ← recipes db; tid ← Recipe.tag r;
  if decide (tid = Tag.id t) then [t] else [].

(** [qs.filter(tag__id__in=ids)] on recipes: the join yields a recipe once
    for every link row of it whose tag is among [ids]. *)
Definition filter_tag_id_in (ids : list Z) (qs : list Recipe.t)
  : list Recipe.t :=
  r ← qs; tid ← Recipe.tag r;
  if decide (tid ∈ ids) then [r] else [].

(** [qs.filter(ingredient__id__in=ids)] on recipes. *)
Definition filter_ingredient_id_in (ids : list Z) (qs : list Recipe.t)
  : list Recipe.t :=
  r ← qs; iid ← Recipe.ingredient r;
  if decide (iid ∈ ids) then [r] else [].

(** [a] may come before [b] under [order_by('-name')]. *)
Definition name_desc (a b : Tag.t) : Prop :=
  String.leb (Tag.name b) (Tag.name a) = true.

#[global] Instance name_desc_dec a b : Decision (name_desc a b).
Proof. unfold name_desc. apply _. Defined.

(** [qs.order_by('-name')] on tags *)
Definition order_by_name_desc (qs : list Tag.t) : list Tag.t :=
  merge_sort name_desc qs.

(** [qs.distinct()] *)
Definition distinct {A : Type} `{EqDecision A} (qs : list A) : list A :=
  remove_dups qs.

(** [queryset.get(pk=k)] as [get_object_or_404] calls it. *)
Definition get_or_404 {A : Type} `{HasPk A} (k : Z) (qs : list A)
  : result A :=
  match filter_pk k qs with
  | [] => Raise Http404
  | [x] => Ok x
  | _ => Raise MultipleObjectsReturned
  end.

(** The loop of [RelatedManager.set]: an object already linked is taken
    out of [old_ids], any other is queued in [new_objs]. *)
Definition set_loop (objs : list Z) (old_ids : list Z) : list Z * list Z :=
  foldl (λ '(old_ids, new_objs) obj,
           if decide (obj ∈ old_ids)
           then (filter (λ i, i ≠ obj) old_ids, new_objs)
           else (old_ids, new_objs ++ [obj]))
        (old_ids, []) objs.

(** [manager.remove] of the targets [ids] on the link rows of one recipe *)
Definition m2m_remove (ids : list Z) (rows : list Z) : list Z :=
  filter (λ i, i ∉ ids) rows.

(** [manager.add] of the targets [objs]: the targets are gathered in a
    set, and each one that is not linked yet gets a row, in the order the
    set yields them. *)
Definition m2m_add `{SetOrder} (objs : list Z) (rows : list Z) : list Z :=
  rows ++ set_iter (filter (λ i, i ∉ rows) objs).

(** [manager.set(objs)] on the link rows of one recipe *)
Definition m2m_set `{SetOrder} (objs : list Z) (rows : list Z) : list Z :=
  let '(old_ids, new_objs) := set_loop objs (remove_dups rows) in
  m2m_add new_objs (m2m_remove old_ids rows).

End orm.

(** ** recpie/serializers.py *)

Module recpie_serializers.

(** The payload of a recipe request; [None] is an absent key.
    [is_html_input] tells a form or multipart payload from a JSON one. *)
Record RecipeData : Type := mkData {
  is_html_input : bool;
  title : option string;
  ingredient : option (list Z);
  tag : option (list Z);
  time : option Z;
  price : option Z;
  link : option string
}.

(** [validated_data]: [None] is a key the validation skipped. *)
Record Validated : Type := mkValidated {
  v_title : option string;
  v_ingredient : option (list Z);
  v_tag : option (list Z);
  v_time : option Z;
  v_price : option Z;
  v_link : option string
}.

(** An absent key: skipped under [partial] or when not required. *)
Definition validate_empty {A : Type} (partial required : bool)
  : result (option A) :=
  if partial then Ok None
  else if required then Raise ValidationError
  else Ok None.

(** The character [ProhibitNullCharactersValidator] refuses. *)
Definition NUL : ascii := "000"%char.

Definition has_null (s : string) : Prop := NUL ∈ list_ascii_of_string s.

(** [serializers.CharField(max_length=..)]: the value is stripped; a
    blank one is settled by [allow_blank] before any validator runs, any
    other has to pass the length and the null-character validators. *)
Definition CharField (max_length : nat) (required allow_blank : bool)
    (partial : bool) (data : option string) : result (option string) :=
  match data with
  | None => validate_empty partial required
  | Some s =>
      let v := Py.strip s in
      if decide (v = EmptyString) then
        if allow_blank then Ok (Some v) else Raise ValidationError
      else if decide (String.length v ≤ max_length)%nat then
        if decide (has_null v) then Raise ValidationError else Ok (Some v)
      else Raise ValidationError
  end.

(** Largest value of a [PositiveIntegerField] column. *)
Definition positive_integer_max : Z := 2147483647.

(** The field of [time = models.PositiveIntegerField()] *)
Definition PositiveIntegerField (partial : bool) (data : option Z)
  : result (option Z) :=
  match data with
  | None => validate_empty partial true
  | Some n =>
      if decide (0 ≤ n ≤ positive_integer_max) then Ok (Some n)
      else Raise ValidationError
  end.

(** The field of [price = models.DecimalField(max_digits=5,
    decimal_places=2)], on hundredths. *)
Definition DecimalField (partial : bool) (data : option Z)
  : result (option Z) :=
  match data with
  | None => validate_empty partial true
  | Some p =>
      if decide (Z.abs p ≤ 99999) then Ok (Some p)
      else Raise ValidationError
  end.

(** [ManyRelatedField.get_value]: a form payload without the key reads as
    the empty list, unless the update is partial. *)
Definition many_get_value (partial html : bool) (data : option (list Z))
  : option (list Z) :=
  match data with
  | Some l => Some l
  | None => if html && negb partial then Some [] else None
  end.

(** [PrimaryKeyRelatedField(many=True, queryset=..)]: [pks] are the primary
    keys of the queryset; every listed key has to be one of them. *)
Definition PrimaryKeyRelatedField_many (pks : list Z) (partial html : bool)
    (data : option (list Z)) : result (option (list Z)) :=
  match many_get_value partial html data with
  | None => validate_empty partial true
  | Some l =>
      if decide (Forall (λ k, k ∈ pks) l) then Ok (Some l)
      else Raise ValidationError
  end.

(** [RecipeSerializer(..., partial=partial).is_valid(raise_exception=True)],
    the fields in the order of [Meta.fields]. *)
Definition RecipeSerializer_validate (partial : bool) (data : RecipeData)
    (db : DB) : result Validated :=
  let html := is_html_input data in
  t ← CharField 255 true false partial (title data);
  i ← PrimaryKeyRelatedField_many (Ingredient.id <$> ingredients db)
        partial html (ingredient data);
  g ← PrimaryKeyRelatedField_many (Tag.id <$> tags db)
        partial html (tag data);
  m ← PositiveIntegerField partial (time data);
  p ← DecimalField partial (price data);
  l ← CharField 255 false true partial (link data);
  Ok (mkValidated t i g m p l).

(** [instance.save()] of a recipe that exists *)
Definition save_recipe (r : Recipe.t) (db : DB) : DB :=
  mkDB (users db) (tags db) (ingredients db)
       ((λ x, if decide (Recipe.id x = Recipe.id r) then r else x)
          <$> recipes db).

(** [ModelSerializer.create] with the [user] that [serializer.save] adds:
    the row is inserted without links, then each many-to-many key present
    in [validated_data] is [set]. *)
Definition RecipeSerializer_create `{SetOrder} (user : Z) (v : Validated)
    (db : DB) : result (DB * Recipe.t) :=
  match v_time v, v_price v with
  | Some m, Some p =>
      let r := Recipe.mk (next_id (Recipe.id <$> recipes db)) user
                 (default EmptyString (v_title v)) m p
                 (default EmptyString (v_link v))
                 (from_option (λ l, orm.m2m_set l []) [] (v_ingredient v))
                 (from_option (λ l, orm.m2m_set l []) [] (v_tag v))
                 None in
      Ok (mkDB (users db) (tags db) (ingredients db) (recipes db ++ [r]), r)
  | _, _ => Raise IntegrityError
  end.

(** [ModelSerializer.update]: every key of [validated_data] is assigned,
    the many-to-many ones through [set] after the row is saved. *)
Definition RecipeSerializer_update `{SetOrder} (instance : Recipe.t)
    (v : Validated) (db : DB) : DB * Recipe.t :=
  let r := Recipe.mk (Recipe.id instance) (Recipe.user instance)
             (default (Recipe.title instance) (v_title v))
             (default (Recipe.time instance) (v_time v))
             (default (Recipe.price instance) (v_price v))
             (default (Recipe.link instance) (v_link v))
             (from_option (λ l, orm.m2m_set l (Recipe.ingredient instance))
                (Recipe.ingredient instance) (v_ingredient v))
             (from_option (λ l, orm.m2m_set l (Recipe.tag instance))
                (Recipe.tag instance) (v_tag v))
             (Recipe.image instance) in
  (save_recipe r db, r).

(** [TagSerializer] and [IngredientSerializer] validate [name], whose
    length is bounded by the model column. *)
Definition TagSerializer_validate (name : option string)
  : result string :=
  n ← CharField 50 true false false name;
  Ok (default EmptyString n).

Definition IngredientSerializer_validate (name : option string)
  : result string :=
  n ← CharField 255 true false false name;
  Ok (default EmptyString n).

(** What a multipart request carries under [image]. *)
Inductive Upload : Type :=
  | NotAFile (text : string)
  | File (name : string) (content : string).

(** [serializer.data] of the three recipe serializers; a tag or an
    ingredient of the detail shape is its [id] with its [name], and the
    image of the image shape is the stored name, from which the framework
    builds the URL it shows. *)
Record RecipeRepr : Type := mkRepr {
  r_id : Z;
  r_title : string;
  r_ingredient : list Z;
  r_tag : list Z;
  r_time : Z;
  r_price : Z;
  r_link : string
}.

Record RecipeDetailRepr : Type := mkDetail {
  d_id : Z;
  d_title : string;
  d_ingredient : list (Z * string);
  d_tag : list (Z * string);
  d_time : Z;
  d_price : Z;
  d_link : string
}.

Record RecipeImageRepr : Type := mkImage {
  i_id : Z;
  i_image : option string
}.

(** [instance.tag.all()] and [instance.ingredient.all()]: the rows the
    links of the recipe point to. *)
Definition tag_all (instance : Recipe.t) (db : DB) : list Tag.t :=
  filter (λ t, Tag.id t ∈ Recipe.tag instance) (tags db).

Definition ingredient_all (instance : Recipe.t) (db : DB)
  : list Ingredient.t :=
  filter (λ i, Ingredient.id i ∈ Recipe.ingredient instance)
    (ingredients db).

Definition TagSerializer_to_representation (t : Tag.t) : Z * string :=
  (Tag.id t, Tag.name t).

Definition IngredientSerializer_to_representation (i : Ingredient.t)
  : Z * string :=
  (Ingredient.id i, Ingredient.name i).

Definition RecipeSerializer_to_representation (instance : Recipe.t)
    (db : DB) : RecipeRepr :=
  mkRepr (Recipe.id instance) (Recipe.title instance)
    (Ingredient.id <$> ingredient_all instance db)
    (Tag.id <$> tag_all instance db)
    (Recipe.time instance) (Recipe.price instance) (Recipe.link instance).

Definition RecipeDetailSerializer_to_representation (instance : Recipe.t)
    (db : DB) : RecipeDetailRepr :=
  mkDetail (Recipe.id instance) (Recipe.title instance)
    (IngredientSerializer_to_representation <$> ingredient_all instance db)
    (TagSerializer_to_representation <$> tag_all instance db)
    (Recipe.time instance) (Recipe.price instance) (Recipe.link instance).

Definition RecipeImageSerializer_to_representation (instance : Recipe.t)
  : RecipeImageRepr :=
  mkImage (Recipe.id instance) (Recipe.image instance).

(** [RecipeImageSerializer(...).is_valid()] on a form payload: the column
    is nullable, so the key may be absent, and an empty value reads as
    null; anything else has to be a file the image check accepts.  The
    validated value is [None] for a skipped key, [Some None] for null. *)
Definition RecipeImageSerializer_validate `{ImageValidator}
    (data : option Upload) : result (option (option (string * string))) :=
  match data with
  | None => Ok None
  | Some (NotAFile text) =>
      if decide (text = EmptyString) then Ok (Some None)
      else Raise ValidationError
  | Some (File name content) =>
      if valid_image name content then Ok (Some (Some (name, content)))
      else Raise ValidationError
  end.

(** [serializer.save()] of the image serializer: the file is stored under
    the name [upload_to] computes, and the row keeps the name the storage
    used. *)
Definition RecipeImageSerializer_update `{Storage} (uuid4 : string)
    (instance : Recipe.t) (v : option (option (string * string)))
    (db : DB) : DB * Recipe.t :=
  let image :=
    match v with
    | None => Recipe.image instance
    | Some None => None
    | Some (Some (name, _)) =>
        Some (storage_save
                (recipe_image_file_path uuid4 (Some instance) name))
    end in
  let r := Recipe.mk (Recipe.id instance) (Recipe.user instance)
             (Recipe.title instance) (Recipe.time instance)
             (Recipe.price instance) (Recipe.link instance)
             (Recipe.ingredient instance) (Recipe.tag instance) image in
  (save_recipe r db, r).

End recpie_serializers.


(** ** recpie/views.py *)

(** What a view reads of [self.request]: the authenticated user and the
    query string, each key with the value [query_params.get] returns. *)
Module Request.
Record t : Type := mk {
  user : Z;
  query_params : gmap string string
}.
End Request.

Module TagViewSet.

Definition get_queryset (request : Request.t) (db : DB)
  : result (list Tag.t) :=
  n ← match Request.query_params request !! "assigned_only"%string with
       | None => Ok 0
       | Some s =>
           match Py.int s with
           | Some n => Ok n
           | None => Raise ValueError
           end
       end;
  let assigned_only := bool_decide (n ≠ 0) in
  let queryset := tags db in
  let queryset :=
    if assigned_only then orm.filter_recipe_isnull_false db queryset
    else queryset in
  Ok (orm.distinct
        (orm.order_by_name_desc
           (orm.filter_user (Request.user request) queryset))).

Definition perform_create (request : Request.t) (name : string) (db : DB)
  : DB * Tag.t :=
  let t := Tag.mk (next_id (Tag.id <$> tags db)) (Request.user request)
             name in
  (mkDB (users db) (tags db ++ [t]) (ingredients db) (recipes db), t).

(** [CreateModelMixin.create] *)
Definition create (request : Request.t) (name : option string) (db : DB)
  : result (DB * Tag.t) :=
  n ← recpie_serializers.TagSerializer_validate name;
  Ok (perform_create request n db).

End TagViewSet.

Module IngredientViewSet.

Definition get_queryset (request : Request.t) (db : DB)
  : result (list Ingredient.t) :=
  Ok (orm.filter_user (Request.user request) (ingredients db)).

Definition perform_create (request : Request.t) (name : string) (db : DB)
  : DB * Ingredient.t :=
  let i := Ingredient.mk (next_id (Ingredient.id <$> ingredients db)) name
             (Request.user request) in
  (mkDB (users db) (tags db) (ingredients db ++ [i]) (recipes db), i).

(** [CreateModelMixin.create] *)
Definition create (request : Request.t) (name : option string) (db : DB)
  : result (DB * Ingredient.t) :=
  n ← recpie_serializers.IngredientSerializer_validate name;
  Ok (perform_create request n db).

End IngredientViewSet.

Module RecipeViewSet.

(** The list comprehension of [_params_to_ints] over the split parts. *)
Fixpoint ints_of (parts : list string) : result (list Z) :=
  match parts with
  | [] => Ok []
  | str_id :: rest =>
      match Py.int str_id with
      | None => Raise ValueError
      | Some n => ns ← ints_of rest; Ok (n :: ns)
      end
  end.

Definition _params_to_ints (qs : string) : result (list Z) :=
  ints_of (Py.split "," qs).

Definition get_queryset (request : Request.t) (db : DB)
  : result (list Recipe.t) :=
  let tags := Request.query_params request !! "tag"%string in
  let ingredients := Request.query_params request !! "ingredient"%string in
  if Py.truthy tags then
    tags_id ← _params_to_ints (default EmptyString tags);
    Ok (orm.filter_tag_id_in tags_id (recipes db))
  else if Py.truthy ingredients then
    ingredient_id ← _params_to_ints (default EmptyString ingredients);
    Ok (orm.filter_ingredient_id_in ingredient_id (recipes db))
  else
    Ok (orm.filter_user (Request.user request) (recipes db)).

(** [GenericAPIView.get_object]: the row of [get_queryset] with [pk]. *)
Definition get_object (request : Request.t) (pk : Z) (db : DB)
  : result Recipe.t :=
  qs ← get_queryset request db;
  orm.get_or_404 pk qs.

Definition perform_create `{SetOrder} (request : Request.t)
    (v : recpie_serializers.Validated) (db : DB) : result (DB * Recipe.t) :=
  recpie_serializers.RecipeSerializer_create (Request.user request) v db.

(** [CreateModelMixin.create] (POST) *)
Definition create `{SetOrder} (request : Request.t)
    (data : recpie_serializers.RecipeData) (db : DB)
  : result (DB * Recipe.t) :=
  v ← recpie_serializers.RecipeSerializer_validate false data db;
  perform_create request v db.

(** [UpdateModelMixin.update] (PUT), and [partial_update] (PATCH) when
    [partial] is set. *)
Definition update `{SetOrder} (partial : bool) (request : Request.t)
    (pk : Z) (data : recpie_serializers.RecipeData) (db : DB)
  : result (DB * Recipe.t) :=
  instance ← get_object request pk db;
  v ← recpie_serializers.RecipeSerializer_validate partial data db;
  Ok (recpie_serializers.RecipeSerializer_update instance v db).

Inductive SerializerClass : Type :=
  | RecipeSerializer
  | RecipeDetailSerializer
  | RecipeImageSerializer.

(** [action] is [self.action], the name of the running view method. *)
Definition get_serializer_class (action : string) : SerializerClass :=
  if decide (action = "retrieve"%string) then RecipeDetailSerializer
  else if decide (action = "upload_image"%string) then RecipeImageSerializer
  else RecipeSerializer.

Inductive Representation : Type :=
  | Summary (data : recpie_serializers.RecipeRepr)
  | Detail (data : recpie_serializers.RecipeDetailRepr)
  | Image (data : recpie_serializers.RecipeImageRepr).

(** [self.get_serializer(instance).data] *)
Definition serializer_data (action : string) (instance : Recipe.t)
    (db : DB) : Representation :=
  match get_serializer_class action with
  | RecipeSerializer =>
      Summary
        (recpie_serializers.RecipeSerializer_to_representation instance db)
  | RecipeDetailSerializer =>
      Detail
        (recpie_serializers.RecipeDetailSerializer_to_representation
           instance db)
  | RecipeImageSerializer =>
      Image
        (recpie_serializers.RecipeImageSerializer_to_representation
           instance)
  end.

(** [RetrieveModelMixin.retrieve] (GET on one recipe) *)
Definition retrieve (request : Request.t) (pk : Z) (db : DB)
  : result Representation :=
  instance ← get_object request pk db;
  Ok (serializer_data "retrieve" instance db).

(** A response: the status and, unless it reports errors, the data. *)
Record Response : Type := mkResponse {
  status : Z;
  data : option Representation
}.

Definition upload_image `{ImageValidator} `{Storage} (uuid4 : string)
    (request : Request.t) (pk : Z)
    (data : option recpie_serializers.Upload) (db : DB)
  : result (DB * Response) :=
  recipe ← get_object request pk db;
  match recpie_serializers.RecipeImageSerializer_validate data with
  | Ok v =>
      let '(db', r) :=
        recpie_serializers.RecipeImageSerializer_update uuid4 recipe v db in
      Ok (db', mkResponse 200 (Some (serializer_data "upload_image" r db')))
  | Raise ValidationError => Ok (db, mkResponse 400 None)
  | Raise e => Raise e
  end.

End RecipeViewSet.

(** [rest_framework.views.exception_handler]: the status of the response
    for an exception the framework handles; [None] is an exception it lets
    through to the server. *)
Definition exception_handler (e : exn) : option Z :=
  match e with
  | ValidationError => Some 400
  | Http404 => Some 404
  | _ => None
  end.

(** ** user/serializer.py *)

(** The validator of an [EmailField], taken from the framework. *)
Class EmailValidator : Type := valid_email : string → bool.

Module user_serializer.
Section with_framework.
Context `{Hasher} `{EmailValidator}.

(** The payload of a user request; [None] is an absent key. *)
Record UserData : Type := mkUserData {
  email : option string;
  name : option string;
  password : option string
}.

(** [UserSerializer.Meta] *)
Definition fields : list string := ["email"; "name"; "password"]%string.
Definition write_only : list string := ["password"]%string.

Definition getattr (user : User.t) (field : string) : string :=
  if decide (field = "email"%string) then User.email user
  else if decide (field = "name"%string) then User.name user
  else User.password user.

(** [serializer.data]: every declared field that is not write-only. *)
Definition to_representation (user : User.t) : list (string * string) :=
  (λ f, (f, getattr user f)) <$> filter (λ f, f ∉ write_only) fields.

(** [password]: [min_length=5], the column's [max_length=128],
    [trim_whitespace=False]. *)
Definition password_field (partial : bool) (data : option string)
  : result (option string) :=
  match data with
  | None => recpie_serializers.validate_empty partial true
  | Some s =>
      if decide (s = EmptyString) then Raise ValidationError
      else if decide (5 ≤ String.length s ≤ 128)%nat then
        if decide (recpie_serializers.has_null s) then Raise ValidationError
        else Ok (Some s)
      else Raise ValidationError
  end.

(** [email]: an [EmailField] with the unique validator of the column;
    [instance] is the row an update excludes from the uniqueness check. *)
Definition email_field (partial : bool) (instance : option User.t)
    (db : DB) (data : option string) : result (option string) :=
  e ← recpie_serializers.CharField 255 true false partial data;
  match e with
  | None => Ok None
  | Some v =>
      let others :=
        filter (λ u, Some (User.id u) ≠ User.id <$> instance) (users db) in
      if negb (valid_email v) then Raise ValidationError
      else if decide (v ∈ User.email <$> others) then Raise ValidationError
      else Ok (Some v)
  end.

Definition UserSerializer_validate (partial : bool)
    (instance : option User.t) (data : UserData) (db : DB)
  : result UserData :=
  e ← email_field partial instance db (email data);
  n ← recpie_serializers.CharField 50 true false partial (name data);
  p ← password_field partial (password data);
  Ok (mkUserData e n p).

(** [UserSerializer.create] *)
Definition create (validated_data : UserData) (db : DB)
  : result (DB * User.t) :=
  core_models.create_user (email validated_data) (password validated_data)
    (default EmptyString (name validated_data)) db.

(** [UserSerializer.update]: [super().update] assigns the remaining keys
    and saves the row; a password that is not empty is then set and the
    row saved once more. *)
Definition update (instance : User.t) (validated_data : UserData) (db : DB)
  : result (DB * User.t) :=
  let password := password validated_data in
  let user := User.mk (User.id instance)
                (default (User.email instance) (email validated_data))
                (default (User.name instance) (name validated_data))
                (User.password instance) (User.is_active instance)
                (User.is_staff instance) (User.is_superuser instance) in
  db ← core_models.save_user user db;
  if Py.truthy password then
    let user := User.mk (User.id user) (User.email user) (User.name user)
                  (make_password password) (User.is_active user)
                  (User.is_staff user) (User.is_superuser user) in
    db ← core_models.save_user user db;
    Ok (db, user)
  else Ok (db, user).

(** A response: status code and the serialized body. *)
Record Response : Type := mkResponse {
  status : Z;
  data : list (string * string)
}.

(** Modelled from the spec: [user/views.py] is not among the sources; the
    registration endpoint ([POST /users], [CreateApiView] in
    [user/urls.py]) validates the payload with [UserSerializer], saves it
    and answers 201 with the serialized user. *)
Definition CreateApiView_post (payload : UserData) (db : DB)
  : result (DB * Response) :=
  v ← UserSerializer_validate false None payload db;
  '(db', user) ← create v db;
  Ok (db', mkResponse 201 (to_representation user)).

(** Modelled from the spec: [user/views.py] is not among the sources; the
    profile endpoint ([GET /users/me], [ManageUserView] in [user/urls.py])
    answers 200 with the serialized authenticated user. *)
Definition ManageUserView_get (request : Request.t) (db : DB)
  : result Response :=
  user ← orm.get_or_404 (Request.user request) (users db);
  Ok (mkResponse 200 (to_representation user)).

End with_framework.
End user_serializer.

Module AuthTokenSerializer.
Section with_framework.
Context `{PasswordChecker}.

(** [attrs]: the validated fields, and [user] once [validate] has set it. *)
Record Attrs : Type := mkAttrs {
  email : option string;
  password : option string;
  user : option User.t
}.

(** [django.contrib.auth.authenticate] with the model backend: the row
    whose [USERNAME_FIELD], the email, is [username], if its password
    checks and it is active. *)
Definition authenticate (username password : option string) (db : DB)
  : result (option User.t) :=
  match username, password with
  | Some username, Some password =>
      match filter (λ u, User.email u = username) (users db) with
      | [] => Ok None
      | [user] =>
          if check_password password (User.password user)
             && User.is_active user
          then Ok (Some user) else Ok None
      | _ => Raise MultipleObjectsReturned
      end
  | _, _ => Ok None
  end.

Definition validate (attrs : Attrs) (db : DB) : result Attrs :=
  let email := email attrs in
  let password := password attrs in
  user ← authenticate email password db;
  match user with
  | None => Raise ValidationError
  | Some u => Ok (mkAttrs email password (Some u))
  end.

(** The two declared fields: [CharField]s that strip their value; the
    password has no length bound. *)
Definition password_field (data : option string) : result (option string) :=
  match data with
  | None => Raise ValidationError
  | Some s =>
      let v := Py.strip s in
      if decide (v = EmptyString) then Raise ValidationError
      else if decide (recpie_serializers.has_null v) then
        Raise ValidationError
      else Ok (Some v)
  end.

(** [AuthTokenSerializer(data=...).is_valid(raise_exception=True)]: the
    fields, then [validate]. *)
Definition run_validation (email password : option string) (db : DB)
  : result Attrs :=
  e ← recpie_serializers.CharField 255 true false false email;
  p ← password_field password;
  validate (mkAttrs e p None) db.

End with_framework.
End AuthTokenSerializer.


(** ** Sample data: two users and what they own *)

Module sample.

Definition alice : Z := 1.
Definition bob : Z := 2.

(** A stand-in for the framework's hasher and email validator. *)
Definition hasher : Hasher :=
  λ p, ("pbkdf2_sha256$" +:+ default EmptyString p)%string.
Definition email_validator : EmailValidator :=
  λ s, bool_decide (is_Some (Py.rsplit1 "@" s)).

Definition db : DB :=
  mkDB
    [User.mk alice "alice@example.com" "Alice" "pbkdf2_sha256$a" true false
       false;
     User.mk bob "bob@example.com" "Bob" "pbkdf2_sha256$b" true false false]
    [Tag.mk 1 alice "vegan"; Tag.mk 2 alice "dessert";
     Tag.mk 3 bob "italian"; Tag.mk 4 bob "unused"]
    [Ingredient.mk 1 "salt" alice; Ingredient.mk 2 "cream" bob]
    [Recipe.mk 1 alice "soup" 10 350 "" [1] [1; 2] None;
     Recipe.mk 2 bob "pasta" 20 500 "" [2] [1; 3] None].

Definition request (user : Z) (params : list (string * string))
  : Request.t :=
  Request.mk user (list_to_map params).

(** Payloads by Alice that list a tag and an ingredient of Bob. *)
Definition put_payload : recpie_serializers.RecipeData :=
  recpie_serializers.mkData true (Some "ghorme sabzi"%string) (Some [2])
    (Some [3]) (Some 24) (Some 50000) None.

Definition patch_payload : recpie_serializers.RecipeData :=
  recpie_serializers.mkData false (Some " italian pizza "%string) None
    (Some [3]) None None None.

Definition post_payload : recpie_serializers.RecipeData :=
  recpie_serializers.mkData false (Some "pasta alfredo"%string) (Some [2])
    (Some [3; 1]) (Some 10) (Some 1500) None.

(** A stand-in for the order of a set: ascending, as CPython yields a few
    small integers.  It is the order the statements about the sample data
    are evaluated with. *)
#[global] Instance set_order : SetOrder.
Proof.
  refine {| set_iter l := merge_sort Z.le (remove_dups l) |}.
  intros l. apply merge_sort_Permutation.
Defined.

(** Stand-ins for the image check, the storage and the password check. *)
Definition image_validator : ImageValidator :=
  λ name content, Py.endswith "g" name.
Definition storage : Storage := λ name, name.
Definition password_checker : PasswordChecker :=
  λ raw encoded, bool_decide (encoded = hasher (Some raw)).

End sample.


(** ** Vocabulary of the statements about recipe payloads *)

Definition is_Ok {A : Type} (r : result A) : Prop := ∃ a, r = Ok a.

(** The fields of a payload other than the two relationship fields pass
    their validation. *)
Definition scalars_valid (partial : bool)
    (data : recpie_serializers.RecipeData) : Prop :=
  is_Ok (recpie_serializers.CharField 255 true false partial
           (recpie_serializers.title data))
  ∧ is_Ok (recpie_serializers.PositiveIntegerField partial
             (recpie_serializers.time data))
  ∧ is_Ok (recpie_serializers.DecimalField partial
             (recpie_serializers.price data))
  ∧ is_Ok (recpie_serializers.CharField 255 false true partial
             (recpie_serializers.link data)).

(** Every tag id and every ingredient id the payload lists is the primary
    key of a row, of whatever owner. *)
Definition listed_ids_resolve (data : recpie_serializers.RecipeData)
    (db : DB) : Prop :=
  (∀ l, recpie_serializers.tag data = Some l →
        Forall (λ k, ∃ t, t ∈ tags db ∧ Tag.id t = k) l)
  ∧ (∀ l, recpie_serializers.ingredient data = Some l →
          Forall (λ k, ∃ i, i ∈ ingredients db ∧ Ingredient.id i = k) l).

(** A relationship field the payload leaves out is not reported as
    missing: the request is partial, or a form, or it carries both. *)
Definition relations_not_missing (partial : bool)
    (data : recpie_serializers.RecipeData) : Prop :=
  partial = true
  ∨ recpie_serializers.is_html_input data = true
  ∨ (is_Some (recpie_serializers.tag data)
     ∧ is_Some (recpie_serializers.ingredient data)).

(** * Properties *)

(** ** Facts about the queryset operations *)

Lemma elem_of_filter_user {A : Type} `{HasUser A} (u : Z) (qs : list A) x :
  x ∈ orm.filter_user u qs ↔ x ∈ qs ∧ user_of x = u.
Proof. unfold orm.filter_user. rewrite list_elem_of_filter. tauto. Qed.

Lemma elem_of_filter_tag_id_in ids qs r :
  r ∈ orm.filter_tag_id_in ids qs
  ↔ r ∈ qs ∧ ∃ t, t ∈ Recipe.tag r ∧ t ∈ ids.
Proof.
  unfold orm.filter_tag_id_in. rewrite list_elem_of_bind. split.
  - intros (r' & Hin & Hr'). apply list_elem_of_bind in Hin.
    destruct Hin as (t & Hin & Ht). case_decide; [|by apply elem_of_nil in Hin].
    apply list_elem_of_singleton in Hin. subst. eauto.
  - intros (Hr & t & Ht & Hids). exists r. split; [|done].
    apply list_elem_of_bind. exists t. split; [|done].
    rewrite decide_True by done. by apply list_elem_of_singleton.
Qed.

Lemma elem_of_filter_ingredient_id_in ids qs r :
  r ∈ orm.filter_ingredient_id_in ids qs
  ↔ r ∈ qs ∧ ∃ i, i ∈ Recipe.ingredient r ∧ i ∈ ids.
Proof.
  unfold orm.filter_ingredient_id_in. rewrite list_elem_of_bind. split.
  - intros (r' & Hin & Hr'). apply list_elem_of_bind in Hin.
    destruct Hin as (t & Hin & Ht). case_decide; [|by apply elem_of_nil in Hin].
    apply list_elem_of_singleton in Hin. subst. eauto.
  - intros (Hr & t & Ht & Hids). exists r. split; [|done].
    apply list_elem_of_bind. exists t. split; [|done].
    rewrite decide_True by done. by apply list_elem_of_singleton.
Qed.

Lemma elem_of_filter_recipe_isnull_false db qs t :
  t ∈ orm.filter_recipe_isnull_false db qs
  ↔ t ∈ qs ∧ ∃ r, r ∈ recipes db ∧ Tag.id t ∈ Recipe.tag r.
Proof.
  unfold orm.filter_recipe_isnull_false. rewrite list_elem_of_bind. split.
  - intros (t' & Hin & Ht'). apply list_elem_of_bind in Hin.
    destruct Hin as (r & Hin & Hr). apply list_elem_of_bind in Hin.
    destruct Hin as (tid & Hin & Htid).
    case_decide; [|by apply elem_of_nil in Hin].
    apply list_elem_of_singleton in Hin. subst. eauto.
  - intros (Ht & r & Hr & Hid). exists t. split; [|done].
    apply list_elem_of_bind. exists r. split; [|done].
    apply list_elem_of_bind. exists (Tag.id t). split; [|done].
    rewrite decide_True by done. by apply list_elem_of_singleton.
Qed.

Lemma ascii_compare_trans_le a b c :
  Ascii.compare a b ≠ Gt → Ascii.compare b c ≠ Gt →
  Ascii.compare a c ≠ Gt.
Proof.
  unfold Ascii.compare. rewrite !N.compare_le_iff. intros. by etrans.
Qed.

Lemma string_leb_trans s1 s2 s3 :
  String.leb s1 s2 = true → String.leb s2 s3 = true →
  String.leb s1 s3 = true.
Proof.
  unfold String.leb. revert s2 s3.
  induction s1 as [|a s1 IH]; intros [|b s2] [|c s3]; simpl; try done.
  unfold Ascii.compare.
  destruct (N.compare_spec (N_of_ascii a) (N_of_ascii b)) as [Hab|Hab|Hab];
    destruct (N.compare_spec (N_of_ascii b) (N_of_ascii c)) as [Hbc|Hbc|Hbc];
    try done.
  - rewrite Hab, Hbc, N.compare_refl. apply IH.
  - rewrite Hab. by rewrite (proj2 (N.compare_lt_iff _ _) Hbc).
  - rewrite <-Hbc. by rewrite (proj2 (N.compare_lt_iff _ _) Hab).
  - intros _ _. rewrite (proj2 (N.compare_lt_iff _ _)); [done|]. by etrans.
Qed.

#[global] Instance name_desc_total : Total orm.name_desc.
Proof.
  intros a b. unfold orm.name_desc.
  destruct (String.leb_total (Tag.name a) (Tag.name b)); auto.
Qed.

#[global] Instance name_desc_trans : Transitive orm.name_desc.
Proof.
  intros a b c. unfold orm.name_desc. intros. by eapply string_leb_trans.
Qed.

Lemma elem_of_order_by_name_desc qs t :
  t ∈ orm.order_by_name_desc qs ↔ t ∈ qs.
Proof. unfold orm.order_by_name_desc. by rewrite merge_sort_Permutation. Qed.

Lemma StronglySorted_remove_dups {A : Type} `{EqDecision A}
    (R : relation A) (l : list A) :
  StronglySorted R l → StronglySorted R (remove_dups l).
Proof.
  induction 1 as [|x l Hl IH Hx]; simpl; [constructor|].
  destruct (decide_rel elem_of x l); [done|]. constructor; [done|].
  apply Forall_forall. intros y Hy. rewrite elem_of_remove_dups in Hy.
  rewrite Forall_forall in Hx. by apply Hx.
Qed.


(** ** Listing *)

Lemma tag_listing_spec (db : DB) (u : Z) (qs : list Tag.t) (t : Tag.t) :
  t ∈ orm.distinct (orm.order_by_name_desc (orm.filter_user u qs))
  ↔ t ∈ qs ∧ Tag.user t = u.
Proof.
  unfold orm.distinct. rewrite elem_of_remove_dups.
  rewrite elem_of_order_by_name_desc. apply elem_of_filter_user.
Qed.

Lemma tag_listing_sorted (qs : list Tag.t) :
  StronglySorted orm.name_desc (orm.distinct (orm.order_by_name_desc qs)).
Proof.
  apply StronglySorted_remove_dups. unfold orm.order_by_name_desc.
  apply StronglySorted_merge_sort; apply _.
Qed.

Lemma tag_default_listing (u : Z) (db : DB) :
  TagViewSet.get_queryset (Request.mk u ∅) db
  = Ok (orm.distinct (orm.order_by_name_desc (orm.filter_user u (tags db)))).
Proof. unfold TagViewSet.get_queryset. simpl. by rewrite lookup_empty. Qed.

Lemma recipe_default_listing (u : Z) (db : DB) :
  RecipeViewSet.get_queryset (Request.mk u ∅) db
  = Ok (orm.filter_user u (recipes db)).
Proof. unfold RecipeViewSet.get_queryset. simpl. by rewrite !lookup_empty. Qed.

Lemma tag_create_owner request name db db' t :
  TagViewSet.create request name db = Ok (db', t) →
  Tag.user t = Request.user request ∧ t ∈ tags db'.
Proof.
  unfold TagViewSet.create.
  destruct (recpie_serializers.TagSerializer_validate name) as [n|e];
    simpl; [|done].
  intros [= <- <-]. simpl. split; [done|].
  apply elem_of_app. right. by apply list_elem_of_singleton.
Qed.

Lemma ingredient_create_owner request name db db' i :
  IngredientViewSet.create request name db = Ok (db', i) →
  Ingredient.user i = Request.user request ∧ i ∈ ingredients db'.
Proof.
  unfold IngredientViewSet.create.
  destruct (recpie_serializers.IngredientSerializer_validate name) as [n|e];
    simpl; [|done].
  intros [= <- <-]. simpl. split; [done|].
  apply elem_of_app. right. by apply list_elem_of_singleton.
Qed.

Lemma recipe_serializer_create_owner `{SetOrder} u v db db' r :
  recpie_serializers.RecipeSerializer_create u v db = Ok (db', r) →
  Recipe.user r = u ∧ r ∈ recipes db'.
Proof.
  unfold recpie_serializers.RecipeSerializer_create.
  destruct (recpie_serializers.v_time v); [|done].
  destruct (recpie_serializers.v_price v); [|done].
  intros [= <- <-]. simpl. split; [done|].
  apply elem_of_app. right. by apply list_elem_of_singleton.
Qed.

Lemma recipe_create_owner `{SetOrder} request data db db' r :
  RecipeViewSet.create request data db = Ok (db', r) →
  Recipe.user r = Request.user request ∧ r ∈ recipes db'.
Proof.
  unfold RecipeViewSet.create, RecipeViewSet.perform_create.
  destruct (recpie_serializers.RecipeSerializer_validate false data db)
    as [v|e]; simpl; [|done].
  apply recipe_serializer_create_owner.
Qed.

(** C1. For distinct users U1 and U2, the default listing (no query
    parameters) of tags, of ingredients and of recipes requested by U2
    returns only rows whose owner is U2; a tag, ingredient or recipe that
    U1 created carries U1 as owner and is in none of U2's listings. *)
Theorem C1_default_listing_owner_scoped `{SetOrder} (db : DB) (u1 u2 : Z) :
  u1 ≠ u2 →
  (∃ l, TagViewSet.get_queryset (Request.mk u2 ∅) db = Ok l
        ∧ (∀ t, t ∈ l → Tag.user t = u2)
        ∧ (∀ request name db0 db1 t,
             Request.user request = u1 →
             TagViewSet.create request name db0 = Ok (db1, t) → t ∉ l))
  ∧ (∃ l, IngredientViewSet.get_queryset (Request.mk u2 ∅) db = Ok l
        ∧ (∀ i, i ∈ l → Ingredient.user i = u2)
        ∧ (∀ request name db0 db1 i,
             Request.user request = u1 →
             IngredientViewSet.create request name db0 = Ok (db1, i) →
             i ∉ l))
  ∧ (∃ l, RecipeViewSet.get_queryset (Request.mk u2 ∅) db = Ok l
        ∧ (∀ r, r ∈ l → Recipe.user r = u2)
        ∧ (∀ request data db0 db1 r,
             Request.user request = u1 →
             RecipeViewSet.create request data db0 = Ok (db1, r) → r ∉ l)).
Proof.
  intros Hne. split; [|split].
  - eexists. split; [apply tag_default_listing|].
    assert (Hown : ∀ t,
      t ∈ orm.distinct (orm.order_by_name_desc (orm.filter_user u2 (tags db)))
      → Tag.user t = u2).
    { intros t Ht. by apply (tag_listing_spec db) in Ht as [_ ?]. }
    split; [done|].
    intros request name db0 db1 t Hu Hc Hin.
    apply tag_create_owner in Hc as [Hc _]. apply Hown in Hin. congruence.
  - eexists. split; [reflexivity|]. simpl.
    assert (Hown : ∀ i, i ∈ orm.filter_user u2 (ingredients db)
                        → Ingredient.user i = u2).
    { intros i Hi. by apply elem_of_filter_user in Hi as [_ ?]. }
    split; [done|].
    intros request name db0 db1 i Hu Hc Hin.
    apply ingredient_create_owner in Hc as [Hc _]. apply Hown in Hin.
    congruence.
  - eexists. split; [apply recipe_default_listing|].
    assert (Hown : ∀ r, r ∈ orm.filter_user u2 (recipes db)
                        → Recipe.user r = u2).
    { intros r Hr. by apply elem_of_filter_user in Hr as [_ ?]. }
    split; [done|].
    intros request data db0 db1 r Hu Hc Hin.
    apply recipe_create_owner in Hc as [Hc _]. apply Hown in Hin.
    congruence.
Qed.

(** C1 on the sample data: Bob's tag listing and a tag Alice creates. *)
Lemma C1_witness :
  ∃ l, TagViewSet.get_queryset (Request.mk sample.bob ∅) sample.db = Ok l
       ∧ (∀ t, t ∈ l → Tag.user t = sample.bob)
       ∧ ∀ db1 t,
           TagViewSet.create (sample.request sample.alice [])
             (Some "vegan"%string) sample.db = Ok (db1, t) →
           t ∉ l.
Proof.
  destruct (C1_default_listing_owner_scoped sample.db sample.alice
              sample.bob) as [(l & Hl & Hown & Hnot) _]; [done|].
  exists l. split; [exact Hl|]. split; [exact Hown|].
  intros db1 t Hc.
  exact (Hnot (sample.request sample.alice []) _ _ _ _ eq_refl Hc).
Defined.

(** ** Query parameters of the recipe listing *)

Lemma ints_of_Ok parts ids :
  RecipeViewSet.ints_of parts = Ok ids
  ↔ Forall2 (λ p n, Py.int p = Some n) parts ids.
Proof.
  revert ids. induction parts as [|p parts IH]; intros ids; simpl.
  - split; [intros [= <-]; constructor|]. by inversion 1.
  - destruct (Py.int p) as [n|] eqn:Hp.
    + destruct (RecipeViewSet.ints_of parts) as [ns|e]; simpl.
      * split.
        -- intros [= <-]. constructor; [done|]. by apply IH.
        -- inversion 1 as [|? ? ? l' Hn Hrest]; subst.
           apply IH in Hrest. congruence.
      * split; [done|]. inversion 1 as [|? ? ? l' Hn Hrest]; subst.
        by apply IH in Hrest.
    + split; [done|]. inversion 1; congruence.
Qed.

Lemma ints_of_total parts :
  Forall (λ p, is_Some (Py.int p)) parts →
  ∃ ids, RecipeViewSet.ints_of parts = Ok ids.
Proof.
  induction 1 as [|p parts [n Hn] _ [ids IH]]; simpl; [by eexists|].
  rewrite Hn, IH. simpl. by eexists.
Qed.

Lemma ints_of_Raise parts :
  (∃ p, p ∈ parts ∧ Py.int p = None) →
  RecipeViewSet.ints_of parts = Raise ValueError.
Proof.
  intros (p & Hin & Hp).
  induction parts as [|q parts IH]; [by apply elem_of_nil in Hin|].
  simpl. destruct (Py.int q) as [n|] eqn:Hq; [|done].
  apply elem_of_cons in Hin as [->|Hin]; [congruence|].
  by rewrite IH.
Qed.

Lemma params_to_ints_nonempty s ids :
  RecipeViewSet._params_to_ints s = Ok ids → Py.truthy (Some s) = true.
Proof. by destruct s. Qed.

Lemma get_queryset_tag_path request db s :
  Request.query_params request !! "tag"%string = Some s →
  Py.truthy (Some s) = true →
  RecipeViewSet.get_queryset request db
  = (tags_id ← RecipeViewSet._params_to_ints s;
     Ok (orm.filter_tag_id_in tags_id (recipes db))).
Proof.
  intros Hs Ht. unfold RecipeViewSet.get_queryset. by rewrite Hs, Ht.
Qed.

Lemma get_queryset_ingredient_path request db s :
  Py.truthy (Request.query_params request !! "tag"%string) = false →
  Request.query_params request !! "ingredient"%string = Some s →
  Py.truthy (Some s) = true →
  RecipeViewSet.get_queryset request db
  = (ingredient_id ← RecipeViewSet._params_to_ints s;
     Ok (orm.filter_ingredient_id_in ingredient_id (recipes db))).
Proof.
  intros Ht Hs Hi. unfold RecipeViewSet.get_queryset. by rewrite Ht, Hs, Hi.
Qed.

Lemma get_queryset_owner_path request db :
  Py.truthy (Request.query_params request !! "tag"%string) = false →
  Py.truthy (Request.query_params request !! "ingredient"%string) = false →
  RecipeViewSet.get_queryset request db
  = Ok (orm.filter_user (Request.user request) (recipes db)).
Proof.
  intros Ht Hi. unfold RecipeViewSet.get_queryset. by rewrite Ht, Hi.
Qed.

(** The join of the tag filter yields a recipe once per matching link:
    recipe 1 carries both listed tags. *)
Example tag_filter_row_per_link :
  ∃ l, RecipeViewSet.get_queryset
         (sample.request sample.alice [("tag", "1,2")]%string) sample.db
       = Ok l
       ∧ Recipe.id <$> l = [1; 1; 2].
Proof. eexists. split; reflexivity. Qed.

(** C2. On a recipe list request: when the [tag] parameter is present and
    lists ids, the result holds exactly the recipes with at least one tag
    whose id is listed, whoever owns them and whatever the [ingredient]
    parameter says (any request with the same [tag] parameter gets the
    same result); when [tag] is absent and [ingredient] is present and
    lists ids, the result holds exactly the recipes with at least one
    listed ingredient, whoever owns them; when both are absent, the result
    holds exactly the recipes owned by the requesting user. *)
Theorem C2_recipe_list_filter_precedence (request : Request.t) (db : DB) :
  let params := Request.query_params request in
  (∀ s ids,
     params !! "tag"%string = Some s →
     RecipeViewSet._params_to_ints s = Ok ids →
     ∃ l, RecipeViewSet.get_queryset request db = Ok l
          ∧ (∀ r, r ∈ l
                  ↔ r ∈ recipes db ∧ ∃ t, t ∈ Recipe.tag r ∧ t ∈ ids)
          ∧ (∀ request',
               Request.query_params request' !! "tag"%string = Some s →
               RecipeViewSet.get_queryset request' db = Ok l))
  ∧ (∀ s ids,
       params !! "tag"%string = None →
       params !! "ingredient"%string = Some s →
       RecipeViewSet._params_to_ints s = Ok ids →
       ∃ l, RecipeViewSet.get_queryset request db = Ok l
            ∧ (∀ r, r ∈ l
                    ↔ r ∈ recipes db
                      ∧ ∃ i, i ∈ Recipe.ingredient r ∧ i ∈ ids)
            ∧ (∀ request',
                 Request.query_params request' !! "tag"%string = None →
                 Request.query_params request' !! "ingredient"%string
                 = Some s →
                 RecipeViewSet.get_queryset request' db = Ok l))
  ∧ (params !! "tag"%string = None →
     params !! "ingredient"%string = None →
     ∃ l, RecipeViewSet.get_queryset request db = Ok l
          ∧ ∀ r, r ∈ l
                 ↔ r ∈ recipes db ∧ Recipe.user r = Request.user request).
Proof.
  intros params. subst params. split; [|split].
  - intros s ids Hs Hids. pose proof (params_to_ints_nonempty _ _ Hids) as Ht.
    exists (orm.filter_tag_id_in ids (recipes db)). split; [|split].
    + rewrite (get_queryset_tag_path _ _ _ Hs Ht), Hids. done.
    + intros r. apply elem_of_filter_tag_id_in.
    + intros request' Hs'.
      rewrite (get_queryset_tag_path _ _ _ Hs' Ht), Hids. done.
  - intros s ids Hnone Hs Hids.
    pose proof (params_to_ints_nonempty _ _ Hids) as Hi.
    exists (orm.filter_ingredient_id_in ids (recipes db)). split; [|split].
    + rewrite (get_queryset_ingredient_path _ _ s); [by rewrite Hids|..];
        [by rewrite Hnone|done|done].
    + intros r. apply elem_of_filter_ingredient_id_in.
    + intros request' Hnone' Hs'.
      rewrite (get_queryset_ingredient_path _ _ s); [by rewrite Hids|..];
        [by rewrite Hnone'|done|done].
  - intros Ht Hi. eexists. split.
    + apply get_queryset_owner_path; [by rewrite Ht|by rewrite Hi].
    + intros r. apply elem_of_filter_user.
Qed.

(** C2 on the sample data, one request per branch. *)
Lemma C2_witness :
  (∃ l, RecipeViewSet.get_queryset
          (sample.request sample.alice
             [("tag", "1, 3"); ("ingredient", "2")]%string) sample.db = Ok l
        ∧ ∀ r, r ∈ l
               ↔ r ∈ recipes sample.db
                 ∧ ∃ t, t ∈ Recipe.tag r ∧ t ∈ [1; 3])
  ∧ (∃ l, RecipeViewSet.get_queryset
            (sample.request sample.alice [("ingredient", "2")]%string)
            sample.db = Ok l
          ∧ ∀ r, r ∈ l
                 ↔ r ∈ recipes sample.db
                   ∧ ∃ i, i ∈ Recipe.ingredient r ∧ i ∈ [2])
  ∧ (∃ l, RecipeViewSet.get_queryset (sample.request sample.alice [])
            sample.db = Ok l
          ∧ ∀ r, r ∈ l
                 ↔ r ∈ recipes sample.db ∧ Recipe.user r = sample.alice).
Proof.
  split; [|split].
  - destruct (C2_recipe_list_filter_precedence
                (sample.request sample.alice
                   [("tag", "1, 3"); ("ingredient", "2")]%string) sample.db)
      as [H _].
    destruct (H "1, 3"%string [1; 3]) as (l & Hl & Hspec & _);
      [reflexivity|reflexivity|]. by exists l.
  - destruct (C2_recipe_list_filter_precedence
                (sample.request sample.alice [("ingredient", "2")]%string)
                sample.db) as (_ & H & _).
    destruct (H "2"%string [2]) as (l & Hl & Hspec & _);
      [reflexivity|reflexivity|reflexivity|]. by exists l.
  - destruct (C2_recipe_list_filter_precedence
                (sample.request sample.alice []) sample.db) as (_ & _ & H).
    apply H; reflexivity.
Defined.

(** ** Owner scoping of the listings *)

(** C3, as stated, fails: Bob's ingredient listing and Bob's unfiltered
    recipe listing leave out the ingredient and the recipe Alice owns, so
    both are filtered by the owning user. *)
Lemma C3_counterexample :
  Ingredient.mk 1 "salt" sample.alice ∈ ingredients sample.db
  ∧ IngredientViewSet.get_queryset (sample.request sample.bob []) sample.db
    = Ok [Ingredient.mk 2 "cream" sample.bob]
  ∧ Recipe.mk 1 sample.alice "soup" 10 350 "" [1] [1; 2] None
    ∈ recipes sample.db
  ∧ RecipeViewSet.get_queryset (sample.request sample.bob []) sample.db
    = Ok [Recipe.mk 2 sample.bob "pasta" 20 500 "" [2] [1; 3] None].
Proof.
  split; [|split; [|split]].
  - constructor.
  - reflexivity.
  - constructor.
  - reflexivity.
Qed.

(** C3, amended. The ingredient listing and the unfiltered recipe listing
    return exactly the rows owned by the requesting user, as the tag
    listing does; only the tag-filter and ingredient-filter paths of the
    recipe listing leave the owner out: their result is the same for every
    requesting user, and holds every recipe with a listed tag or
    ingredient, whoever owns it. *)
Theorem C3_owner_scoping_by_path (db : DB) (u u' : Z)
    (params : gmap string string) :
  (∃ l, IngredientViewSet.get_queryset (Request.mk u params) db = Ok l
        ∧ ∀ i, i ∈ l ↔ i ∈ ingredients db ∧ Ingredient.user i = u)
  ∧ (∃ l, RecipeViewSet.get_queryset (Request.mk u ∅) db = Ok l
          ∧ ∀ r, r ∈ l ↔ r ∈ recipes db ∧ Recipe.user r = u)
  ∧ (∃ l, TagViewSet.get_queryset (Request.mk u ∅) db = Ok l
          ∧ ∀ t, t ∈ l ↔ t ∈ tags db ∧ Tag.user t = u)
  ∧ (Py.truthy (params !! "tag"%string) = true
     ∨ Py.truthy (params !! "ingredient"%string) = true →
     RecipeViewSet.get_queryset (Request.mk u params) db
     = RecipeViewSet.get_queryset (Request.mk u' params) db)
  ∧ (∀ s ids r t,
       params !! "tag"%string = Some s →
       RecipeViewSet._params_to_ints s = Ok ids →
       r ∈ recipes db → t ∈ Recipe.tag r → t ∈ ids →
       ∃ l, RecipeViewSet.get_queryset (Request.mk u params) db = Ok l
            ∧ r ∈ l)
  ∧ (∀ s ids r i,
       Py.truthy (params !! "tag"%string) = false →
       params !! "ingredient"%string = Some s →
       RecipeViewSet._params_to_ints s = Ok ids →
       r ∈ recipes db → i ∈ Recipe.ingredient r → i ∈ ids →
       ∃ l, RecipeViewSet.get_queryset (Request.mk u params) db = Ok l
            ∧ r ∈ l).
Proof.
  split; [|split; [|split; [|split; [|split]]]].
  - eexists. split; [reflexivity|]. intros i. apply elem_of_filter_user.
  - eexists. split; [apply recipe_default_listing|].
    intros r. apply elem_of_filter_user.
  - eexists. split; [apply tag_default_listing|].
    intros t. apply (tag_listing_spec db).
  - unfold RecipeViewSet.get_queryset. simpl.
    destruct (Py.truthy (params !! "tag"%string)); [done|].
    destruct (Py.truthy (params !! "ingredient"%string)); [done|].
    by intros [|].
  - intros s ids r t Hs Hids Hr Ht Hin.
    pose proof (params_to_ints_nonempty _ _ Hids) as Hne.
    eexists. split.
    + rewrite (get_queryset_tag_path _ _ s); [by rewrite Hids|done|done].
    + apply elem_of_filter_tag_id_in. eauto.
  - intros s ids r i Hnt Hs Hids Hr Hi Hin.
    pose proof (params_to_ints_nonempty _ _ Hids) as Hne.
    eexists. split.
    + rewrite (get_queryset_ingredient_path _ _ s);
        [by rewrite Hids|done|done|done].
    + apply elem_of_filter_ingredient_id_in. eauto.
Qed.

(** C3 on the sample data: Bob filters by tag and gets Alice's recipe. *)
Lemma C3_witness :
  ∃ l, RecipeViewSet.get_queryset
         (sample.request sample.bob [("tag", "2")]%string) sample.db = Ok l
       ∧ Recipe.mk 1 sample.alice "soup" 10 350 "" [1] [1; 2] None ∈ l.
Proof.
  destruct (C3_owner_scoping_by_path sample.db sample.bob sample.alice
              (list_to_map [("tag", "2")]%string)) as (_ & _ & _ & _ & H & _).
  apply (H "2"%string [2] _ 2); try reflexivity.
  - constructor.
  - do 2 constructor.
  - constructor.
Defined.

(** ** The tag listing *)

(** C6. On a tag list request whose [assigned_only] parameter reads as a
    non-zero integer, the result holds exactly the tags of the requesting
    user that some recipe (of any user) is linked to, each tag once; when
    the parameter is absent or reads as zero, the result holds exactly the
    tags of the requesting user, each once; in both cases the names go
    down along the result. *)
Theorem C6_tag_listing (request : Request.t) (db : DB) :
  let assigned_only :=
    Request.query_params request !! "assigned_only"%string in
  let sorted l :=
    StronglySorted
      (λ a b, String.leb (Tag.name b) (Tag.name a) = true) l in
  (∀ s n,
     assigned_only = Some s → Py.int s = Some n → n ≠ 0 →
     ∃ l, TagViewSet.get_queryset request db = Ok l
          ∧ (∀ t, t ∈ l
                  ↔ (t ∈ tags db ∧ Tag.user t = Request.user request)
                    ∧ ∃ r, r ∈ recipes db ∧ Tag.id t ∈ Recipe.tag r)
          ∧ NoDup l ∧ sorted l)
  ∧ (assigned_only = None
     ∨ (∃ s, assigned_only = Some s ∧ Py.int s = Some 0) →
     ∃ l, TagViewSet.get_queryset request db = Ok l
          ∧ (∀ t, t ∈ l
                  ↔ t ∈ tags db ∧ Tag.user t = Request.user request)
          ∧ NoDup l ∧ sorted l).
Proof.
  intros assigned_only sorted. subst assigned_only sorted. split.
  - intros s n Hs Hn Hnz. unfold TagViewSet.get_queryset.
    rewrite Hs, Hn. simpl. rewrite bool_decide_true by done.
    eexists. split; [reflexivity|]. split; [|split].
    + intros t. rewrite (tag_listing_spec db).
      rewrite elem_of_filter_recipe_isnull_false. tauto.
    + apply NoDup_remove_dups.
    + apply tag_listing_sorted.
  - intros Hz.
    assert (TagViewSet.get_queryset request db
            = Ok (orm.distinct (orm.order_by_name_desc
                    (orm.filter_user (Request.user request) (tags db)))))
      as ->.
    { unfold TagViewSet.get_queryset.
      destruct Hz as [->|(s & -> & ->)]; done. }
    eexists. split; [reflexivity|]. split; [|split].
    + intros t. apply (tag_listing_spec db).
    + apply NoDup_remove_dups.
    + apply tag_listing_sorted.
Qed.

(** C6 on the sample data, with the flag set and with the flag cleared. *)
Lemma C6_witness :
  (∃ l, TagViewSet.get_queryset
          (sample.request sample.bob [("assigned_only", "1")]%string)
          sample.db = Ok l
        ∧ NoDup l)
  ∧ (∃ l, TagViewSet.get_queryset
            (sample.request sample.bob [("assigned_only", "0")]%string)
            sample.db = Ok l
          ∧ NoDup l).
Proof.
  split.
  - destruct (C6_tag_listing
                (sample.request sample.bob [("assigned_only", "1")]%string)
                sample.db) as [H _].
    destruct (H "1"%string 1) as (l & Hl & _ & Hnd & _);
      [reflexivity|reflexivity|done|]. by exists l.
  - destruct (C6_tag_listing
                (sample.request sample.bob [("assigned_only", "0")]%string)
                sample.db) as [_ H].
    destruct H as (l & Hl & _ & Hnd & _).
    + right. exists "0"%string. split; reflexivity.
    + by exists l.
Defined.

(** ** Partiality of the query-parameter parsing *)

(** C10, as stated, fails: with a [tag] parameter that lists ids, a
    non-empty [ingredient] parameter with an element that is no integer is
    never parsed, and the listing returns. *)
Lemma C10_counterexample :
  Py.int "x" = None
  ∧ "x"%string ∈ Py.split "," "2,x"
  ∧ RecipeViewSet.get_queryset
      (sample.request sample.alice
         [("tag", "3"); ("ingredient", "2,x")]%string) sample.db
    = Ok [Recipe.mk 2 sample.bob "pasta" 20 500 "" [2] [1; 3] None].
Proof.
  split; [reflexivity|]. split; [|reflexivity].
  do 2 constructor.
Qed.

(** C10, amended. The parameter the recipe listing parses is [tag] when it
    is non-empty, and [ingredient] when it is non-empty and [tag] is absent
    or empty.  If some comma-separated element of the parsed parameter is
    not accepted by [int], the listing raises [ValueError], which is no
    [ValidationError] and which the exception handler of the framework
    lets through; if every element is accepted, the listing returns.  An
    empty parameter value is treated as an absent one, and with both
    parameters absent or empty the listing returns the recipes of the
    requesting user. *)
Theorem C10_query_parameter_parsing (request : Request.t) (db : DB) :
  let params := Request.query_params request in
  let parsed (s : string) :=
    (params !! "tag"%string = Some s
     ∨ (Py.truthy (params !! "tag"%string) = false
        ∧ params !! "ingredient"%string = Some s))
    ∧ s ≠ EmptyString in
  (∀ s, parsed s →
     (∃ p, p ∈ Py.split "," s ∧ Py.int p = None) →
     RecipeViewSet.get_queryset request db = Raise ValueError
     ∧ ValueError ≠ ValidationError
     ∧ exception_handler ValueError = None)
  ∧ (∀ s, parsed s →
       Forall (λ p, is_Some (Py.int p)) (Py.split "," s) →
       ∃ l, RecipeViewSet.get_queryset request db = Ok l)
  ∧ (params !! "tag"%string = Some EmptyString →
     RecipeViewSet.get_queryset request db
     = RecipeViewSet.get_queryset
         (Request.mk (Request.user request) (delete "tag"%string params)) db)
  ∧ (params !! "ingredient"%string = Some EmptyString →
     RecipeViewSet.get_queryset request db
     = RecipeViewSet.get_queryset
         (Request.mk (Request.user request)
            (delete "ingredient"%string params)) db)
  ∧ (Py.truthy (params !! "tag"%string) = false →
     Py.truthy (params !! "ingredient"%string) = false →
     ∃ l, RecipeViewSet.get_queryset request db = Ok l
          ∧ ∀ r, r ∈ l
                 ↔ r ∈ recipes db ∧ Recipe.user r = Request.user request).
Proof.
  intros params parsed. subst params parsed. simpl.
  assert (Hpath : ∀ s,
    (Request.query_params request !! "tag"%string = Some s
     ∨ (Py.truthy (Request.query_params request !! "tag"%string) = false
        ∧ Request.query_params request !! "ingredient"%string = Some s))
    ∧ s ≠ EmptyString →
    ∃ k : list Z → list Recipe.t,
      RecipeViewSet.get_queryset request db
      = (ids ← RecipeViewSet._params_to_ints s; Ok (k ids))).
  { intros s [[Hs|[Ht Hs]] Hne].
    - eexists. apply get_queryset_tag_path; [done|]. by destruct s.
    - eexists. apply get_queryset_ingredient_path; [done|done|].
      by destruct s. }
  split; [|split; [|split; [|split]]].
  - intros s Hs Hbad. destruct (Hpath s Hs) as [k ->].
    unfold RecipeViewSet._params_to_ints.
    by rewrite (ints_of_Raise _ Hbad).
  - intros s Hs Hall. destruct (Hpath s Hs) as [k ->].
    destruct (ints_of_total _ Hall) as [ids Hids].
    unfold RecipeViewSet._params_to_ints. rewrite Hids. by eexists.
  - intros Ht. unfold RecipeViewSet.get_queryset. simpl.
    rewrite Ht, lookup_delete_eq, lookup_delete_ne by done. done.
  - intros Hi. unfold RecipeViewSet.get_queryset. simpl.
    rewrite Hi, lookup_delete_eq, lookup_delete_ne by done. done.
  - intros Ht Hi. eexists. split.
    + by apply get_queryset_owner_path.
    + intros r. apply elem_of_filter_user.
Qed.

(** C10 on the sample data: a malformed and a well-formed parameter. *)
Lemma C10_witness :
  RecipeViewSet.get_queryset
    (sample.request sample.alice
       [("tag", ""); ("ingredient", "2,x")]%string) sample.db
  = Raise ValueError
  ∧ ∃ l, RecipeViewSet.get_queryset
           (sample.request sample.alice [("tag", "1, 2")]%string) sample.db
         = Ok l.
Proof.
  split.
  - destruct (C10_query_parameter_parsing
                (sample.request sample.alice
                   [("tag", ""); ("ingredient", "2,x")]%string) sample.db)
      as [H _].
    apply (H "2,x"%string).
    + split; [right; split; reflexivity|done].
    + exists "x"%string. split; [do 2 constructor|reflexivity].
  - destruct (C10_query_parameter_parsing
                (sample.request sample.alice [("tag", "1, 2")]%string)
                sample.db) as (_ & H & _).
    apply (H "1, 2"%string).
    + split; [left; reflexivity|done].
    + repeat constructor; by eexists.
Defined.

(** ** Users: email normalization and passwords *)

Lemma rsplit1_Some sep s a b :
  Py.rsplit1 sep s = Some (a, b) →
  s = (a +:+ String sep b)%string ∧ sep ∉ list_ascii_of_string b.
Proof.
  revert a. induction s as [|c s IH]; intros a; simpl; [done|].
  destruct (Py.rsplit1 sep s) as [[a' b']|] eqn:Hs.
  - intros [= <- <-]. destruct (IH a' eq_refl) as [-> Hb]. done.
  - destruct (Ascii.eqb_spec c sep) as [->|Hne]; [|done].
    intros [= <- <-]. split; [done|].
    clear IH. induction s as [|d s IHs]; simpl; [apply not_elem_of_nil|].
    simpl in Hs. destruct (Py.rsplit1 sep s) as [[a' b']|]; [done|].
    destruct (Ascii.eqb_spec d sep) as [->|Hd]; [done|].
    apply not_elem_of_cons. split; [congruence|]. by apply IHs.
Qed.

Lemma rsplit1_None sep s :
  Py.rsplit1 sep s = None ↔ sep ∉ list_ascii_of_string s.
Proof.
  induction s as [|c s IH]; simpl; [by split; [intros _ ?%elem_of_nil|]|].
  rewrite not_elem_of_cons, <-IH.
  destruct (Py.rsplit1 sep s) as [[a b]|].
  - split; [done|]. by intros [_ ?].
  - destruct (Ascii.eqb_spec c sep) as [->|Hne]; split; try done.
    by intros [? _].
Qed.

Lemma elem_of_lstrip c s :
  c ∈ list_ascii_of_string (Py.lstrip s) → c ∈ list_ascii_of_string s.
Proof.
  induction s as [|d s IH]; simpl; [done|].
  destruct (Py.isspace d); [|done]. intros ?. apply elem_of_cons. auto.
Qed.

Lemma elem_of_rstrip c s :
  c ∈ list_ascii_of_string (Py.rstrip s) → c ∈ list_ascii_of_string s.
Proof.
  induction s as [|d s IH]; simpl; [done|].
  destruct (Py.rstrip s) as [|e t] eqn:Hr.
  - destruct (Py.isspace d); simpl; [by intros ?%elem_of_nil|].
    intros [->|?%elem_of_nil]%elem_of_cons; [|done]. apply elem_of_cons. auto.
  - simpl. intros [->|Hin]%elem_of_cons; apply elem_of_cons; auto.
Qed.

Lemma elem_of_strip c s :
  c ∈ list_ascii_of_string (Py.strip s) → c ∈ list_ascii_of_string s.
Proof. intros ?%elem_of_rstrip. by apply elem_of_lstrip. Qed.

Lemma elem_of_lstrip_keep c s :
  Py.isspace c = false →
  c ∈ list_ascii_of_string s → c ∈ list_ascii_of_string (Py.lstrip s).
Proof.
  intros Hc. induction s as [|d s IH]; simpl; [done|].
  destruct (Py.isspace d) eqn:Hd; [|done].
  intros [->|?]%elem_of_cons; [congruence|auto].
Qed.

Lemma elem_of_rstrip_keep c s :
  Py.isspace c = false →
  c ∈ list_ascii_of_string s → c ∈ list_ascii_of_string (Py.rstrip s).
Proof.
  intros Hc. induction s as [|d s IH]; simpl; [done|].
  intros [->|Hin]%elem_of_cons.
  - destruct (Py.rstrip s); [rewrite Hc|]; simpl; apply elem_of_cons; auto.
  - specialize (IH Hin). destruct (Py.rstrip s); simpl in *.
    + by apply elem_of_nil in IH.
    + apply elem_of_cons. auto.
Qed.

Lemma at_sign_strip s :
  ("@"%char) ∈ list_ascii_of_string s →
  ("@"%char) ∈ list_ascii_of_string (Py.strip s).
Proof.
  intros ?. by apply elem_of_rstrip_keep, elem_of_lstrip_keep.
Qed.

Section users.
Context `{Hasher} `{EmailValidator}.

Lemma normalize_email_spec (e : string) :
  ((("@"%char) ∉ list_ascii_of_string e)
   ∧ core_models.normalize_email (Some e) = e)
  ∨ (∃ email_name domain_part,
       Py.strip e = (email_name +:+ "@" +:+ domain_part)%string
       ∧ (("@"%char) ∉ list_ascii_of_string domain_part)
       ∧ core_models.normalize_email (Some e)
         = (email_name +:+ "@" +:+ Py.lower domain_part)%string).
Proof.
  unfold core_models.normalize_email. simpl.
  destruct (Py.rsplit1 "@" (Py.strip e)) as [[a b]|] eqn:Hs.
  - right. exists a, b. apply rsplit1_Some in Hs as [-> Hb]. done.
  - left. split; [|done]. apply rsplit1_None in Hs.
    intros Hin. by apply Hs, at_sign_strip.
Qed.

Lemma create_user_Ok (e : string) (password : option string)
    (name : string) (db db' : DB) (u : User.t) :
  core_models.create_user (Some e) password name db = Ok (db', u) →
  User.email u = core_models.normalize_email (Some e)
  ∧ User.password u = make_password password
  ∧ User.name u = name
  ∧ users db' = users db ++ [u].
Proof.
  unfold core_models.create_user, core_models.save_new_user.
  destruct (negb (Py.truthy (Some e))); [done|]. simpl.
  case_decide; [done|]. by intros [= <- <-].
Qed.

Lemma create_user_accepts (e : string) (password : option string)
    (name : string) (db : DB) :
  (∃ db' u, core_models.create_user (Some e) password name db = Ok (db', u))
  ↔ e ≠ EmptyString
    ∧ core_models.normalize_email (Some e) ∉ User.email <$> users db.
Proof.
  unfold core_models.create_user, core_models.save_new_user.
  destruct e as [|c e]; simpl.
  - split; [by intros (? & ? & ?)|by intros [? _]].
  - case_decide as Hin; split.
    + by intros (? & ? & ?).
    + by intros [_ ?].
    + done.
    + intros _. by do 2 eexists.
Qed.

(** C7, at the failing input.  For [Test@TEST.COM], [create_user] stores
    [Test@test.com]: the local part keeps its capital, so the stored email
    is neither the lowercase form of the input nor its own lowercase form,
    which is what the repository's test of normalization asserts of a
    stored email.  At the input of that test, [test@TEST.COM], the local
    part is lowercase already and the assertion holds. *)
Lemma C7_local_part_keeps_case :
  (∃ db' u,
     @core_models.create_user sample.hasher (Some "Test@TEST.COM"%string)
       (Some "pass123456"%string) EmptyString (mkDB [] [] [] [])
     = Ok (db', u)
     ∧ User.email u = "Test@test.com"%string
     ∧ User.email u ≠ Py.lower "Test@TEST.COM"
     ∧ User.email u ≠ Py.lower (User.email u))
  ∧ (∃ db' u,
       @core_models.create_user sample.hasher (Some "test@TEST.COM"%string)
         (Some "pass123456"%string) EmptyString (mkDB [] [] [] [])
       = Ok (db', u)
       ∧ User.email u = Py.lower (User.email u)).
Proof. split; do 2 eexists; repeat split; done. Qed.

(** What [create_user] stores.  It accepts an email [e] exactly when [e]
    is not empty and its normalized form is not stored yet.  The stored
    email is then [e] itself when [e] holds no at sign; otherwise it is [e]
    without the white space around it, the part after the last at sign in
    lowercase and the part before it (the local part) unchanged. *)
Lemma create_user_stored_email (e : string) (password : option string)
    (name : string) (db : DB) :
  ((∃ db' u,
      core_models.create_user (Some e) password name db = Ok (db', u))
   ↔ e ≠ EmptyString
     ∧ core_models.normalize_email (Some e) ∉ User.email <$> users db)
  ∧ (∀ db' u,
       core_models.create_user (Some e) password name db = Ok (db', u) →
       u ∈ users db'
       ∧ (((("@"%char) ∉ list_ascii_of_string e) ∧ User.email u = e)
          ∨ (∃ email_name domain_part,
               Py.strip e = (email_name +:+ "@" +:+ domain_part)%string
               ∧ (("@"%char) ∉ list_ascii_of_string domain_part)
               ∧ User.email u
                 = (email_name +:+ "@" +:+ Py.lower domain_part)%string))).
Proof.
  split; [apply create_user_accepts|].
  intros db' u (He & _ & _ & Hu)%create_user_Ok. split.
  - rewrite Hu. apply elem_of_app. right. constructor.
  - rewrite He. apply normalize_email_spec.
Qed.

Lemma to_representation_eq (u : User.t) :
  user_serializer.to_representation u
  = [("email"%string, User.email u); ("name"%string, User.name u)].
Proof. reflexivity. Qed.

Lemma password_field_Ok (partial : bool) (data p : option string) :
  user_serializer.password_field partial data = Ok p →
  p = data ∧ (partial = false → is_Some data).
Proof.
  unfold user_serializer.password_field, recpie_serializers.validate_empty.
  destruct data as [s|].
  - repeat case_decide; try done. intros [= <-]. eauto.
  - destruct partial; [|done]. intros [= <-]. done.
Qed.

Lemma CreateApiView_post_Ok (payload : user_serializer.UserData)
    (db db' : DB) (response : user_serializer.Response) :
  user_serializer.CreateApiView_post payload db = Ok (db', response) →
  ∃ raw u,
    user_serializer.password payload = Some raw
    ∧ users db' = users db ++ [u]
    ∧ User.password u = make_password (Some raw)
    ∧ response
      = user_serializer.mkResponse 201 (user_serializer.to_representation u).
Proof.
  unfold user_serializer.CreateApiView_post,
    user_serializer.UserSerializer_validate.
  destruct (user_serializer.email_field _ _ _ _) as [e|?]; simpl; [|done].
  destruct (recpie_serializers.CharField _ _ _ _ _) as [n|?]; simpl; [|done].
  destruct (user_serializer.password_field _ _) as [p|?] eqn:Hp;
    simpl; [|done].
  apply password_field_Ok in Hp as [-> Hsome].
  destruct (Hsome eq_refl) as [raw Hraw]. rewrite Hraw.
  unfold user_serializer.create. simpl.
  destruct e as [e|]; [|done].
  destruct (core_models.create_user _ _ _ _) as [[db1 u]|?] eqn:Hc;
    simpl; [|done].
  intros [= <- <-]. apply create_user_Ok in Hc as (_ & Hpw & _ & Hdb).
  exists raw, u. done.
Qed.

(** C9. A successful registration answers with the fields [email] and
    [name] of the new user and no [password] field, and the row it stores
    holds in its password column what the hasher returns for the supplied
    password, which is not the supplied password wherever the hasher does
    not return its input; a successful profile read answers with [email]
    and [name] of the authenticated user and no [password] field. *)
Theorem C9_password_never_exposed (db : DB) :
  (∀ payload db' response,
     user_serializer.CreateApiView_post payload db = Ok (db', response) →
     ∃ raw u,
       user_serializer.password payload = Some raw
       ∧ users db' = users db ++ [u]
       ∧ user_serializer.data response
         = [("email"%string, User.email u); ("name"%string, User.name u)]
       ∧ ("password"%string ∉ (user_serializer.data response).*1)
       ∧ User.password u = make_password (Some raw)
       ∧ (make_password (Some raw) ≠ raw → User.password u ≠ raw))
  ∧ (∀ request response,
       user_serializer.ManageUserView_get request db = Ok response →
       ∃ u, u ∈ users db
            ∧ User.id u = Request.user request
            ∧ user_serializer.data response
              = [("email"%string, User.email u);
                 ("name"%string, User.name u)]
            ∧ "password"%string ∉ (user_serializer.data response).*1).
Proof.
  split.
  - intros payload db' response Hpost.
    apply CreateApiView_post_Ok in Hpost as (raw & u & Hraw & Hdb & Hpw & ->).
    exists raw, u. simpl. rewrite to_representation_eq.
    repeat split; try done.
    + compute_done.
    + by rewrite Hpw.
  - intros request response. unfold user_serializer.ManageUserView_get.
    unfold orm.get_or_404.
    destruct (orm.filter_pk (Request.user request) (users db))
      as [|u [|u' l]] eqn:Hf; simpl; try done.
    intros [= <-]. exists u. simpl. rewrite to_representation_eq.
    assert (u ∈ orm.filter_pk (Request.user request) (users db)) as Hin
      by (rewrite Hf; constructor).
    unfold orm.filter_pk in Hin. apply list_elem_of_filter in Hin as [? ?].
    repeat split; try done. compute_done.
Qed.

End users.


(** C9 on the sample data: the registration of the spec's scenario. *)
Lemma C9_witness :
  ∃ db' response u,
    @user_serializer.CreateApiView_post sample.hasher sample.email_validator
      (user_serializer.mkUserData (Some "a@a.com"%string) (Some "A"%string)
         (Some "pass123"%string)) sample.db = Ok (db', response)
    ∧ ("password"%string ∉ (user_serializer.data response).*1)
    ∧ users db' = users sample.db ++ [u]
    ∧ User.password u ≠ "pass123"%string.
Proof.
  destruct (@user_serializer.CreateApiView_post sample.hasher
              sample.email_validator
              (user_serializer.mkUserData (Some "a@a.com"%string)
                 (Some "A"%string) (Some "pass123"%string)) sample.db)
    as [[db' response]|e] eqn:Hpost; [|vm_compute in Hpost; discriminate].
  destruct (@C9_password_never_exposed sample.hasher sample.email_validator
              sample.db) as [H _].
  destruct (H _ _ _ Hpost) as (raw & u & [= <-] & Hdb & _ & Hnot & _ & Hne).
  exists db', response, u. repeat split; [exact Hnot|exact Hdb|].
  apply Hne. vm_compute. discriminate.
Defined.

(** ** Replacing the links of a recipe *)

Lemma set_loop_spec (objs old_ids new_objs : list Z) :
  let '(old', new') :=
    foldl (λ '(old_ids, new_objs) obj,
             if decide (obj ∈ old_ids)
             then (filter (λ i, i ≠ obj) old_ids, new_objs)
             else (old_ids, new_objs ++ [obj]))
          (old_ids, new_objs) objs in
  (∀ x, x ∈ old' ↔ x ∈ old_ids ∧ x ∉ objs)
  ∧ (∀ x, x ∈ new' → x ∈ new_objs ∨ x ∈ objs)
  ∧ (∀ x, x ∈ new_objs → x ∈ new')
  ∧ (∀ x, x ∈ objs → x ∉ old_ids → x ∈ new').
Proof.
  revert old_ids new_objs.
  induction objs as [|obj objs IH]; intros old_ids new_objs; simpl.
  - split; [|split; [|split]]; auto.
    + intros x. split; [|by intros [? _]].
      intros ?. split; [done|apply not_elem_of_nil].
    + by intros ? ?%elem_of_nil.
  - case_decide as Hobj.
    + specialize (IH (filter (λ i, i ≠ obj) old_ids) new_objs).
      destruct (foldl _ _ objs) as [old' new'].
      destruct IH as (Hold & Hnew & Hkeep & Hadd).
      split; [|split; [|split]].
      * intros x. rewrite Hold, list_elem_of_filter, not_elem_of_cons. tauto.
      * intros x Hx. destruct (Hnew x Hx); [by left|].
        right. apply elem_of_cons. by right.
      * done.
      * intros x [->|Hx]%elem_of_cons Hnot; [done|].
        apply Hadd; [done|]. rewrite list_elem_of_filter. tauto.
    + specialize (IH old_ids (new_objs ++ [obj])).
      destruct (foldl _ _ objs) as [old' new'].
      destruct IH as (Hold & Hnew & Hkeep & Hadd).
      split; [|split; [|split]].
      * intros x. rewrite Hold, not_elem_of_cons. split; [|tauto].
        intros [Hx Hn]. repeat split; try done. by intros ->.
      * intros x Hx. destruct (Hnew x Hx) as [Hx'|Hx'].
        -- apply elem_of_app in Hx' as [?|Heq%list_elem_of_singleton];
             [by left|].
           subst x. right. constructor.
        -- right. apply elem_of_cons. by right.
      * intros x Hx. apply Hkeep, elem_of_app. by left.
      * intros x [->|Hx]%elem_of_cons Hnot.
        -- apply Hkeep, elem_of_app. right. constructor.
        -- by apply Hadd.
Qed.

Section links.
Context `{SetOrder}.

Lemma elem_of_set_iter (l : list Z) (x : Z) : x ∈ set_iter l ↔ x ∈ l.
Proof. by rewrite set_iter_perm, elem_of_remove_dups. Qed.

Lemma elem_of_m2m_set (objs rows : list Z) (x : Z) :
  x ∈ orm.m2m_set objs rows ↔ x ∈ objs.
Proof.
  unfold orm.m2m_set, orm.set_loop.
  pose proof (set_loop_spec objs (remove_dups rows) []) as Hloop.
  destruct (foldl _ _ objs) as [old' new'].
  destruct Hloop as (Hold & Hnew & _ & Hadd).
  unfold orm.m2m_add, orm.m2m_remove.
  rewrite elem_of_app, elem_of_set_iter, !list_elem_of_filter.
  split.
  - intros [[Hx Hrow]|[_ Hx]].
    + destruct (decide (x ∈ objs)); [done|]. exfalso. apply Hx.
      apply Hold. by rewrite elem_of_remove_dups.
    + destruct (Hnew x Hx) as [?%elem_of_nil|?]; done.
  - intros Hx. destruct (decide (x ∈ rows)) as [Hrow|Hrow].
    + left. split; [|done]. rewrite Hold. tauto.
    + right. split; [tauto|]. apply Hadd; [done|].
      by rewrite elem_of_remove_dups.
Qed.

End links.

(** ** Validation and saving of a recipe payload *)

Import recpie_serializers.


Lemma validate_empty_Ok {A : Type} (partial required : bool)
    (x : option A) :
  validate_empty partial required = Ok x → x = None.
Proof. unfold validate_empty. by repeat case_match; intros [= <-]. Qed.

Lemma CharField_Ok m required allow_blank partial data x :
  CharField m required allow_blank partial data = Ok x →
  x = Py.strip <$> data.
Proof.
  unfold CharField. destruct data as [s|]; simpl.
  - by repeat case_match; intros [= <-].
  - apply validate_empty_Ok.
Qed.

Lemma PositiveIntegerField_Ok partial data x :
  PositiveIntegerField partial data = Ok x → x = data.
Proof.
  unfold PositiveIntegerField. destruct data as [n|].
  - by case_decide; intros [= <-].
  - apply validate_empty_Ok.
Qed.

Lemma DecimalField_Ok partial data x :
  DecimalField partial data = Ok x → x = data.
Proof.
  unfold DecimalField. destruct data as [n|].
  - by case_decide; intros [= <-].
  - apply validate_empty_Ok.
Qed.

Lemma Forall_pks {A : Type} (pk : A → Z) (rows : list A) (l : list Z) :
  Forall (λ k, k ∈ pk <$> rows) l
  ↔ Forall (λ k, ∃ x, x ∈ rows ∧ pk x = k) l.
Proof.
  apply Forall_proper; [|done]. intros k.
  rewrite list_elem_of_fmap. split.
  - intros (x & -> & Hx). eauto.
  - intros (x & Hx & <-). eauto.
Qed.

Lemma PrimaryKeyRelatedField_many_resolved {A : Type} (pk : A → Z)
    (rows : list A) partial html data :
  (∀ l, data = Some l → Forall (λ k, ∃ x, x ∈ rows ∧ pk x = k) l) →
  partial = true ∨ html = true ∨ is_Some data →
  PrimaryKeyRelatedField_many (pk <$> rows) partial html data
  = Ok (many_get_value partial html data).
Proof.
  intros Hres Hmiss. unfold PrimaryKeyRelatedField_many, validate_empty.
  destruct data as [l|]; simpl.
  - rewrite decide_True; [done|]. apply Forall_pks. by apply Hres.
  - destruct Hmiss as [->|[->|[? [=]]]]; simpl.
    + by destruct html.
    + destruct partial; simpl; [done|].
      first [done|by rewrite decide_True].
Qed.

Lemma PrimaryKeyRelatedField_many_Ok_inv {A : Type} (pk : A → Z)
    (rows : list A) partial html l x :
  PrimaryKeyRelatedField_many (pk <$> rows) partial html (Some l) = Ok x →
  Forall (λ k, ∃ x, x ∈ rows ∧ pk x = k) l.
Proof.
  unfold PrimaryKeyRelatedField_many. simpl.
  case_decide as Hl; [|done]. intros _. by apply Forall_pks.
Qed.

Lemma validate_Ok partial data db :
  scalars_valid partial data →
  relations_not_missing partial data →
  listed_ids_resolve data db →
  ∃ v,
    RecipeSerializer_validate partial data db = Ok v
    ∧ v_title v = Py.strip <$> title data
    ∧ v_time v = time data
    ∧ v_price v = price data
    ∧ v_link v = Py.strip <$> link data
    ∧ v_tag v = many_get_value partial (is_html_input data) (tag data)
    ∧ v_ingredient v
      = many_get_value partial (is_html_input data) (ingredient data).
Proof.
  intros ([t Ht] & [m Hm] & [p Hp] & [l Hl]) Hmiss [Htag Hing].
  unfold relations_not_missing in Hmiss.
  unfold RecipeSerializer_validate.
  rewrite Ht, Hm, Hp, Hl. simpl.
  apply CharField_Ok in Ht, Hl. apply PositiveIntegerField_Ok in Hm.
  apply DecimalField_Ok in Hp. subst t m p l.
  rewrite (PrimaryKeyRelatedField_many_resolved Ingredient.id);
    [|done|tauto].
  rewrite (PrimaryKeyRelatedField_many_resolved Tag.id); [|done|tauto].
  simpl. eexists. split; [reflexivity|]. done.
Qed.

Lemma validate_empty_Raise {A : Type} (partial required : bool) (e : exn) :
  validate_empty (A:=A) partial required = Raise e → e = ValidationError.
Proof. unfold validate_empty. by repeat case_match; intros [= <-]. Qed.

Lemma CharField_Raise m required allow_blank partial data e :
  CharField m required allow_blank partial data = Raise e →
  e = ValidationError.
Proof.
  unfold CharField. destruct data as [s|]; [|apply validate_empty_Raise].
  simpl. by repeat case_match; intros [= <-].
Qed.

Lemma PositiveIntegerField_Raise partial data e :
  PositiveIntegerField partial data = Raise e → e = ValidationError.
Proof.
  unfold PositiveIntegerField.
  destruct data as [n|]; [|apply validate_empty_Raise].
  by case_decide; intros [= <-].
Qed.

Lemma DecimalField_Raise partial data e :
  DecimalField partial data = Raise e → e = ValidationError.
Proof.
  unfold DecimalField.
  destruct data as [n|]; [|apply validate_empty_Raise].
  by case_decide; intros [= <-].
Qed.

(** A relationship field fails because it is reported missing, or because
    a listed key is the key of no row. *)
Lemma PrimaryKeyRelatedField_many_Raise {A : Type} (pk : A → Z)
    (rows : list A) partial html data e :
  PrimaryKeyRelatedField_many (pk <$> rows) partial html data = Raise e →
  e = ValidationError
  ∧ ((partial = false ∧ html = false ∧ data = None)
     ∨ ∃ l, data = Some l
            ∧ ¬ Forall (λ k, ∃ x, x ∈ rows ∧ pk x = k) l).
Proof.
  unfold PrimaryKeyRelatedField_many, many_get_value, validate_empty.
  destruct data as [l|]; simpl.
  - case_decide as Hl; [done|]. intros [= <-]. split; [done|]. right.
    exists l. split; [done|]. by rewrite <-Forall_pks.
  - destruct html, partial; simpl; try done.
    intros [= <-]. auto.
Qed.

Lemma validate_Raise partial data db e :
  RecipeSerializer_validate partial data db = Raise e → e = ValidationError.
Proof.
  unfold RecipeSerializer_validate.
  destruct (CharField _ _ _ _ (title data)) eqn:Ht; simpl;
    [|intros [= <-]; by eapply CharField_Raise].
  destruct (PrimaryKeyRelatedField_many _ _ _ (ingredient data)) eqn:Hi;
    simpl;
    [|intros [= <-];
      by eapply (PrimaryKeyRelatedField_many_Raise Ingredient.id)].
  destruct (PrimaryKeyRelatedField_many _ _ _ (tag data)) eqn:Hg; simpl;
    [|intros [= <-]; by eapply (PrimaryKeyRelatedField_many_Raise Tag.id)].
  destruct (PositiveIntegerField _ _) eqn:Hm; simpl;
    [|intros [= <-]; by eapply PositiveIntegerField_Raise].
  destruct (DecimalField _ _) eqn:Hp; simpl;
    [|intros [= <-]; by eapply DecimalField_Raise].
  destruct (CharField _ _ _ _ (link data)) eqn:Hl; simpl; [done|].
  intros [= <-]. by eapply CharField_Raise.
Qed.

(** What a payload that fails the validation lacks. *)
Lemma validate_Raise_inv partial data db e :
  RecipeSerializer_validate partial data db = Raise e →
  ¬ listed_ids_resolve data db
  ∨ ¬ scalars_valid partial data
  ∨ ¬ relations_not_missing partial data.
Proof.
  unfold RecipeSerializer_validate.
  destruct (CharField _ _ _ _ (title data)) eqn:Ht; simpl.
  2:{ intros _. right. left. intros ([? ?] & _). congruence. }
  destruct (PrimaryKeyRelatedField_many _ _ _ (ingredient data)) eqn:Hi;
    simpl.
  2:{ intros _.
      apply (PrimaryKeyRelatedField_many_Raise Ingredient.id) in Hi
        as [_ [(-> & Hh & Hd)|(l & Hd & Hl)]].
      - right. right. unfold relations_not_missing. rewrite Hd, Hh.
        intros [?|[?|[_ [? ?]]]]; congruence.
      - left. intros [_ Hall]. by apply Hl, Hall. }
  destruct (PrimaryKeyRelatedField_many _ _ _ (tag data)) eqn:Hg; simpl.
  2:{ intros _.
      apply (PrimaryKeyRelatedField_many_Raise Tag.id) in Hg
        as [_ [(-> & Hh & Hd)|(l & Hd & Hl)]].
      - right. right. unfold relations_not_missing. rewrite Hd, Hh.
        intros [?|[?|[[? ?] _]]]; congruence.
      - left. intros [Hall _]. by apply Hl, Hall. }
  destruct (PositiveIntegerField _ _) eqn:Hm; simpl.
  2:{ intros _. right. left. intros (_ & [? ?] & _). congruence. }
  destruct (DecimalField _ _) eqn:Hp; simpl.
  2:{ intros _. right. left. intros (_ & _ & [? ?] & _). congruence. }
  destruct (CharField _ _ _ _ (link data)) eqn:Hl; simpl; [done|].
  intros _. right. left. intros (_ & _ & _ & [? ?]). congruence.
Qed.

(** What a payload that passes the validation has. *)
Lemma validate_Ok_inv partial data db v :
  RecipeSerializer_validate partial data db = Ok v →
  listed_ids_resolve data db
  ∧ scalars_valid partial data
  ∧ relations_not_missing partial data.
Proof.
  unfold RecipeSerializer_validate.
  destruct (CharField _ _ _ _ (title data)) eqn:Ht; simpl; [|done].
  destruct (PrimaryKeyRelatedField_many _ _ _ (ingredient data)) eqn:Hi;
    simpl; [|done].
  destruct (PrimaryKeyRelatedField_many _ _ _ (tag data)) eqn:Hg;
    simpl; [|done].
  destruct (PositiveIntegerField _ _) eqn:Hm; simpl; [|done].
  destruct (DecimalField _ _) eqn:Hp; simpl; [|done].
  destruct (CharField _ _ _ _ (link data)) eqn:Hl; simpl; [|done].
  intros _. split; [|split].
  - split; intros l Hd; rewrite Hd in *.
    + by apply PrimaryKeyRelatedField_many_Ok_inv in Hg.
    + by apply PrimaryKeyRelatedField_many_Ok_inv in Hi.
  - unfold scalars_valid, is_Ok. eauto 10.
  - revert Hi Hg.
    unfold relations_not_missing, PrimaryKeyRelatedField_many,
      many_get_value, validate_empty.
    destruct partial; [auto|]. destruct (is_html_input data); [auto|].
    destruct (ingredient data), (tag data); simpl; try done.
    intros _ _. right. right. split; by eexists.
Qed.

Lemma validate_unresolved partial data db :
  ¬ listed_ids_resolve data db →
  RecipeSerializer_validate partial data db = Raise ValidationError.
Proof.
  intros Hnot.
  destruct (RecipeSerializer_validate partial data db) as [v|e] eqn:Hv.
  - exfalso. apply Hnot. revert Hv. unfold RecipeSerializer_validate.
    destruct (CharField _ _ _ _ (title data)); simpl; [|done].
    destruct (PrimaryKeyRelatedField_many _ _ _ (ingredient data))
      as [i|] eqn:Hi; simpl; [|done].
    destruct (PrimaryKeyRelatedField_many _ _ _ (tag data))
      as [g|] eqn:Hg; simpl; [|done].
    intros _. split.
    + intros l Hl. rewrite Hl in Hg.
      by apply PrimaryKeyRelatedField_many_Ok_inv in Hg.
    + intros l Hl. rewrite Hl in Hi.
      by apply PrimaryKeyRelatedField_many_Ok_inv in Hi.
  - by apply validate_Raise in Hv as ->.
Qed.

Lemma get_queryset_subset request db qs r :
  RecipeViewSet.get_queryset request db = Ok qs →
  r ∈ qs → r ∈ recipes db.
Proof.
  unfold RecipeViewSet.get_queryset.
  destruct (Py.truthy (Request.query_params request !! "tag"%string)).
  { destruct (RecipeViewSet._params_to_ints _); simpl; [|done].
    intros [= <-]. rewrite elem_of_filter_tag_id_in. tauto. }
  destruct (Py.truthy (Request.query_params request !! "ingredient"%string)).
  { destruct (RecipeViewSet._params_to_ints _); simpl; [|done].
    intros [= <-]. rewrite elem_of_filter_ingredient_id_in. tauto. }
  intros [= <-]. rewrite elem_of_filter_user. tauto.
Qed.

Lemma get_object_Ok request pk db r :
  RecipeViewSet.get_object request pk db = Ok r →
  r ∈ recipes db ∧ Recipe.id r = pk.
Proof.
  unfold RecipeViewSet.get_object.
  destruct (RecipeViewSet.get_queryset request db) as [qs|] eqn:Hqs;
    simpl; [|done].
  unfold orm.get_or_404.
  destruct (orm.filter_pk pk qs) as [|x [|y l]] eqn:Hf; try done.
  intros [= <-].
  assert (x ∈ orm.filter_pk pk qs) as Hin by (rewrite Hf; constructor).
  unfold orm.filter_pk in Hin. apply list_elem_of_filter in Hin as [? ?].
  split; [|done]. by eapply get_queryset_subset.
Qed.

Lemma save_recipe_stored (r r0 : Recipe.t) (db : DB) :
  r0 ∈ recipes db → Recipe.id r0 = Recipe.id r →
  r ∈ recipes (save_recipe r db)
  ∧ ∀ x, x ∈ recipes (save_recipe r db) →
         Recipe.id x = Recipe.id r → x = r.
Proof.
  intros Hin Hid. unfold save_recipe. simpl. split.
  - apply list_elem_of_fmap. exists r0. by rewrite decide_True.
  - intros x (y & -> & Hy)%list_elem_of_fmap. by case_decide.
Qed.

Lemma update_Ok `{SetOrder} partial request pk data db instance :
  RecipeViewSet.get_object request pk db = Ok instance →
  scalars_valid partial data →
  relations_not_missing partial data →
  listed_ids_resolve data db →
  ∃ db' r,
    RecipeViewSet.update partial request pk data db = Ok (db', r)
    ∧ r ∈ recipes db'
    ∧ (∀ x, x ∈ recipes db' → Recipe.id x = pk → x = r)
    ∧ Recipe.id r = pk
    ∧ Recipe.user r = Recipe.user instance
    ∧ Recipe.title r
      = default (Recipe.title instance) (Py.strip <$> title data)
    ∧ Recipe.time r = default (Recipe.time instance) (time data)
    ∧ Recipe.price r = default (Recipe.price instance) (price data)
    ∧ Recipe.link r
      = default (Recipe.link instance) (Py.strip <$> link data)
    ∧ Recipe.tag r
      = from_option (λ l, orm.m2m_set l (Recipe.tag instance))
          (Recipe.tag instance)
          (many_get_value partial (is_html_input data) (tag data))
    ∧ Recipe.ingredient r
      = from_option (λ l, orm.m2m_set l (Recipe.ingredient instance))
          (Recipe.ingredient instance)
          (many_get_value partial (is_html_input data) (ingredient data)).
Proof.
  intros Hobj Hsc Hmiss Hres. unfold RecipeViewSet.update. rewrite Hobj.
  simpl.
  destruct (validate_Ok partial data db Hsc Hmiss Hres)
    as (v & -> & Ht & Hm & Hp & Hl & Hg & Hi).
  simpl. apply get_object_Ok in Hobj as [Hin Hid].
  unfold RecipeSerializer_update. do 2 eexists. split; [reflexivity|].
  rewrite Ht, Hm, Hp, Hl, Hg, Hi.
  match goal with
  | |- ?r ∈ recipes (save_recipe ?r ?db) ∧ _ =>
      destruct (save_recipe_stored r instance db Hin eq_refl) as [Hst Huniq]
  end.
  split; [exact Hst|]. split; [|done].
  intros x Hx Hpk. apply Huniq; [done|]. simpl. congruence.
Qed.

Lemma create_Ok `{SetOrder} request data db :
  scalars_valid false data →
  relations_not_missing false data →
  listed_ids_resolve data db →
  ∃ db' r,
    RecipeViewSet.create request data db = Ok (db', r)
    ∧ r ∈ recipes db'
    ∧ Recipe.user r = Request.user request
    ∧ Recipe.tag r
      = from_option (λ l, orm.m2m_set l []) []
          (many_get_value false (is_html_input data) (tag data))
    ∧ Recipe.ingredient r
      = from_option (λ l, orm.m2m_set l []) []
          (many_get_value false (is_html_input data) (ingredient data)).
Proof.
  intros Hsc Hmiss Hres. unfold RecipeViewSet.create.
  destruct (validate_Ok false data db Hsc Hmiss Hres)
    as (v & -> & Ht & Hm & Hp & Hl & Hg & Hi).
  simpl. unfold RecipeViewSet.perform_create, RecipeSerializer_create.
  destruct Hsc as (_ & [m Hm'] & [p Hp'] & _).
  rewrite Hm, Hp, Hg, Hi.
  destruct (time data) as [n|]; [|done].
  destruct (price data) as [c|]; [|done].
  do 2 eexists. split; [reflexivity|]. simpl. split; [|done].
  apply elem_of_app. right. constructor.
Qed.

Lemma from_option_m2m_set `{SetOrder} (rows : list Z) (d : option (list Z))
    partial html (l : list Z) :
  d = Some l →
  ∀ x, x ∈ from_option (λ l, orm.m2m_set l rows) rows
             (many_get_value partial html d)
       ↔ x ∈ l.
Proof. intros -> x. simpl. apply elem_of_m2m_set. Qed.

(** C4. Let a full update (PUT) address a recipe, whatever its tags, with a
    payload whose [tag] field lists the single id of an existing tag and
    whose other fields are valid.  The update succeeds, and the stored
    recipe then has exactly that tag: [x] is among its tags if and only if
    [x] is the listed id. *)
Theorem C4_put_replaces_tag_set `{SetOrder} (request : Request.t) (pk : Z)
    (data : RecipeData) (db : DB) (instance : Recipe.t) (t : Z) :
  RecipeViewSet.get_object request pk db = Ok instance →
  tag data = Some [t] →
  scalars_valid false data →
  relations_not_missing false data →
  listed_ids_resolve data db →
  ∃ db' r,
    RecipeViewSet.update false request pk data db = Ok (db', r)
    ∧ r ∈ recipes db'
    ∧ (∀ x, x ∈ recipes db' → Recipe.id x = pk → x = r)
    ∧ ∀ x, x ∈ Recipe.tag r ↔ x = t.
Proof.
  intros Hobj Htag Hsc Hmiss Hres.
  destruct (update_Ok false request pk data db instance Hobj Hsc Hmiss Hres)
    as (db' & r & Hup & Hin & Huniq & _ & _ & _ & _ & _ & _ & Hg & _).
  exists db', r. repeat split; try done.
  - rewrite Hg, (from_option_m2m_set _ _ _ _ [t]) by done.
    by intros ?%list_elem_of_singleton.
  - intros ->. rewrite Hg, (from_option_m2m_set _ _ _ _ [t]) by done.
    constructor.
Qed.

(** C5. Let a partial update (PATCH) address a recipe with a payload that
    leaves out the [ingredient] field and whose present fields are valid.
    The update succeeds; the stored recipe keeps the ingredient links it
    had, and every field the payload carries has the submitted value
    (character fields stripped, the [tag] links replaced by the listed
    ids). *)
Theorem C5_patch_keeps_ingredients `{SetOrder} (request : Request.t) (pk : Z)
    (data : RecipeData) (db : DB) (instance : Recipe.t) :
  RecipeViewSet.get_object request pk db = Ok instance →
  ingredient data = None →
  scalars_valid true data →
  listed_ids_resolve data db →
  ∃ db' r,
    RecipeViewSet.update true request pk data db = Ok (db', r)
    ∧ r ∈ recipes db'
    ∧ (∀ x, x ∈ recipes db' → Recipe.id x = pk → x = r)
    ∧ Recipe.ingredient r = Recipe.ingredient instance
    ∧ (∀ s, title data = Some s → Recipe.title r = Py.strip s)
    ∧ (∀ n, time data = Some n → Recipe.time r = n)
    ∧ (∀ p, price data = Some p → Recipe.price r = p)
    ∧ (∀ s, link data = Some s → Recipe.link r = Py.strip s)
    ∧ (∀ l, tag data = Some l → ∀ x, x ∈ Recipe.tag r ↔ x ∈ l).
Proof.
  intros Hobj Hing Hsc Hres.
  destruct (update_Ok true request pk data db instance Hobj Hsc
              (or_introl eq_refl) Hres)
    as (db' & r & Hup & Hin & Huniq & _ & _ & Ht & Hm & Hp & Hl & Hg & Hi).
  exists db', r. split; [done|]. split; [done|]. split; [done|].
  split; [|split; [|split; [|split; [|split]]]].
  - rewrite Hi, Hing. simpl. by rewrite andb_false_r.
  - intros s Hs. by rewrite Ht, Hs.
  - intros n Hn. by rewrite Hm, Hn.
  - intros p Hp'. by rewrite Hp, Hp'.
  - intros s Hs. by rewrite Hl, Hs.
  - intros l Hl' x. rewrite Hg. by apply from_option_m2m_set.
Qed.

(** C8, as stated, fails: a JSON create that lists an existing tag and
    leaves out the ingredients fails with [ValidationError], and so does a
    create that lists existing ids and leaves out the title, though every
    listed id is the key of a row. *)
Lemma C8_counterexample :
  (listed_ids_resolve
     (mkData false (Some "pasta"%string) None (Some [3]) (Some 10)
        (Some 1500) None) sample.db
   ∧ RecipeViewSet.create (sample.request sample.alice [])
       (mkData false (Some "pasta"%string) None (Some [3]) (Some 10)
          (Some 1500) None) sample.db
     = Raise ValidationError)
  ∧ (listed_ids_resolve
       (mkData false None (Some [2]) (Some [3]) (Some 10) (Some 1500) None)
       sample.db
     ∧ RecipeViewSet.create (sample.request sample.alice [])
         (mkData false None (Some [2]) (Some [3]) (Some 10) (Some 1500)
            None) sample.db
       = Raise ValidationError).
Proof.
  split; (split; [|reflexivity]);
    split; intros ? [= <-]; apply Forall_pks; compute_done.
Qed.

(** C8, amended. A recipe create, and an update that addresses a recipe,
    fails with [ValidationError] if and only if some listed tag id or
    ingredient id is not the primary key of a row, or one of the other
    fields is invalid, or a relationship field is reported missing (a JSON
    request that is not partial and leaves one out).  The owner of a row
    plays no part: when the other fields are valid, no relationship field
    is missing and every listed id is the key of a row, of whatever owner,
    the operation succeeds and the links of the stored recipe are the
    listed ids. *)
Theorem C8_relationship_ids `{SetOrder} (request : Request.t)
    (data : RecipeData) (db : DB) :
  ((RecipeViewSet.create request data db = Raise ValidationError
    ↔ ¬ listed_ids_resolve data db
      ∨ ¬ scalars_valid false data
      ∨ ¬ relations_not_missing false data)
   ∧ (scalars_valid false data → relations_not_missing false data →
      listed_ids_resolve data db →
      ∃ db' r,
        RecipeViewSet.create request data db = Ok (db', r)
        ∧ r ∈ recipes db'
        ∧ (∀ l, tag data = Some l → ∀ x, x ∈ Recipe.tag r ↔ x ∈ l)
        ∧ (∀ l, ingredient data = Some l →
                ∀ x, x ∈ Recipe.ingredient r ↔ x ∈ l)))
  ∧ (∀ partial pk instance,
       RecipeViewSet.get_object request pk db = Ok instance →
       (RecipeViewSet.update partial request pk data db
        = Raise ValidationError
        ↔ ¬ listed_ids_resolve data db
          ∨ ¬ scalars_valid partial data
          ∨ ¬ relations_not_missing partial data)
       ∧ (scalars_valid partial data → relations_not_missing partial data →
          listed_ids_resolve data db →
          ∃ db' r,
            RecipeViewSet.update partial request pk data db = Ok (db', r)
            ∧ r ∈ recipes db'
            ∧ (∀ l, tag data = Some l → ∀ x, x ∈ Recipe.tag r ↔ x ∈ l)
            ∧ (∀ l, ingredient data = Some l →
                    ∀ x, x ∈ Recipe.ingredient r ↔ x ∈ l))).
Proof.
  assert (Hfail : ∀ partial,
    ¬ listed_ids_resolve data db
    ∨ ¬ scalars_valid partial data
    ∨ ¬ relations_not_missing partial data →
    RecipeSerializer_validate partial data db = Raise ValidationError).
  { intros partial Hnot.
    destruct (RecipeSerializer_validate partial data db) as [v|e] eqn:Hv.
    - apply validate_Ok_inv in Hv as (? & ? & ?). tauto.
    - by apply validate_Raise in Hv as ->. }
  split.
  - assert (Hok : scalars_valid false data →
      relations_not_missing false data → listed_ids_resolve data db →
      ∃ db' r,
        RecipeViewSet.create request data db = Ok (db', r)
        ∧ r ∈ recipes db'
        ∧ (∀ l, tag data = Some l → ∀ x, x ∈ Recipe.tag r ↔ x ∈ l)
        ∧ (∀ l, ingredient data = Some l →
                ∀ x, x ∈ Recipe.ingredient r ↔ x ∈ l)).
    { intros Hsc Hmiss Hres.
      destruct (create_Ok request data db Hsc Hmiss Hres)
        as (db' & r & Hc & Hin & _ & Hg & Hi).
      exists db', r. split; [done|]. split; [done|]. split.
      - intros l Hl x. rewrite Hg. by apply from_option_m2m_set.
      - intros l Hl x. rewrite Hi. by apply from_option_m2m_set. }
    split; [|done]. split.
    + intros Hraise.
      destruct (RecipeSerializer_validate false data db) as [v|e] eqn:Hv.
      * apply validate_Ok_inv in Hv as (Hres & Hsc & Hmiss).
        destruct (Hok Hsc Hmiss Hres) as (? & ? & Hc & _). congruence.
      * by eapply validate_Raise_inv.
    + intros Hnot. unfold RecipeViewSet.create.
      by rewrite (Hfail false Hnot).
  - intros partial pk instance Hobj.
    assert (Hok : scalars_valid partial data →
      relations_not_missing partial data → listed_ids_resolve data db →
      ∃ db' r,
        RecipeViewSet.update partial request pk data db = Ok (db', r)
        ∧ r ∈ recipes db'
        ∧ (∀ l, tag data = Some l → ∀ x, x ∈ Recipe.tag r ↔ x ∈ l)
        ∧ (∀ l, ingredient data = Some l →
                ∀ x, x ∈ Recipe.ingredient r ↔ x ∈ l)).
    { intros Hsc Hmiss Hres.
      destruct (update_Ok partial request pk data db instance Hobj Hsc
                  Hmiss Hres)
        as (db' & r & Hc & Hin & _ & _ & _ & _ & _ & _ & _ & Hg & Hi).
      exists db', r. split; [done|]. split; [done|]. split.
      - intros l Hl x. rewrite Hg. by apply from_option_m2m_set.
      - intros l Hl x. rewrite Hi. by apply from_option_m2m_set. }
    split; [|done]. split.
    + intros Hraise.
      destruct (RecipeSerializer_validate partial data db) as [v|e]
        eqn:Hv.
      * apply validate_Ok_inv in Hv as (Hres & Hsc & Hmiss).
        destruct (Hok Hsc Hmiss Hres) as (? & ? & Hc & _). congruence.
      * by eapply validate_Raise_inv.
    + intros Hnot. unfold RecipeViewSet.update. rewrite Hobj. simpl.
      by rewrite (Hfail partial Hnot).
Qed.

Ltac resolve_listed_ids :=
  split; intros ? [= <-]; apply Forall_pks; compute_done.

Ltac fields_valid := repeat split; eexists; reflexivity.

(** C4 on the sample data: Alice's recipe has two tags before the PUT. *)
Lemma C4_witness :
  ∃ db' r,
    RecipeViewSet.update false (sample.request sample.alice []) 1
      sample.put_payload sample.db = Ok (db', r)
    ∧ ∀ x, x ∈ Recipe.tag r ↔ x = 3.
Proof.
  destruct (C4_put_replaces_tag_set (sample.request sample.alice []) 1
              sample.put_payload sample.db
              (Recipe.mk 1 sample.alice "soup" 10 350 "" [1] [1; 2] None) 3)
    as (db' & r & Hup & _ & _ & Htag).
  - reflexivity.
  - reflexivity.
  - fields_valid.
  - right. left. reflexivity.
  - resolve_listed_ids.
  - by exists db', r.
Defined.

(** C5 on the sample data: the PATCH carries a title and a tag list. *)
Lemma C5_witness :
  ∃ db' r,
    RecipeViewSet.update true (sample.request sample.alice []) 1
      sample.patch_payload sample.db = Ok (db', r)
    ∧ Recipe.ingredient r = [1]
    ∧ Recipe.title r = "italian pizza"%string.
Proof.
  destruct (C5_patch_keeps_ingredients (sample.request sample.alice []) 1
              sample.patch_payload sample.db
              (Recipe.mk 1 sample.alice "soup" 10 350 "" [1] [1; 2] None))
    as (db' & r & Hup & _ & _ & Hing & Htitle & _).
  - reflexivity.
  - reflexivity.
  - fields_valid.
  - resolve_listed_ids.
  - exists db', r. split; [done|]. split; [done|].
    by rewrite (Htitle " italian pizza "%string).
Defined.

(** C8 on the sample data: Alice creates a recipe with a tag of Bob. *)
Lemma C8_witness :
  (∃ db' r,
     RecipeViewSet.create (sample.request sample.alice [])
       sample.post_payload sample.db = Ok (db', r)
     ∧ Recipe.user r = sample.alice
     ∧ ∀ x, x ∈ Recipe.tag r ↔ x ∈ [3; 1])
  ∧ Tag.mk 3 sample.bob "italian" ∈ tags sample.db.
Proof.
  split; [|compute_done].
  destruct (C8_relationship_ids (sample.request sample.alice [])
              sample.post_payload sample.db) as [[_ Hok] _].
  destruct Hok as (db' & r & Hc & _ & Htag & _).
  - fields_valid.
  - right. right. split; by eexists.
  - resolve_listed_ids.
  - exists db', r. split; [done|]. split; [|by apply Htag].
    revert Hc. vm_compute. by intros [= <- <-].
Defined.


(** * Further properties *)

(** ** The upload path of a recipe image *)

Lemma split_nonempty sep s : Py.split sep s ≠ [].
Proof.
  destruct s as [|c s]; simpl; [done|].
  destruct (Ascii.eqb c sep); [done|]. by destruct (Py.split sep s).
Qed.

Lemma split_singleton sep s h :
  Py.split sep s = [h] → h = s ∧ sep ∉ list_ascii_of_string s.
Proof.
  revert h. induction s as [|c s IH]; intros h; simpl.
  - intros [= <-]. split; [done|apply not_elem_of_nil].
  - pose proof (split_nonempty sep s) as Hs.
    destruct (Ascii.eqb_spec c sep) as [->|Hne].
    + intros [= _ Hnil]. done.
    + destruct (Py.split sep s) as [|h' t]; [done|].
      intros [= <- ->]. destruct (IH h' eq_refl) as [-> Hno].
      split; [done|]. apply not_elem_of_cons. split; [congruence|done].
Qed.

Lemma split_no_sep sep s :
  sep ∉ list_ascii_of_string s → Py.split sep s = [s].
Proof.
  induction s as [|c s IH]; simpl; [done|].
  intros [Hc Hs]%not_elem_of_cons. rewrite (IH Hs).
  destruct (Ascii.eqb_spec c sep); congruence.
Qed.

Lemma last_split sep s ext :
  last (Py.split sep s) = Some ext →
  (sep ∉ list_ascii_of_string ext)
  ∧ (s = ext ∨ ∃ stem, s = (stem +:+ String sep ext)%string).
Proof.
  revert ext. induction s as [|c s IH]; intros ext; simpl.
  - intros [= <-]. split; [apply not_elem_of_nil|by left].
  - pose proof (split_nonempty sep s) as Hs.
    destruct (Ascii.eqb_spec c sep) as [->|Hne].
    + destruct (Py.split sep s) as [|h t] eqn:Hsplit; [done|].
      change (last (EmptyString :: h :: t)) with (last (h :: t)).
      intros Hl. destruct (IH ext Hl) as [Hno [->|[stem ->]]].
      * split; [done|]. right. by exists EmptyString.
      * split; [done|]. right. by exists (String sep stem).
    + destruct (Py.split sep s) as [|h [|h' t]] eqn:Hsplit; [done|..].
      * simpl. intros [= <-].
        apply split_singleton in Hsplit as [-> Hno].
        split; [|by left]. apply not_elem_of_cons. split; [congruence|done].
      * change (last (String c h :: h' :: t)) with (last (h :: h' :: t)).
        intros Hl. destruct (IH ext Hl) as [Hno [->|[stem ->]]].
        -- by rewrite (split_no_sep _ _ Hno) in Hsplit.
        -- split; [done|]. right. by exists (String c stem).
Qed.

Lemma last_split_is_Some sep s : is_Some (last (Py.split sep s)).
Proof.
  pose proof (split_nonempty sep s).
  destruct (Py.split sep s) as [|h t] eqn:E; [done|].
  rewrite last_is_Some. done.
Qed.

(** X1. When the text of the uuid does not begin with a slash, the upload
    path is [uploads/recipe/], the uuid, a dot and the extension; the
    extension holds no dot and is what follows the last dot of the file
    name, or the whole file name when it has no dot.  Nothing else of the
    file name, and nothing of the recipe, reaches the path. *)
Theorem X1_recipe_image_file_path (uuid4 : string)
    (instance : option Recipe.t) (filename : string) :
  Py.startswith "/" uuid4 = false →
  ∃ ext,
    recipe_image_file_path uuid4 instance filename
    = ("uploads/recipe/" +:+ uuid4 +:+ "." +:+ ext)%string
    ∧ (("."%char) ∉ list_ascii_of_string ext)
    ∧ (filename = ext
       ∨ ∃ stem, filename = (stem +:+ "." +:+ ext)%string).
Proof.
  intros Hslash. unfold recipe_image_file_path.
  destruct (last_split_is_Some "." filename) as [ext Hext].
  rewrite Hext. exists ext.
  destruct (last_split _ _ _ Hext) as [Hno Hshape].
  split; [|done].
  unfold Py.path_join, default, id.
  assert (Py.startswith "/" (uuid4 +:+ "." +:+ ext) = false) as ->.
  { destruct uuid4; [done|]. exact Hslash. }
  reflexivity.
Qed.

(** X1 on the file name and the uuid of the repository's test. *)
Lemma X1_witness :
  ∃ ext,
    recipe_image_file_path "test-uuid" None "MyImage.jpg"
    = ("uploads/recipe/" +:+ "test-uuid" +:+ "." +:+ ext)%string
    ∧ ext = "jpg"%string.
Proof.
  destruct (X1_recipe_image_file_path "test-uuid" None "MyImage.jpg")
    as (ext & Hpath & _ & _); [reflexivity|].
  exists ext. split; [exact Hpath|].
  revert Hpath. vm_compute. by intros [= <-].
Defined.

(** ** Fresh primary keys *)

Lemma next_id_above (ids : list Z) (x : Z) : x ∈ ids → x < next_id ids.
Proof.
  unfold next_id. induction ids as [|y ids IH]; simpl.
  - by intros ?%elem_of_nil.
  - intros [->|Hin]%elem_of_cons; [lia|]. specialize (IH Hin). lia.
Qed.

Lemma next_id_fresh (ids : list Z) : next_id ids ∉ ids.
Proof. intros Hin%next_id_above. lia. Qed.

(** ** The user manager *)

Section user_manager.
Context `{Hasher}.

Lemma replace_last_user (u0 u : User.t) (us : list User.t) :
  User.id u = User.id u0 →
  User.id u0 ∉ User.id <$> us →
  (λ v, if decide (User.id v = User.id u) then u else v) <$> (us ++ [u0])
  = us ++ [u].
Proof.
  intros Hid Hfresh. rewrite fmap_app. simpl.
  rewrite decide_True by done. f_equal.
  induction us as [|v us IH]; simpl; [done|].
  rewrite fmap_cons in Hfresh. apply not_elem_of_cons in Hfresh as [Hv Hus].
  rewrite decide_False by congruence. f_equal. by apply IH.
Qed.

Lemma create_user_Raise_ValueError (email password : option string)
    (name : string) (db : DB) :
  core_models.create_user email password name db = Raise ValueError
  ↔ email = None ∨ email = Some EmptyString.
Proof.
  unfold core_models.create_user, core_models.save_new_user.
  destruct email as [[|c e]|]; simpl.
  - split; auto.
  - case_decide; split; try done; by intros [|].
  - split; auto.
Qed.

Lemma create_user_Ok_id (email password : option string) (name : string)
    (db db' : DB) (u : User.t) :
  core_models.create_user email password name db = Ok (db', u) →
  u = User.mk (next_id (User.id <$> users db))
        (core_models.normalize_email email) name (make_password password)
        true false false
  ∧ db' = mkDB (users db ++ [u]) (tags db) (ingredients db) (recipes db).
Proof.
  unfold core_models.create_user, core_models.save_new_user.
  destruct (negb (Py.truthy email)); [done|]. simpl.
  case_decide; [done|]. by intros [= <- <-].
Qed.

Lemma create_user_Ok_fresh (email password : option string) (name : string)
    (db db' : DB) (u : User.t) :
  core_models.create_user email password name db = Ok (db', u) →
  User.email u ∉ User.email <$> users db.
Proof.
  unfold core_models.create_user, core_models.save_new_user.
  destruct (negb (Py.truthy email)); [done|]. simpl.
  case_decide; [done|]. by intros [= <- <-].
Qed.

(** The second [save] of [create_superuser] meets no other row with the
    email of the row the first one inserted. *)
Lemma save_user_after_insert (u0 u : User.t) (db : DB) :
  User.id u = User.id u0 → User.email u = User.email u0 →
  User.email u0 ∉ User.email <$> users db →
  core_models.save_user u
    (mkDB (users db ++ [u0]) (tags db) (ingredients db) (recipes db))
  = Ok (core_models.update_user_row u
          (mkDB (users db ++ [u0]) (tags db) (ingredients db) (recipes db))).
Proof.
  intros Hid Hemail Hfresh. unfold core_models.save_user.
  rewrite decide_False; [done|]. simpl.
  rewrite filter_app, filter_cons_False, filter_nil, app_nil_r
    by (intros Hne; by apply Hne).
  rewrite Hemail.
  intros (x & Hx & [_ Hin]%list_elem_of_filter)%list_elem_of_fmap.
  apply Hfresh. apply list_elem_of_fmap. eauto.
Qed.

(** X2. [create_superuser] fails exactly as [create_user] does
    ([ValueError] for a missing or empty email, [IntegrityError] for an
    email whose normalized form is stored).  When it succeeds it appends
    one row and changes no other: the row has a fresh primary key, the
    normalized email, the hashed password, and is active, staff and
    superuser. *)
Theorem X2_create_superuser (email password : option string) (db : DB) :
  (∀ e, core_models.create_superuser email password db = Raise e
        ↔ core_models.create_user email password EmptyString db = Raise e)
  ∧ (core_models.create_superuser email password db = Raise ValueError
     ↔ email = None ∨ email = Some EmptyString)
  ∧ (∀ db' u,
       core_models.create_superuser email password db = Ok (db', u) →
       db' = mkDB (users db ++ [u]) (tags db) (ingredients db) (recipes db)
       ∧ (User.id u ∉ User.id <$> users db)
       ∧ User.email u = core_models.normalize_email email
       ∧ User.password u = make_password password
       ∧ User.is_active u = true
       ∧ User.is_staff u = true
       ∧ User.is_superuser u = true).
Proof.
  assert (Hsuper : ∀ db1 u1,
    core_models.create_user email password EmptyString db = Ok (db1, u1) →
    let u := User.mk (User.id u1) (User.email u1) (User.name u1)
               (User.password u1) (User.is_active u1) true true in
    core_models.create_superuser email password db
    = Ok (core_models.update_user_row u db1, u)).
  { intros db1 u1 Hc u. unfold core_models.create_superuser. rewrite Hc.
    simpl. pose proof (create_user_Ok_fresh _ _ _ _ _ _ Hc) as Hfresh.
    apply create_user_Ok_id in Hc as [_ ->].
    by rewrite (save_user_after_insert u1). }
  split; [|split].
  - intros e.
    destruct (core_models.create_user email password EmptyString db)
      as [[db1 u1]|e1] eqn:Hc.
    + by rewrite (Hsuper db1 u1).
    + unfold core_models.create_superuser. by rewrite Hc.
  - rewrite <-(create_user_Raise_ValueError email password EmptyString db).
    destruct (core_models.create_user email password EmptyString db)
      as [[db1 u1]|e1] eqn:Hc.
    + by rewrite (Hsuper db1 u1).
    + unfold core_models.create_superuser. by rewrite Hc.
  - intros db' u.
    destruct (core_models.create_user email password EmptyString db)
      as [[db1 u1]|e1] eqn:Hc.
    2:{ unfold core_models.create_superuser. by rewrite Hc. }
    rewrite (Hsuper db1 u1 eq_refl).
    apply create_user_Ok_id in Hc as [Hu1 ->]. intros [= <- <-].
    pose proof (next_id_fresh (User.id <$> users db)) as Hfresh.
    assert (User.id u1 = next_id (User.id <$> users db)) as Hid
      by by rewrite Hu1.
    split; [|rewrite Hu1; simpl; done].
    unfold core_models.update_user_row.
    cbn [users tags ingredients recipes].
    f_equal. apply replace_last_user; [done|]. by rewrite Hid.
Qed.

End user_manager.

(** X2 on the sample data: the superuser of the repository's test. *)
Lemma X2_witness :
  ∃ db' u,
    @core_models.create_superuser sample.hasher
      (Some "admin@admin.com"%string) (Some "admin"%string) sample.db
    = Ok (db', u)
    ∧ User.is_staff u = true
    ∧ User.is_superuser u = true.
Proof.
  destruct (@core_models.create_superuser sample.hasher
              (Some "admin@admin.com"%string) (Some "admin"%string)
              sample.db) as [[db' u]|e] eqn:Hc;
    [|vm_compute in Hc; discriminate].
  destruct (@X2_create_superuser sample.hasher
              (Some "admin@admin.com"%string) (Some "admin"%string)
              sample.db) as (_ & _ & Hok).
  destruct (Hok db' u Hc) as (_ & _ & _ & _ & _ & Hstaff & Hsuper).
  by exists db', u.
Defined.

(** ** Uniqueness of the normalized email *)

Lemma rsplit1_app sep a b :
  sep ∉ list_ascii_of_string b →
  Py.rsplit1 sep (a +:+ String sep b) = Some (a, b).
Proof.
  intros Hb. induction a as [|c a IH]; simpl.
  - rewrite (proj2 (rsplit1_None sep b) Hb). by rewrite Ascii.eqb_refl.
  - by rewrite IH.
Qed.

Lemma lower_char_at c : Py.lower_char c = "@"%char → c = "@"%char.
Proof.
  destruct c as [[] [] [] [] [] [] [] []]; vm_compute; congruence.
Qed.

Lemma lower_no_at s :
  ("@"%char) ∉ list_ascii_of_string s →
  ("@"%char) ∉ list_ascii_of_string (Py.lower s).
Proof.
  induction s as [|c s IH]; simpl; [done|].
  intros [Hc Hs]%not_elem_of_cons. apply not_elem_of_cons.
  split; [|by apply IH]. intros Heq. symmetry in Heq.
  by apply lower_char_at in Heq.
Qed.

Section email_uniqueness.
Context `{Hasher}.

Lemma normalize_email_split (e a b : string) :
  Py.strip e = (a +:+ "@" +:+ b)%string →
  ("@"%char) ∉ list_ascii_of_string b →
  core_models.normalize_email (Some e) = (a +:+ "@" +:+ Py.lower b)%string.
Proof.
  intros He Hb. unfold core_models.normalize_email. simpl.
  rewrite He. change (a +:+ "@" +:+ b)%string with (a +:+ String "@" b)%string.
  by rewrite (rsplit1_app _ _ _ Hb).
Qed.

(** X3. Once [create_user] has stored the address [a@b], an address with
    the same local part and a domain that differs from [b] in case only,
    whatever the white space around it, is refused with [IntegrityError];
    an address with another local part, even one that differs in case
    only, is not the stored one's duplicate: when no older row has it,
    [create_user] accepts it as a second user. *)
Theorem X3_email_uniqueness (e e' a b a' b' : string)
    (password password' : option string) (name name' : string)
    (db db' : DB) (u : User.t) :
  core_models.create_user (Some e) password name db = Ok (db', u) →
  Py.strip e = (a +:+ "@" +:+ b)%string →
  ("@"%char) ∉ list_ascii_of_string b →
  Py.strip e' = (a' +:+ "@" +:+ b')%string →
  ("@"%char) ∉ list_ascii_of_string b' →
  (a' = a → Py.lower b' = Py.lower b →
   core_models.create_user (Some e') password' name' db'
   = Raise IntegrityError)
  ∧ (a' ≠ a →
     core_models.normalize_email (Some e') ∉ User.email <$> users db →
     ∃ db'' u',
       core_models.create_user (Some e') password' name' db' = Ok (db'', u')
       ∧ users db'' = users db ++ [u; u']
       ∧ User.email u' ≠ User.email u).
Proof.
  intros Hc He Hb He' Hb'.
  apply create_user_Ok in Hc as (Hemail & _ & _ & Hdb).
  rewrite (normalize_email_split e a b He Hb) in Hemail.
  assert (e' ≠ EmptyString) as Hne.
  { intros ->. by destruct a'. }
  pose proof (normalize_email_split e' a' b' He' Hb') as Hnorm'.
  split.
  - intros -> Hlow.
    destruct (core_models.create_user (Some e') password' name' db')
      as [[db'' u']|err] eqn:Hc'.
    + exfalso.
      assert (∃ db'' u', core_models.create_user (Some e') password' name' db'
                         = Ok (db'', u')) as Hex by eauto.
      apply create_user_accepts in Hex as [_ Hnot]. apply Hnot.
      rewrite Hdb, fmap_app, elem_of_app. right. simpl.
      apply list_elem_of_singleton. by rewrite Hnorm', Hlow, Hemail.
    + revert Hc'. unfold core_models.create_user, core_models.save_new_user.
      destruct e'; [done|]. simpl. case_decide; [by intros [= <-]|done].
  - intros Ha Hfree.
    assert (core_models.normalize_email (Some e') ≠ User.email u) as Hdiff.
    { rewrite Hnorm', Hemail. intros Heq. apply Ha.
      assert (Py.rsplit1 "@" (a' +:+ String "@" (Py.lower b'))
              = Py.rsplit1 "@" (a +:+ String "@" (Py.lower b))) as Hr
        by (f_equal; exact Heq).
      rewrite !rsplit1_app in Hr by by apply lower_no_at.
      congruence. }
    destruct (proj2 (create_user_accepts e' password' name' db'))
      as (db'' & u' & Hc').
    { split; [done|]. rewrite Hdb, fmap_app, elem_of_app. simpl.
      intros [?|?%list_elem_of_singleton]; done. }
    exists db'', u'. split; [done|].
    apply create_user_Ok in Hc' as (Hemail' & _ & _ & Hdb'').
    split; [by rewrite Hdb'', Hdb, <-app_assoc|]. by rewrite Hemail'.
Qed.

End email_uniqueness.

(** X3 on the sample data: the same address in capitals and padded. *)
Lemma X3_witness :
  ∃ db' u,
    @core_models.create_user sample.hasher (Some "Chef@Kitchen.example"%string)
      (Some "pass123"%string) "Chef" sample.db = Ok (db', u)
    ∧ @core_models.create_user sample.hasher
        (Some " Chef@KITCHEN.EXAMPLE "%string) (Some "other456"%string)
        "Chef" db' = Raise IntegrityError.
Proof.
  destruct (@core_models.create_user sample.hasher
              (Some "Chef@Kitchen.example"%string) (Some "pass123"%string)
              "Chef" sample.db) as [[db' u]|err] eqn:Hc;
    [|vm_compute in Hc; discriminate].
  exists db', u. split; [done|].
  refine (proj1 (@X3_email_uniqueness sample.hasher
                   "Chef@Kitchen.example" " Chef@KITCHEN.EXAMPLE "
                   "Chef" "Kitchen.example" "Chef" "KITCHEN.EXAMPLE"
                   _ _ _ _ _ _ _ Hc _ _ _ _) _ _);
    try reflexivity; compute_done.
Defined.

(** ** Creating tags and ingredients *)

Lemma CharField_required (m : nat) (data : option string) :
  (∀ v, recpie_serializers.CharField m true false false data = Ok v →
        ∃ s, data = Some s ∧ v = Some (Py.strip s)
             ∧ Py.strip s ≠ EmptyString
             ∧ (String.length (Py.strip s) ≤ m)%nat
             ∧ ¬ has_null (Py.strip s))
  ∧ (∀ e, recpie_serializers.CharField m true false false data = Raise e →
          e = ValidationError
          ∧ (data = None
             ∨ ∃ s, data = Some s
                    ∧ (Py.strip s = EmptyString
                       ∨ (m < String.length (Py.strip s))%nat
                       ∨ has_null (Py.strip s)))).
Proof.
  unfold recpie_serializers.CharField, recpie_serializers.validate_empty.
  destruct data as [s|]; simpl.
  - repeat case_decide; split; try done.
    + intros e [= <-]. split; [done|]. right. exists s. auto.
    + intros e [= <-]. split; [done|]. right. exists s. auto.
    + intros v [= <-]. exists s. done.
    + intros e [= <-]. split; [done|]. right. exists s. split; [done|].
      right. left. lia.
  - split; [done|]. intros e [= <-]. auto.
Qed.

(** X5. Creating a tag fails, with [ValidationError] and nothing else,
    exactly when the name is missing or, once stripped, is blank, longer
    than 50 characters or holds a null character.  Otherwise one row is
    added, with a fresh primary key, the stripped name and the requesting
    user as owner; the default tag listing of that user gains exactly this
    tag, and the default tag listing of every other user is what it
    was. *)
Theorem X5_tag_create (request : Request.t) (name : option string)
    (db : DB) :
  (∀ e, TagViewSet.create request name db = Raise e →
        e = ValidationError
        ∧ (name = None
           ∨ ∃ s, name = Some s
                  ∧ (Py.strip s = EmptyString
                     ∨ (50 < String.length (Py.strip s))%nat
                     ∨ has_null (Py.strip s))))
  ∧ (∀ db' t,
       TagViewSet.create request name db = Ok (db', t) →
       (∃ s, name = Some s ∧ Tag.name t = Py.strip s
             ∧ Tag.name t ≠ EmptyString
             ∧ (String.length (Tag.name t) ≤ 50)%nat
             ∧ ¬ has_null (Tag.name t))
       ∧ Tag.user t = Request.user request
       ∧ (Tag.id t ∉ Tag.id <$> tags db)
       ∧ db' = mkDB (users db) (tags db ++ [t]) (ingredients db)
                 (recipes db)
       ∧ (∃ l l',
            TagViewSet.get_queryset (Request.mk (Request.user request) ∅) db
            = Ok l
            ∧ TagViewSet.get_queryset
                (Request.mk (Request.user request) ∅) db'
              = Ok l'
            ∧ ∀ x, x ∈ l' ↔ x ∈ l ∨ x = t)
       ∧ (∀ u, u ≠ Request.user request →
               TagViewSet.get_queryset (Request.mk u ∅) db'
               = TagViewSet.get_queryset (Request.mk u ∅) db)).
Proof.
  unfold TagViewSet.create, recpie_serializers.TagSerializer_validate.
  destruct (CharField_required 50 name) as [Hok Herr].
  destruct (recpie_serializers.CharField 50 true false false name)
    as [v|e] eqn:Hv; simpl.
  - split; [done|]. intros db' t [= <- <-].
    destruct (Hok v eq_refl) as (s & -> & -> & Hne & Hlen & Hnul). simpl.
    split; [by exists s|]. split; [done|].
    split; [apply next_id_fresh|]. split; [done|]. split.
    + do 2 eexists. rewrite !tag_default_listing.
      split; [reflexivity|]. split; [reflexivity|].
      intros x. rewrite !(tag_listing_spec db). simpl.
      rewrite elem_of_app, list_elem_of_singleton. split.
      * intros [[?| ->] ?]; auto.
      * intros [[? ?]| ->]; auto.
    + intros u Hu. rewrite !tag_default_listing. simpl.
      unfold orm.filter_user. rewrite filter_app, filter_cons_False.
      * by rewrite filter_nil, app_nil_r.
      * simpl. unfold user_of, Tag_user. simpl. congruence.
  - split; [|done]. intros e' [= <-]. by apply Herr.
Qed.

(** X5 on the sample data: the tag of the repository's test. *)
Lemma X5_witness :
  ∃ db' t,
    TagViewSet.create (sample.request sample.alice [])
      (Some " sweeties "%string) sample.db = Ok (db', t)
    ∧ Tag.name t = "sweeties"%string
    ∧ Tag.user t = sample.alice.
Proof.
  destruct (TagViewSet.create (sample.request sample.alice [])
              (Some " sweeties "%string) sample.db)
    as [[db' t]|e] eqn:Hc; [|vm_compute in Hc; discriminate].
  destruct (X5_tag_create (sample.request sample.alice [])
              (Some " sweeties "%string) sample.db) as [_ Hok].
  destruct (Hok db' t Hc) as ((s & [= <-] & Hname & _) & Huser & _).
  by exists db', t.
Defined.

(** X6. Creating an ingredient fails, with [ValidationError] and nothing
    else, exactly when the name is missing or, once stripped, is blank,
    longer than 255 characters or holds a null character.  Otherwise one
    row is added, with a fresh primary key, the stripped name and the
    requesting user as owner; the ingredient listing of that user gains
    exactly this ingredient, and the listing of every other user is what
    it was. *)
Theorem X6_ingredient_create (request : Request.t) (name : option string)
    (db : DB) :
  (∀ e, IngredientViewSet.create request name db = Raise e →
        e = ValidationError
        ∧ (name = None
           ∨ ∃ s, name = Some s
                  ∧ (Py.strip s = EmptyString
                     ∨ (255 < String.length (Py.strip s))%nat
                     ∨ has_null (Py.strip s))))
  ∧ (∀ db' i,
       IngredientViewSet.create request name db = Ok (db', i) →
       (∃ s, name = Some s ∧ Ingredient.name i = Py.strip s
             ∧ Ingredient.name i ≠ EmptyString
             ∧ (String.length (Ingredient.name i) ≤ 255)%nat
             ∧ ¬ has_null (Ingredient.name i))
       ∧ Ingredient.user i = Request.user request
       ∧ (Ingredient.id i ∉ Ingredient.id <$> ingredients db)
       ∧ db' = mkDB (users db) (tags db) (ingredients db ++ [i])
                 (recipes db)
       ∧ (∃ l l',
            IngredientViewSet.get_queryset request db = Ok l
            ∧ IngredientViewSet.get_queryset request db' = Ok l'
            ∧ ∀ x, x ∈ l' ↔ x ∈ l ∨ x = i)
       ∧ (∀ request',
            Request.user request' ≠ Request.user request →
            IngredientViewSet.get_queryset request' db'
            = IngredientViewSet.get_queryset request' db)).
Proof.
  unfold IngredientViewSet.create,
    recpie_serializers.IngredientSerializer_validate.
  destruct (CharField_required 255 name) as [Hok Herr].
  destruct (recpie_serializers.CharField 255 true false false name)
    as [v|e] eqn:Hv; simpl.
  - split; [done|]. intros db' i [= <- <-].
    destruct (Hok v eq_refl) as (s & -> & -> & Hne & Hlen & Hnul). simpl.
    split; [by exists s|]. split; [done|].
    split; [apply next_id_fresh|]. split; [done|]. split.
    + do 2 eexists. split; [reflexivity|]. split; [reflexivity|].
      intros x. rewrite !elem_of_filter_user. simpl.
      rewrite elem_of_app, list_elem_of_singleton. split.
      * intros [[?| ->] ?]; auto.
      * intros [[? ?]| ->]; auto.
    + intros request' Hu.
      unfold IngredientViewSet.get_queryset, orm.filter_user. simpl.
      rewrite filter_app, filter_cons_False.
      * by rewrite filter_nil, app_nil_r.
      * simpl. unfold user_of, Ingredient_user. simpl. congruence.
  - split; [|done]. intros e' [= <-]. by apply Herr.
Qed.

(** X6 on the sample data: an ingredient with an empty name. *)
Lemma X6_witness :
  IngredientViewSet.create (sample.request sample.alice [])
    (Some EmptyString) sample.db = Raise ValidationError.
Proof.
  destruct (IngredientViewSet.create (sample.request sample.alice [])
              (Some EmptyString) sample.db) as [[db' i]|e] eqn:Hc;
    [vm_compute in Hc; discriminate|].
  destruct (X6_ingredient_create (sample.request sample.alice [])
              (Some EmptyString) sample.db) as [Herr _].
  by destruct (Herr e Hc) as [-> _].
Defined.

(** ** The recipe a detail request addresses *)

Lemma filter_pk_none {A : Type} `{HasPk A} (k : Z) (l : list A) :
  (∀ x, x ∈ l → pk_of x ≠ k) → orm.filter_pk k l = [].
Proof.
  intros Hno. unfold orm.filter_pk. induction l as [|y l IH]; [done|].
  rewrite filter_cons_False.
  - apply IH. intros x Hx. apply Hno. by apply elem_of_cons; right.
  - apply Hno. constructor.
Qed.

Lemma filter_pk_unique {A : Type} `{HasPk A} (k : Z) (l : list A) (x : A) :
  NoDup (pk_of <$> l) → x ∈ l → pk_of x = k → orm.filter_pk k l = [x].
Proof.
  intros Hnd Hin Hk. unfold orm.filter_pk.
  induction l as [|y l IH]; [by apply elem_of_nil in Hin|].
  rewrite fmap_cons in Hnd. apply NoDup_cons in Hnd as [Hy Hnd].
  apply elem_of_cons in Hin as [<-|Hin].
  - rewrite filter_cons_True by done. f_equal.
    apply (filter_pk_none k). intros z Hz Hzk. apply Hy.
    apply list_elem_of_fmap. exists z. split; [congruence|done].
  - rewrite filter_cons_False; [by apply IH|].
    intros Hyk. apply Hy. apply list_elem_of_fmap. exists x.
    split; [congruence|done].
Qed.

Lemma NoDup_fmap_filter {A : Type} (f : A → Z) (P : A → Prop)
    `{∀ x, Decision (P x)} (l : list A) :
  NoDup (f <$> l) → NoDup (f <$> filter P l).
Proof.
  induction l as [|x l IH]; [done|].
  rewrite fmap_cons. intros [Hx Hnd]%NoDup_cons.
  destruct (decide (P x)).
  - rewrite filter_cons_True by done. rewrite fmap_cons.
    apply NoDup_cons. split; [|by apply IH].
    intros (y & Hy & Hin)%list_elem_of_fmap.
    apply list_elem_of_filter in Hin as [_ Hin].
    apply Hx. apply list_elem_of_fmap. eauto.
  - rewrite filter_cons_False by done. by apply IH.
Qed.

Lemma get_or_404_unique {A : Type} `{HasPk A} (k : Z) (l : list A) :
  NoDup (pk_of <$> l) →
  (∀ x, orm.get_or_404 k l = Ok x ↔ x ∈ l ∧ pk_of x = k)
  ∧ (orm.get_or_404 k l = Raise Http404 ↔ ∀ x, x ∈ l → pk_of x ≠ k)
  ∧ (∀ e, orm.get_or_404 k l = Raise e → e = Http404).
Proof.
  intros Hnd.
  assert ((∃ x, x ∈ l ∧ pk_of x = k) ∨ ∀ x, x ∈ l → pk_of x ≠ k)
    as [(x & Hin & Hk)|Hall].
  { destruct (orm.filter_pk k l) as [|x t] eqn:Hf.
    - right. intros x Hx Hk.
      assert (x ∈ orm.filter_pk k l) as Hxf
        by by apply list_elem_of_filter.
      rewrite Hf in Hxf. by apply elem_of_nil in Hxf.
    - left. exists x.
      assert (x ∈ orm.filter_pk k l) as Hxf by (rewrite Hf; constructor).
      apply list_elem_of_filter in Hxf as [? ?]. done. }
  - unfold orm.get_or_404.
    rewrite (filter_pk_unique k l x Hnd Hin Hk). split; [|split].
    + intros y. split; [by intros [= <-]|]. intros [Hy Hyk]. f_equal.
      pose proof (filter_pk_unique k l y Hnd Hy Hyk) as Hfy.
      rewrite (filter_pk_unique k l x Hnd Hin Hk) in Hfy. congruence.
    + split; [done|]. intros Hall. by destruct (Hall x Hin).
    + done.
  - unfold orm.get_or_404.
    rewrite (filter_pk_none k l Hall). split; [|split].
    + intros y. split; [done|]. intros [Hy Hyk]. by destruct (Hall y Hy).
    + done.
    + by intros e [= <-].
Qed.

Section detail.
Context `{ImageValidator} `{Storage} `{SetOrder}.

(** X7. When the primary keys of the recipes are unique and the request
    has no [tag] and no [ingredient] parameter, the recipe a detail request
    addresses is the recipe with the requested key owned by the requesting
    user; if there is none, [get_object] raises [Http404] (and nothing
    else), so retrieving, updating or uploading an image to a recipe of
    another user answers 404 and writes nothing. *)
Theorem X7_detail_owner_scoped (request : Request.t) (pk : Z) (db : DB) :
  NoDup (Recipe.id <$> recipes db) →
  Request.query_params request !! "tag"%string = None →
  Request.query_params request !! "ingredient"%string = None →
  (∀ r, RecipeViewSet.get_object request pk db = Ok r
        ↔ r ∈ recipes db ∧ Recipe.id r = pk
          ∧ Recipe.user r = Request.user request)
  ∧ (∀ e, RecipeViewSet.get_object request pk db = Raise e → e = Http404)
  ∧ (∀ r, r ∈ recipes db → Recipe.id r = pk →
          Recipe.user r ≠ Request.user request →
          RecipeViewSet.retrieve request pk db = Raise Http404
          ∧ (∀ partial data,
               RecipeViewSet.update partial request pk data db
               = Raise Http404)
          ∧ (∀ uuid4 data,
               RecipeViewSet.upload_image uuid4 request pk data db
               = Raise Http404)
          ∧ exception_handler Http404 = Some 404).
Proof.
  intros Hnd Ht Hi.
  assert (RecipeViewSet.get_object request pk db
          = orm.get_or_404 pk
              (orm.filter_user (Request.user request) (recipes db)))
    as Hobj.
  { unfold RecipeViewSet.get_object.
    rewrite get_queryset_owner_path; [done|by rewrite Ht|by rewrite Hi]. }
  destruct (get_or_404_unique pk
              (orm.filter_user (Request.user request) (recipes db)))
    as (Hok & H404 & Honly).
  { unfold orm.filter_user. by apply NoDup_fmap_filter. }
  split; [|split].
  - intros r. rewrite Hobj, Hok, elem_of_filter_user. tauto.
  - intros e. rewrite Hobj. apply Honly.
  - intros r Hr Hpk Huser.
    assert (RecipeViewSet.get_object request pk db = Raise Http404) as Hget.
    { rewrite Hobj. apply H404. intros x [Hx Hux]%elem_of_filter_user Hxk.
      apply Huser.
      assert (x = r) as ->; [|done].
      pose proof (filter_pk_unique pk (recipes db) x Hnd Hx Hxk) as Hfx.
      rewrite (filter_pk_unique pk (recipes db) r Hnd Hr Hpk) in Hfx.
      congruence. }
    split; [|split; [|split]].
    + unfold RecipeViewSet.retrieve. by rewrite Hget.
    + intros partial data. unfold RecipeViewSet.update. by rewrite Hget.
    + intros uuid4 data. unfold RecipeViewSet.upload_image. by rewrite Hget.
    + done.
Qed.

End detail.

(** X7 on the sample data: Bob asks for the recipe of Alice. *)
Lemma X7_witness :
  RecipeViewSet.retrieve (sample.request sample.bob []) 1 sample.db
  = Raise Http404.
Proof.
  destruct (@X7_detail_owner_scoped sample.image_validator sample.storage
              sample.set_order (sample.request sample.bob []) 1 sample.db)
    as (_ & _ & Hother); [compute_done|reflexivity|reflexivity|].
  apply (Hother (Recipe.mk 1 sample.alice "soup" 10 350 "" [1] [1; 2] None));
    [compute_done|reflexivity|done].
Defined.

(** ** Detail requests with a filter parameter *)

Lemma links_bind_replicate (ids links : list Z) (r : Recipe.t) :
  (tid ← links; if decide (tid ∈ ids) then [r] else [])
  = replicate (List.length (filter (λ t, t ∈ ids) links)) r.
Proof.
  induction links as [|t links IH]; [done|].
  change (t :: links) with ([t] ++ links) at 1.
  rewrite bind_app, IH. simpl.
  destruct (decide (t ∈ ids)).
  - by rewrite filter_cons_True.
  - by rewrite filter_cons_False.
Qed.

Lemma filter_pk_replicate (k : Z) (n : nat) (r : Recipe.t) :
  orm.filter_pk k (replicate n r)
  = if decide (Recipe.id r = k) then replicate n r else [].
Proof.
  unfold orm.filter_pk. induction n as [|n IH]; simpl.
  - by case_decide.
  - case_decide.
    + rewrite filter_cons_True by done. by f_equal.
    + by rewrite filter_cons_False.
Qed.

Lemma filter_pk_tag_filter (ids : list Z) (qs : list Recipe.t) (k : Z)
    (r : Recipe.t) :
  NoDup (Recipe.id <$> qs) → r ∈ qs → Recipe.id r = k →
  orm.filter_pk k (orm.filter_tag_id_in ids qs)
  = replicate (List.length (filter (λ t, t ∈ ids) (Recipe.tag r))) r.
Proof.
  intros Hnd Hin Hk. unfold orm.filter_tag_id_in.
  induction qs as [|x qs IH]; [by apply elem_of_nil in Hin|].
  rewrite fmap_cons in Hnd. apply NoDup_cons in Hnd as [Hx Hnd].
  change (x :: qs) with ([x] ++ qs). rewrite bind_app.
  unfold orm.filter_pk. rewrite filter_app.
  fold (orm.filter_pk k
          (x0 ← [x]; tid ← Recipe.tag x0;
           if decide (tid ∈ ids) then [x0] else [])).
  simpl. rewrite app_nil_r, links_bind_replicate, filter_pk_replicate.
  apply elem_of_cons in Hin as [<-|Hin].
  - rewrite decide_True by done.
    assert (filter (λ x, pk_of x = k)
              (x0 ← qs; tid ← Recipe.tag x0;
               if decide (tid ∈ ids) then [x0] else []) = []) as ->.
    { apply (filter_pk_none k). intros z Hz Hzk.
      apply (elem_of_filter_tag_id_in ids qs z) in Hz as [Hz _].
      apply Hx. apply list_elem_of_fmap. exists z.
      split; [|done]. unfold pk_of, Recipe_pk in Hzk. congruence. }
    by rewrite app_nil_r.
  - rewrite decide_False.
    + simpl. by apply IH.
    + intros Hxk. apply Hx. apply list_elem_of_fmap. exists r.
      split; [congruence|done].
Qed.

(** X8. With a [tag] parameter that lists ids, the recipe a detail request
    addresses is looked up among the rows of the tag filter, whoever owns
    them.  For the recipe with the requested key, with primary keys unique:
    when none of its tags is listed the request answers 404; when exactly
    one is listed [get_object] returns the recipe, so that a valid partial
    update by any user changes it and leaves its owner in place; when two
    or more are listed the lookup finds the row more than once and raises
    [MultipleObjectsReturned], which the exception handler lets through. *)
Theorem X8_detail_through_tag_filter `{SetOrder} (request : Request.t) (pk : Z)
    (db : DB) (s : string) (ids : list Z) (r : Recipe.t) :
  Request.query_params request !! "tag"%string = Some s →
  RecipeViewSet._params_to_ints s = Ok ids →
  NoDup (Recipe.id <$> recipes db) →
  r ∈ recipes db → Recipe.id r = pk →
  let n := List.length (filter (λ t, t ∈ ids) (Recipe.tag r)) in
  (n = 0%nat → RecipeViewSet.get_object request pk db = Raise Http404)
  ∧ (n = 1%nat →
     RecipeViewSet.get_object request pk db = Ok r
     ∧ ∀ data,
         scalars_valid true data → listed_ids_resolve data db →
         ∃ db' r',
           RecipeViewSet.update true request pk data db = Ok (db', r')
           ∧ r' ∈ recipes db'
           ∧ Recipe.id r' = pk
           ∧ Recipe.user r' = Recipe.user r)
  ∧ ((2 ≤ n)%nat →
     RecipeViewSet.get_object request pk db = Raise MultipleObjectsReturned
     ∧ exception_handler MultipleObjectsReturned = None).
Proof.
  intros Hs Hids Hnd Hr Hpk n.
  assert (RecipeViewSet.get_object request pk db
          = orm.get_or_404 pk (replicate n r)) as Hobj.
  { unfold RecipeViewSet.get_object.
    rewrite (get_queryset_tag_path _ _ s Hs
               (params_to_ints_nonempty _ _ Hids)), Hids.
    simpl. unfold orm.get_or_404.
    by rewrite (filter_pk_tag_filter ids (recipes db) pk r Hnd Hr Hpk),
      filter_pk_replicate, decide_True. }
  assert (orm.filter_pk pk (replicate n r) = replicate n r) as Hrep
    by by rewrite filter_pk_replicate, decide_True.
  rewrite Hobj. unfold orm.get_or_404. rewrite Hrep.
  split; [|split].
  - by intros ->.
  - intros Hn. rewrite Hn. simpl. split; [done|].
    intros data Hsc Hres.
    destruct (update_Ok true request pk data db r) as
      (db' & r' & Hup & Hin & _ & Hid & Huser & _);
      [|done|by left|done|by exists db', r'].
    rewrite Hobj. unfold orm.get_or_404. by rewrite Hrep, Hn.
  - intros Hn. split; [|done].
    destruct n as [|[|n']]; [lia|lia|done].
Qed.

(** X8 on the sample data: Bob patches the recipe of Alice, and a recipe
    that carries both listed tags cannot be addressed. *)
Lemma X8_witness :
  (∃ db' r',
     RecipeViewSet.update true
       (sample.request sample.bob [("tag", "2")]%string) 1
       sample.patch_payload sample.db = Ok (db', r')
     ∧ Recipe.user r' = sample.alice)
  ∧ RecipeViewSet.get_object
      (sample.request sample.alice [("tag", "1,2")]%string) 1 sample.db
    = Raise MultipleObjectsReturned.
Proof.
  split.
  - destruct (X8_detail_through_tag_filter
                (sample.request sample.bob [("tag", "2")]%string) 1
                sample.db "2" [2]
                (Recipe.mk 1 sample.alice "soup" 10 350 "" [1] [1; 2] None))
      as (_ & Hone & _);
      [reflexivity|reflexivity|compute_done|compute_done|reflexivity|].
    destruct (Hone eq_refl) as [_ Hup].
    destruct (Hup sample.patch_payload) as (db' & r' & Hu & _ & _ & Hown).
    + repeat split; eexists; reflexivity.
    + split; intros ? [= <-]; apply Forall_pks; compute_done.
    + by exists db', r'.
  - destruct (X8_detail_through_tag_filter
                (sample.request sample.alice [("tag", "1,2")]%string) 1
                sample.db "1,2" [1; 2]
                (Recipe.mk 1 sample.alice "soup" 10 350 "" [1] [1; 2] None))
      as (_ & _ & Htwo);
      [reflexivity|reflexivity|compute_done|compute_done|reflexivity|].
    apply Htwo. simpl. lia.
Defined.

(** ** What an update leaves alone *)

Lemma m2m_set_nil `{SetOrder} (rows : list Z) : orm.m2m_set [] rows = [].
Proof.
  destruct (orm.m2m_set [] rows) as [|x l] eqn:Hset; [done|].
  assert (x ∈ orm.m2m_set [] rows) as Hin by (rewrite Hset; constructor).
  apply elem_of_m2m_set in Hin. by apply elem_of_nil in Hin.
Qed.

(** X9. A successful update (PUT or PATCH) rewrites the addressed recipe
    and nothing else: the users, the tags and the ingredients are the same
    tables, no recipe is added or removed, the recipes after the update are
    the rewritten one and the former ones with another key, and the
    rewritten recipe keeps its key, its owner and its image. *)
Theorem X9_update_frame `{SetOrder} (partial : bool) (request : Request.t)
    (pk : Z) (data : RecipeData) (db db' : DB) (r : Recipe.t) :
  RecipeViewSet.update partial request pk data db = Ok (db', r) →
  (∃ instance,
     RecipeViewSet.get_object request pk db = Ok instance
     ∧ Recipe.id r = pk
     ∧ Recipe.id instance = pk
     ∧ Recipe.user r = Recipe.user instance
     ∧ Recipe.image r = Recipe.image instance)
  ∧ users db' = users db
  ∧ tags db' = tags db
  ∧ ingredients db' = ingredients db
  ∧ List.length (recipes db') = List.length (recipes db)
  ∧ (∀ x, x ∈ recipes db'
          ↔ x = r ∨ (x ∈ recipes db ∧ Recipe.id x ≠ pk)).
Proof.
  unfold RecipeViewSet.update.
  destruct (RecipeViewSet.get_object request pk db) as [instance|]
    eqn:Hobj; simpl; [|done].
  destruct (RecipeSerializer_validate partial data db) as [v|];
    simpl; [|done].
  unfold RecipeSerializer_update. intros [= <- <-].
  apply get_object_Ok in Hobj as [Hin Hpk].
  split; [by exists instance|].
  split; [done|]. split; [done|]. split; [done|].
  split; [unfold save_recipe; simpl; by rewrite length_fmap|].
  intros x. unfold save_recipe. simpl. rewrite list_elem_of_fmap. split.
  - intros (y & -> & Hy). simpl.
    case_decide as Hid; [by left|]. right. split; [done|]. congruence.
  - intros [->|[Hx Hne]].
    + exists instance. by rewrite decide_True.
    + exists x. split; [|done]. rewrite decide_False; [done|].
      simpl. congruence.
Qed.

(** X9 on the sample data: the PATCH by Alice leaves the recipe of Bob. *)
Lemma X9_witness :
  ∃ db' r,
    RecipeViewSet.update true (sample.request sample.alice []) 1
      sample.patch_payload sample.db = Ok (db', r)
    ∧ Recipe.mk 2 sample.bob "pasta" 20 500 "" [2] [1; 3] None
      ∈ recipes db'
    ∧ tags db' = tags sample.db.
Proof.
  destruct (RecipeViewSet.update true (sample.request sample.alice []) 1
              sample.patch_payload sample.db) as [[db' r]|e] eqn:Hup;
    [|vm_compute in Hup; discriminate].
  destruct (X9_update_frame _ _ _ _ _ _ _ Hup)
    as (_ & _ & Htags & _ & _ & Hrows).
  exists db', r. split; [done|]. split; [|done].
  apply Hrows. right. split; [compute_done|done].
Defined.

(** ** Relationship fields the payload leaves out *)

(** X10. Take a payload with neither [tag] nor [ingredient] whose other
    fields are valid.  Sent as a form, a create stores a recipe without
    tags and ingredients, and a full update (PUT) clears both link sets of
    the addressed recipe.  Sent as JSON, the create and the full update
    fail with [ValidationError]. *)
Theorem X10_absent_relationship_fields `{SetOrder} (request : Request.t)
    (data : RecipeData) (db : DB) :
  tag data = None → ingredient data = None →
  scalars_valid false data →
  (is_html_input data = true →
   (∃ db' r,
      RecipeViewSet.create request data db = Ok (db', r)
      ∧ r ∈ recipes db'
      ∧ Recipe.tag r = [] ∧ Recipe.ingredient r = [])
   ∧ (∀ pk instance,
        RecipeViewSet.get_object request pk db = Ok instance →
        ∃ db' r,
          RecipeViewSet.update false request pk data db = Ok (db', r)
          ∧ r ∈ recipes db'
          ∧ Recipe.tag r = [] ∧ Recipe.ingredient r = []))
  ∧ (is_html_input data = false →
     RecipeViewSet.create request data db = Raise ValidationError
     ∧ (∀ pk instance,
          RecipeViewSet.get_object request pk db = Ok instance →
          RecipeViewSet.update false request pk data db
          = Raise ValidationError)).
Proof.
  intros Htag Hing Hsc.
  assert (listed_ids_resolve data db) as Hres.
  { split; intros l Hl; congruence. }
  split.
  - intros Hhtml.
    assert (relations_not_missing false data) as Hmiss by (right; by left).
    split.
    + destruct (create_Ok request data db Hsc Hmiss Hres)
        as (db' & r & Hc & Hin & _ & Hg & Hi).
      exists db', r. rewrite Hg, Hi, Htag, Hing, Hhtml. simpl.
      by rewrite m2m_set_nil.
    + intros pk instance Hobj.
      destruct (update_Ok false request pk data db instance Hobj Hsc Hmiss
                  Hres)
        as (db' & r & Hup & Hin & _ & _ & _ & _ & _ & _ & _ & Hg & Hi).
      exists db', r. rewrite Hg, Hi, Htag, Hing, Hhtml. simpl.
      by rewrite !m2m_set_nil.
  - intros Hjson.
    assert (RecipeSerializer_validate false data db = Raise ValidationError)
      as Hv.
    { unfold RecipeSerializer_validate.
      destruct Hsc as ([t ->] & _). simpl.
      unfold PrimaryKeyRelatedField_many. by rewrite Hing, Hjson. }
    split.
    + unfold RecipeViewSet.create. by rewrite Hv.
    + intros pk instance Hobj. unfold RecipeViewSet.update.
      rewrite Hobj. simpl. by rewrite Hv.
Qed.

(** X10 on the sample data: the basic recipe of the repository's test,
    as a form and as JSON. *)
Lemma X10_witness :
  (∃ db' r,
     RecipeViewSet.create (sample.request sample.alice [])
       (mkData true (Some "chocolate cake"%string) None None (Some 10)
          (Some 1500) None) sample.db = Ok (db', r)
     ∧ Recipe.tag r = [])
  ∧ RecipeViewSet.create (sample.request sample.alice [])
      (mkData false (Some "chocolate cake"%string) None None (Some 10)
         (Some 1500) None) sample.db = Raise ValidationError.
Proof.
  split.
  - destruct (X10_absent_relationship_fields (sample.request sample.alice [])
                (mkData true (Some "chocolate cake"%string) None None
                   (Some 10) (Some 1500) None) sample.db) as [Hform _];
      [reflexivity|reflexivity|repeat split; eexists; reflexivity|].
    destruct Hform as [(db' & r & Hc & _ & Hg & _) _]; [reflexivity|].
    by exists db', r.
  - destruct (X10_absent_relationship_fields (sample.request sample.alice [])
                (mkData false (Some "chocolate cake"%string) None None
                   (Some 10) (Some 1500) None) sample.db) as [_ Hjson];
      [reflexivity|reflexivity|repeat split; eexists; reflexivity|].
    by apply Hjson.
Defined.

(** ** Creating a recipe and reading it back *)

Lemma links_of_payload `{SetOrder} (rows : list Z) (partial html : bool)
    (d : option (list Z)) (x : Z) :
  partial = false →
  x ∈ from_option (λ l, orm.m2m_set l []) [] (many_get_value partial html d)
  ↔ ∃ l, d = Some l ∧ x ∈ l.
Proof.
  intros ->. destruct d as [l|]; simpl.
  - rewrite elem_of_m2m_set. split; [eauto|]. by intros (? & [= <-] & ?).
  - destruct html; simpl.
    + rewrite m2m_set_nil. split; [by intros ?%elem_of_nil|].
      by intros (? & [=] & _).
    + split; [by intros ?%elem_of_nil|]. by intros (? & [=] & _).
Qed.

Lemma get_object_fresh (u : Z) (db : DB) (r : Recipe.t) :
  Recipe.id r = next_id (Recipe.id <$> recipes db) →
  RecipeViewSet.get_object (Request.mk u ∅) (Recipe.id r)
    (mkDB (users db) (tags db) (ingredients db) (recipes db ++ [r]))
  = if decide (Recipe.user r = u) then Ok r else Raise Http404.
Proof.
  intros Hid. unfold RecipeViewSet.get_object.
  rewrite recipe_default_listing. simpl.
  unfold orm.get_or_404, orm.filter_user. rewrite filter_app.
  unfold orm.filter_pk. rewrite filter_app.
  assert (filter (λ x, pk_of x = Recipe.id r)
            (filter (λ x, user_of x = u) (recipes db)) = []) as ->.
  { apply (filter_pk_none (Recipe.id r)).
    intros x [_ Hx]%list_elem_of_filter Hxk.
    apply (next_id_fresh (Recipe.id <$> recipes db)). rewrite <-Hid.
    apply list_elem_of_fmap. exists x. split; [|done].
    unfold pk_of, Recipe_pk in Hxk. congruence. }
  simpl. case_decide as Hu.
  - rewrite filter_cons_True by done. rewrite filter_nil.
    by rewrite filter_cons_True, filter_nil.
  - rewrite filter_cons_False by done. by rewrite !filter_nil.
Qed.

(** X11. A recipe created from a valid payload can be read back by its
    creator: retrieving the new key answers with the detail shape, which
    carries the stripped title and expands each listed tag and ingredient,
    of whatever owner, to its key and name, and nothing more.  Every other
    user gets 404 for the same key. *)
Theorem X11_create_then_retrieve `{SetOrder} (request : Request.t)
    (data : RecipeData) (db : DB) :
  scalars_valid false data →
  relations_not_missing false data →
  listed_ids_resolve data db →
  ∃ db' r d,
    RecipeViewSet.create request data db = Ok (db', r)
    ∧ RecipeViewSet.retrieve (Request.mk (Request.user request) ∅)
        (Recipe.id r) db'
      = Ok (RecipeViewSet.Detail d)
    ∧ d_id d = Recipe.id r
    ∧ Some (d_title d) = Py.strip <$> title data
    ∧ (∀ i n, (i, n) ∈ d_tag d
              ↔ (∃ t, t ∈ tags db ∧ Tag.id t = i ∧ Tag.name t = n)
                ∧ ∃ l, tag data = Some l ∧ i ∈ l)
    ∧ (∀ i n, (i, n) ∈ d_ingredient d
              ↔ (∃ g, g ∈ ingredients db ∧ Ingredient.id g = i
                      ∧ Ingredient.name g = n)
                ∧ ∃ l, ingredient data = Some l ∧ i ∈ l)
    ∧ (∀ u, u ≠ Request.user request →
            RecipeViewSet.retrieve (Request.mk u ∅) (Recipe.id r) db'
            = Raise Http404).
Proof.
  intros Hsc Hmiss Hres.
  destruct (validate_Ok false data db Hsc Hmiss Hres)
    as (v & Hv & Ht & Hm & Hp & Hl & Hg & Hi).
  unfold RecipeViewSet.create, RecipeViewSet.perform_create,
    RecipeSerializer_create.
  rewrite Hv. simpl. rewrite Hm, Hp, Ht, Hg, Hi.
  destruct Hsc as ([t0 Ht0] & [m0 Hm0] & [p0 Hp0] & _).
  destruct (time data) as [m|]; [|done].
  destruct (price data) as [p|]; [|done].
  destruct (title data) as [s|] eqn:Htitle; [|done].
  do 2 eexists.
  match goal with
  | |- ∃ d, Ok (_, ?r) = _ ∧ _ => set (r0 := r)
  end.
  assert (Recipe.id r0 = next_id (Recipe.id <$> recipes db)) as Hid by done.
  exists (RecipeDetailSerializer_to_representation r0
            (mkDB (users db) (tags db) (ingredients db)
               (recipes db ++ [r0]))).
  split; [reflexivity|]. split.
  { unfold RecipeViewSet.retrieve.
    rewrite (get_object_fresh _ db r0 Hid). by rewrite decide_True. }
  split; [done|]. split; [done|]. split; [|split].
  - intros i n. simpl. unfold tag_all, TagSerializer_to_representation.
    rewrite list_elem_of_fmap. simpl.
    split.
    + intros (t & [= -> ->] & [Hlink Hin]%list_elem_of_filter).
      split; [by exists t|]. by apply (links_of_payload []) in Hlink.
    + intros [(t & Hin & <- & <-) Hl']. exists t. split; [done|].
      apply list_elem_of_filter. split; [|done].
      by apply (links_of_payload []).
  - intros i n. simpl.
    unfold ingredient_all, IngredientSerializer_to_representation.
    rewrite list_elem_of_fmap. simpl.
    split.
    + intros (g & [= -> ->] & [Hlink Hin]%list_elem_of_filter).
      split; [by exists g|]. by apply (links_of_payload []) in Hlink.
    + intros [(g & Hin & <- & <-) Hl']. exists g. split; [done|].
      apply list_elem_of_filter. split; [|done].
      by apply (links_of_payload []).
  - intros u Hu. unfold RecipeViewSet.retrieve.
    rewrite (get_object_fresh _ db r0 Hid).
    rewrite decide_False; [done|]. simpl. congruence.
Qed.

(** X11 on the sample data: Alice reads back a recipe with a tag of Bob. *)
Lemma X11_witness :
  ∃ db' r d,
    RecipeViewSet.create (sample.request sample.alice [])
      sample.post_payload sample.db = Ok (db', r)
    ∧ RecipeViewSet.retrieve (Request.mk sample.alice ∅) (Recipe.id r) db'
      = Ok (RecipeViewSet.Detail d)
    ∧ (3, "italian"%string) ∈ d_tag d.
Proof.
  destruct (X11_create_then_retrieve (sample.request sample.alice [])
              sample.post_payload sample.db)
    as (db' & r & d & Hc & Hr & _ & _ & Htag & _).
  - repeat split; eexists; reflexivity.
  - right. right. split; by eexists.
  - split; intros ? [= <-]; apply Forall_pks; compute_done.
  - exists db', r, d. split; [done|]. split; [done|].
    apply Htag. split.
    + exists (Tag.mk 3 sample.bob "italian"). split; [compute_done|done].
    + exists [3; 1]. split; [done|compute_done].
Defined.

(** ** Updating a profile *)


Lemma filter_email_none (e : string) (l : list User.t) :
  (∀ x, x ∈ l → User.email x ≠ e) →
  filter (λ x, User.email x = e) l = [].
Proof.
  intros Hno. induction l as [|y l IH]; [done|].
  rewrite filter_cons_False.
  - apply IH. intros x Hx. apply Hno. by apply elem_of_cons; right.
  - apply Hno. constructor.
Qed.

Lemma filter_email_unique (e : string) (l : list User.t) (u : User.t) :
  NoDup (User.email <$> l) → u ∈ l → User.email u = e →
  filter (λ x, User.email x = e) l = [u].
Proof.
  intros Hnd Hin He.
  induction l as [|y l IH]; [by apply elem_of_nil in Hin|].
  rewrite fmap_cons in Hnd. apply NoDup_cons in Hnd as [Hy Hnd].
  apply elem_of_cons in Hin as [<-|Hin].
  - rewrite filter_cons_True by done. f_equal.
    apply filter_email_none. intros z Hz Hze. apply Hy.
    apply list_elem_of_fmap. exists z. split; [congruence|done].
  - rewrite filter_cons_False; [by apply IH|].
    intros Hye. apply Hy. apply list_elem_of_fmap. exists u.
    split; [congruence|done].
Qed.

Section profile.
Context `{Hasher} `{EmailValidator}.

Lemma update_user_row_twice (u1 u2 : User.t) (db : DB) :
  User.id u2 = User.id u1 →
  core_models.update_user_row u2 (core_models.update_user_row u1 db)
  = core_models.update_user_row u2 db.
Proof.
  intros Hid. unfold core_models.update_user_row. simpl. f_equal.
  rewrite <-list_fmap_compose. apply list_fmap_ext. intros i x _. simpl.
  repeat case_decide; congruence.
Qed.

Lemma others_update_user_row (u : User.t) (db : DB) :
  filter (λ v, User.id v ≠ User.id u)
    (users (core_models.update_user_row u db))
  = filter (λ v, User.id v ≠ User.id u) (users db).
Proof.
  unfold core_models.update_user_row. simpl.
  induction (users db) as [|v l IH]; [done|]. rewrite fmap_cons.
  case_decide as Hv.
  - rewrite !filter_cons_False by (intros Hne; by apply Hne). done.
  - rewrite !filter_cons_True by done. by rewrite IH.
Qed.

Lemma save_user_twice (u1 u2 : User.t) (db db1 : DB) :
  User.id u2 = User.id u1 → User.email u2 = User.email u1 →
  core_models.save_user u1 db = Ok db1 →
  core_models.save_user u2 db1 = Ok (core_models.update_user_row u2 db).
Proof.
  intros Hid Hemail. unfold core_models.save_user.
  case_decide as Hfree; [done|]. intros [= <-].
  rewrite Hid, Hemail, others_update_user_row.
  rewrite decide_False by done. f_equal.
  by apply update_user_row_twice.
Qed.

Lemma user_update_saved (instance : User.t)
    (validated_data : user_serializer.UserData) (db : DB) :
  let user :=
    User.mk (User.id instance)
      (default (User.email instance) (user_serializer.email validated_data))
      (default (User.name instance) (user_serializer.name validated_data))
      (if Py.truthy (user_serializer.password validated_data)
       then make_password (user_serializer.password validated_data)
       else User.password instance)
      (User.is_active instance) (User.is_staff instance)
      (User.is_superuser instance) in
  user_serializer.update instance validated_data db
  = if decide (User.email user
               ∈ User.email
                 <$> filter (λ v, User.id v ≠ User.id instance) (users db))
    then Raise IntegrityError
    else Ok (core_models.update_user_row user db, user).
Proof.
  intros user. unfold user_serializer.update.
  case_decide as Htaken.
  - unfold core_models.save_user. cbn [User.email User.id].
    by rewrite decide_True by exact Htaken.
  - match goal with
    | |- mbind _ (core_models.save_user ?u0 db) = _ =>
        assert (core_models.save_user u0 db
                = Ok (core_models.update_user_row u0 db)) as Hsave
    end.
    { unfold core_models.save_user. cbn [User.email User.id].
      by rewrite decide_False by exact Htaken. }
    rewrite Hsave. cbn [mbind result_bind].
    destruct (Py.truthy (user_serializer.password validated_data)) eqn:Hp.
    + erewrite save_user_twice; [|..|exact Hsave]; done.
    + done.
Qed.

Lemma email_field_Ok (partial : bool) (instance : User.t) (db : DB)
    (data e : option string) :
  user_serializer.email_field partial (Some instance) db data = Ok e →
  ∀ v, e = Some v →
       v ∉ User.email
           <$> filter (λ u, User.id u ≠ User.id instance) (users db).
Proof.
  unfold user_serializer.email_field.
  destruct (recpie_serializers.CharField _ _ _ _ _) as [[v0|]|]; simpl;
    [|by intros [= <-] ? [=]|done].
  destruct (negb (valid_email v0)); [done|]. case_decide as Hfree; [done|].
  intros [= <-] v [= <-] (x & Hx & [Hid Hin]%list_elem_of_filter)
    %list_elem_of_fmap.
  apply Hfree. apply list_elem_of_fmap. exists x. split; [done|].
  apply list_elem_of_filter. split; [|done]. simpl. congruence.
Qed.

(** X12. Let [UserSerializer.update] be called on a stored row.  It raises
    [IntegrityError], and nothing else, exactly when the email the row is
    to carry (the one of the payload, or else the one of the instance) is
    the email of a row with another key; nothing is written then.
    Otherwise it rewrites the row of the instance and no other row or
    table: the row keeps its key and its active, staff and superuser flags;
    the email and the name are replaced when the payload carries them; a
    non-empty password is stored hashed, and without one (or with an empty
    one) the stored hash stays.  With unique emails, an update with data
    that [UserSerializer] validated against that row never raises. *)
Theorem X12_user_update (instance : User.t)
    (validated_data : user_serializer.UserData) (db : DB) :
  instance ∈ users db →
  (∀ e, user_serializer.update instance validated_data db = Raise e
        ↔ e = IntegrityError
          ∧ default (User.email instance)
              (user_serializer.email validated_data)
            ∈ User.email
              <$> filter (λ v, User.id v ≠ User.id instance) (users db))
  ∧ (∀ db' u,
       user_serializer.update instance validated_data db = Ok (db', u) →
       User.id u = User.id instance
       ∧ User.is_active u = User.is_active instance
       ∧ User.is_staff u = User.is_staff instance
       ∧ User.is_superuser u = User.is_superuser instance
       ∧ User.email u
         = default (User.email instance)
             (user_serializer.email validated_data)
       ∧ User.name u
         = default (User.name instance) (user_serializer.name validated_data)
       ∧ (∀ p, user_serializer.password validated_data = Some p →
               p ≠ EmptyString → User.password u = make_password (Some p))
       ∧ (user_serializer.password validated_data = None
          ∨ user_serializer.password validated_data = Some EmptyString →
          User.password u = User.password instance)
       ∧ tags db' = tags db
       ∧ ingredients db' = ingredients db
       ∧ recipes db' = recipes db
       ∧ u ∈ users db'
       ∧ (∀ x, x ∈ users db → User.id x ≠ User.id instance →
               x ∈ users db' ∧ User.email x ≠ User.email u)
       ∧ (∀ x, x ∈ users db' →
               x = u ∨ (x ∈ users db ∧ User.id x ≠ User.id instance)))
  ∧ (NoDup (User.email <$> users db) →
     ∀ partial data,
       user_serializer.UserSerializer_validate partial (Some instance) data
         db = Ok validated_data →
       ∃ db' u,
         user_serializer.update instance validated_data db = Ok (db', u)).
Proof.
  intros Hin.
  pose proof (user_update_saved instance validated_data db) as Hup.
  simpl in Hup. split; [|split].
  - intros e. rewrite Hup. case_decide as Htaken.
    + split; [by intros [= <-]|by intros [-> _]].
    + split; [done|by intros [_ ?]].
  - intros db' u. rewrite Hup. case_decide as Htaken; [done|].
    intros [= <- <-]. simpl.
    repeat match goal with |- _ ∧ _ => split end; try done.
    + by intros p -> Hp; destruct p.
    + by intros [->| ->].
    + apply list_elem_of_fmap. exists instance.
      by rewrite decide_True.
    + intros x Hx Hne. split.
      * apply list_elem_of_fmap. exists x. split; [|done].
        rewrite decide_False; [done|]. simpl. congruence.
      * intros Heq. apply Htaken. apply list_elem_of_fmap. exists x.
        split; [done|]. by apply list_elem_of_filter.
    + intros x (y & -> & Hy)%list_elem_of_fmap.
      case_decide as Hyid; [by left|]. right. split; [done|].
      simpl in Hyid. congruence.
  - intros Hnd partial data Hv. rewrite Hup.
    rewrite decide_False; [by do 2 eexists|]. simpl.
    revert Hv. unfold user_serializer.UserSerializer_validate.
    destruct (user_serializer.email_field partial (Some instance) db
                (user_serializer.email data)) as [e|] eqn:He;
      simpl; [|done].
    destruct (recpie_serializers.CharField _ _ _ _ _) as [n|]; simpl;
      [|done].
    destruct (user_serializer.password_field _ _) as [p|]; simpl; [|done].
    intros [= <-]. simpl. destruct e as [v|]; simpl.
    + by apply (email_field_Ok _ _ _ _ _ He).
    + intros (x & Hx & [Hid Hxin]%list_elem_of_filter)%list_elem_of_fmap.
      apply Hid. f_equal.
      pose proof (filter_email_unique _ _ x Hnd Hxin (eq_sym Hx)) as Hfx.
      rewrite (filter_email_unique _ _ instance Hnd Hin eq_refl) in Hfx.
      congruence.
Qed.

End profile.

(** X12 on the sample data: the profile update of the repository's test,
    and an update to the email of Bob. *)
Lemma X12_witness :
  (∃ db' u,
     @user_serializer.update sample.hasher
       (User.mk sample.alice "alice@example.com" "Alice" "pbkdf2_sha256$a"
          true false false)
       (user_serializer.mkUserData None (Some "newName"%string)
          (Some "newPassword"%string)) sample.db = Ok (db', u)
     ∧ User.name u = "newName"%string
     ∧ User.password u = sample.hasher (Some "newPassword"%string)
     ∧ User.is_staff u = false)
  ∧ @user_serializer.update sample.hasher
      (User.mk sample.alice "alice@example.com" "Alice" "pbkdf2_sha256$a"
         true false false)
      (user_serializer.mkUserData (Some "bob@example.com"%string) None None)
      sample.db = Raise IntegrityError.
Proof.
  split.
  - destruct (@X12_user_update sample.hasher sample.email_validator
                (User.mk sample.alice "alice@example.com" "Alice"
                   "pbkdf2_sha256$a" true false false)
                (user_serializer.mkUserData None (Some "newName"%string)
                   (Some "newPassword"%string)) sample.db)
      as (_ & Hok & Hvalid); [compute_done|].
    destruct (Hvalid ltac:(compute_done) true
                (user_serializer.mkUserData None (Some "newName"%string)
                   (Some "newPassword"%string)) eq_refl)
      as (db' & u & Hup).
    destruct (Hok db' u Hup) as (_ & _ & Hstaff & _ & _ & Hname & Hpw & _).
    exists db', u. split; [done|]. split; [done|]. split; [|done].
    by apply Hpw.
  - destruct (@X12_user_update sample.hasher sample.email_validator
                (User.mk sample.alice "alice@example.com" "Alice"
                   "pbkdf2_sha256$a" true false false)
                (user_serializer.mkUserData (Some "bob@example.com"%string)
                   None None) sample.db) as (Hraise & _); [compute_done|].
    apply Hraise. split; [done|]. compute_done.
Defined.

(** ** Logging in *)

Section login.
Context `{PasswordChecker}.

Lemma authenticate_spec (e p : string) (db : DB) :
  NoDup (User.email <$> users db) →
  (∀ u, AuthTokenSerializer.authenticate (Some e) (Some p) db = Ok (Some u)
        ↔ u ∈ users db ∧ User.email u = e
          ∧ check_password p (User.password u) = true
          ∧ User.is_active u = true)
  ∧ (∀ err, AuthTokenSerializer.authenticate (Some e) (Some p) db
            ≠ Raise err).
Proof.
  intros Hnd. unfold AuthTokenSerializer.authenticate.
  destruct (filter (λ u, User.email u = e) (users db)) as [|x t] eqn:Hf.
  - split; [|done]. intros u. split; [done|]. intros (Hin & He & _).
    assert (u ∈ filter (λ u, User.email u = e) (users db)) as Hu
      by by apply list_elem_of_filter.
    rewrite Hf in Hu. by apply elem_of_nil in Hu.
  - assert (x ∈ filter (λ u, User.email u = e) (users db)) as Hx
      by (rewrite Hf; constructor).
    apply list_elem_of_filter in Hx as [Hxe Hx].
    rewrite (filter_email_unique e _ x Hnd Hx Hxe) in Hf.
    injection Hf as <-.
    split.
    + intros u. split.
      * destruct (check_password p (User.password x)) eqn:Hc;
          destruct (User.is_active x) eqn:Ha; simpl; try done.
        by intros [= <-].
      * intros (Hin & He & Hc & Ha).
        pose proof (filter_email_unique e _ u Hnd Hin He) as Hfu.
        rewrite (filter_email_unique e _ x Hnd Hx Hxe) in Hfu.
        injection Hfu as ->. by rewrite Hc, Ha.
    + intros err. by destruct (_ && _).
Qed.

#[local] Arguments AuthTokenSerializer.authenticate : simpl never.

(** X13. With the stored emails unique, a login is valid exactly when both
    fields are present, the stripped email is not blank, at most 255
    characters long and free of null characters, the stripped password is
    not blank and free of null characters, and some active user has exactly
    the stripped email while the stripped password checks against the
    stored hash; [attrs] then carries that user.  Every other login fails
    with [ValidationError], and with nothing else. *)
Theorem X13_login (email password : option string) (db : DB) :
  NoDup (User.email <$> users db) →
  (∀ attrs,
     AuthTokenSerializer.run_validation email password db = Ok attrs
     ↔ ∃ e p u,
         email = Some e ∧ password = Some p
         ∧ Py.strip e ≠ EmptyString
         ∧ (String.length (Py.strip e) ≤ 255)%nat
         ∧ ¬ has_null (Py.strip e)
         ∧ Py.strip p ≠ EmptyString
         ∧ ¬ has_null (Py.strip p)
         ∧ u ∈ users db
         ∧ User.email u = Py.strip e
         ∧ check_password (Py.strip p) (User.password u) = true
         ∧ User.is_active u = true
         ∧ attrs = AuthTokenSerializer.mkAttrs (Some (Py.strip e))
                     (Some (Py.strip p)) (Some u))
  ∧ (∀ err,
       AuthTokenSerializer.run_validation email password db = Raise err →
       err = ValidationError).
Proof.
  intros Hnd. unfold AuthTokenSerializer.run_validation.
  destruct (CharField_required 255 email) as [Hok Herr].
  destruct (recpie_serializers.CharField 255 true false false email)
    as [ve|e0] eqn:He; simpl.
  2:{ split; [|intros err [= <-]; by destruct (Herr _ eq_refl)].
      intros attrs. split; [done|].
      intros (e & p & u & -> & _ & Hne & Hlen & Hnul & _). exfalso.
      destruct (Herr _ eq_refl) as [_ [?|(s & [= <-] & [?|[?|?]])]];
        [done|done|lia|done]. }
  destruct (Hok ve eq_refl) as (e & -> & -> & Hne & Hlen & Hnul).
  unfold AuthTokenSerializer.password_field.
  destruct password as [p|]; simpl.
  2:{ split; [|by intros err [= <-]]. intros attrs. split; [done|].
      by intros (? & ? & ? & _ & [=] & _). }
  case_decide as Hp; simpl.
  { split; [|by intros err [= <-]]. intros attrs. split; [done|].
    intros (? & ? & ? & _ & [= <-] & _ & _ & _ & ? & _). done. }
  case_decide as Hpnul; simpl.
  { split; [|by intros err [= <-]]. intros attrs. split; [done|].
    intros (? & ? & ? & _ & [= <-] & _ & _ & _ & _ & ? & _). done. }
  unfold AuthTokenSerializer.validate. simpl.
  destruct (AuthTokenSerializer.authenticate (Some (Py.strip e))
              (Some (Py.strip p)) db) as [[u|]|err0] eqn:Ha;
    simpl;
    destruct (authenticate_spec (Py.strip e) (Py.strip p) db Hnd)
      as [Hauth Hnoraise].
  - pose proof (proj1 (Hauth u) Ha) as (Hin & Hue & Hc & Hact).
    split; [|done]. intros attrs. split.
    + intros [= <-]. exists e, p, u. done.
    + intros (e1 & p1 & u1 & [= <-] & [= <-] & _ & _ & _ & _ & _ & Hin1
              & He1 & Hc1 & Ha1 & ->).
      assert (AuthTokenSerializer.authenticate (Some (Py.strip e))
                (Some (Py.strip p)) db = Ok (Some u1)) as H1
        by by apply Hauth.
      congruence.
  - split; [|by intros err [= <-]]. intros attrs. split; [done|].
    intros (e1 & p1 & u1 & [= <-] & [= <-] & _ & _ & _ & _ & _ & Hin1 & He1
            & Hc1 & Ha1 & _).
    assert (AuthTokenSerializer.authenticate (Some (Py.strip e))
              (Some (Py.strip p)) db = Ok (Some u1)) as H1
      by by apply Hauth.
    congruence.
  - by destruct (Hnoraise err0).
Qed.

End login.

(** ** Registering, then logging in *)

Lemma length_lstrip_le s : (String.length (Py.lstrip s) ≤ String.length s)%nat.
Proof.
  induction s as [|c s IH]; simpl; [done|].
  destruct (Py.isspace c); simpl; lia.
Qed.

Lemma length_rstrip_le s : (String.length (Py.rstrip s) ≤ String.length s)%nat.
Proof.
  induction s as [|c s IH]; simpl; [done|].
  destruct (Py.rstrip s); [destruct (Py.isspace c)|]; simpl in *; lia.
Qed.

Lemma length_strip_le s : (String.length (Py.strip s) ≤ String.length s)%nat.
Proof.
  unfold Py.strip. etrans; [apply length_rstrip_le|apply length_lstrip_le].
Qed.

Lemma length_lower s : String.length (Py.lower s) = String.length s.
Proof. induction s as [|c s IH]; simpl; [done|]. by rewrite IH. Qed.

Lemma length_append (a b : string) :
  String.length (a +:+ b) = (String.length a + String.length b)%nat.
Proof. induction a as [|c a IH]; simpl; [done|]. by rewrite IH. Qed.

Lemma CharField_accepts (m : nat) (s : string) :
  Py.strip s ≠ EmptyString → (String.length (Py.strip s) ≤ m)%nat →
  ¬ has_null (Py.strip s) →
  recpie_serializers.CharField m true false false (Some s)
  = Ok (Some (Py.strip s)).
Proof.
  intros Hne Hlen Hnul. unfold recpie_serializers.CharField.
  by rewrite decide_False, decide_True, decide_False.
Qed.

Lemma elem_of_string_app (c : ascii) (a b : string) :
  c ∈ list_ascii_of_string (a +:+ b)
  ↔ c ∈ list_ascii_of_string a ∨ c ∈ list_ascii_of_string b.
Proof.
  induction a as [|d a IH]; simpl.
  - rewrite elem_of_nil. tauto.
  - rewrite !elem_of_cons, IH. tauto.
Qed.

Lemma lower_char_null c : Py.lower_char c = NUL → c = NUL.
Proof.
  destruct c as [[] [] [] [] [] [] [] []]; vm_compute; congruence.
Qed.

Lemma has_null_lower (s : string) : has_null (Py.lower s) → has_null s.
Proof.
  unfold has_null. induction s as [|c s IH]; simpl; [done|].
  rewrite !elem_of_cons. intros [Hc|Hs]; [left|right; by apply IH].
  symmetry. by apply lower_char_null.
Qed.

Lemma has_null_strip (s : string) : has_null (Py.strip s) → has_null s.
Proof. apply elem_of_strip. Qed.

Section register_login.
Context `{Hasher} `{EmailValidator} `{PasswordChecker}.

Lemma normalize_email_bounds (v : string) :
  v ≠ EmptyString →
  core_models.normalize_email (Some v) ≠ EmptyString
  ∧ (String.length (core_models.normalize_email (Some v))
     ≤ String.length v)%nat
  ∧ (has_null (core_models.normalize_email (Some v)) → has_null v).
Proof.
  intros Hv.
  destruct (normalize_email_spec v) as [[_ ->]|(a & b & Hs & _ & ->)];
    [done|].
  split; [by destruct a|]. split.
  - pose proof (length_strip_le v) as Hle. rewrite Hs in Hle.
    rewrite !length_append in *. simpl in *. rewrite length_lower. lia.
  - intros Hnul. apply has_null_strip. rewrite Hs. revert Hnul.
    unfold has_null. rewrite !elem_of_string_app. simpl.
    rewrite !elem_of_cons. intros [?|[?|?%has_null_lower]]; auto.
Qed.

Lemma CreateApiView_post_inv (payload : user_serializer.UserData)
    (db db' : DB) (response : user_serializer.Response) :
  user_serializer.CreateApiView_post payload db = Ok (db', response) →
  ∃ s raw n u,
    user_serializer.email payload = Some s
    ∧ user_serializer.password payload = Some raw
    ∧ Py.strip s ≠ EmptyString
    ∧ (String.length (Py.strip s) ≤ 255)%nat
    ∧ ¬ has_null (Py.strip s)
    ∧ raw ≠ EmptyString
    ∧ ¬ has_null raw
    ∧ core_models.create_user (Some (Py.strip s)) (Some raw) n db
      = Ok (db', u).
Proof.
  unfold user_serializer.CreateApiView_post,
    user_serializer.UserSerializer_validate, user_serializer.email_field.
  destruct (CharField_required 255 (user_serializer.email payload))
    as [Hok _].
  destruct (recpie_serializers.CharField 255 true false false
              (user_serializer.email payload)) as [ve|] eqn:He;
    simpl; [|done].
  destruct (Hok ve eq_refl) as (s & Hs & -> & Hne & Hlen & Hnul).
  destruct (negb (valid_email (Py.strip s))); simpl; [done|].
  case_decide; simpl; [done|].
  destruct (recpie_serializers.CharField 50 true false false
              (user_serializer.name payload)) as [n|]; simpl; [|done].
  destruct (user_serializer.password_field false
              (user_serializer.password payload)) as [p|] eqn:Hp;
    simpl; [|done].
  pose proof Hp as Hp'. apply password_field_Ok in Hp' as [-> Hsome].
  destruct (Hsome eq_refl) as [raw Hraw]. rewrite Hraw in *.
  unfold user_serializer.create. simpl.
  destruct (core_models.create_user _ _ _ _) as [[db1 u]|] eqn:Hc;
    simpl; [|done].
  intros [= <- <-]. exists s, raw, (default EmptyString n), u.
  revert Hp. unfold user_serializer.password_field.
  by repeat case_decide.
Qed.

#[local] Arguments AuthTokenSerializer.authenticate : simpl never.

(** X14. Let a registration succeed with the password [raw], in a database
    whose emails are unique, and let the password check accept exactly the
    password that was hashed.  Logging in with the stored email, padded
    with white space or not, and with [raw] is valid and authenticates the
    new user when [raw] has no white space at either end; when it has, the
    login strips the password, the check fails, and the login raises
    [ValidationError]. *)
Theorem X14_register_then_login (payload : user_serializer.UserData)
    (db db' : DB) (response : user_serializer.Response) (raw : string) :
  (∀ p q, check_password q (make_password (Some p)) = true ↔ q = p) →
  NoDup (User.email <$> users db) →
  user_serializer.CreateApiView_post payload db = Ok (db', response) →
  user_serializer.password payload = Some raw →
  ∃ u,
    users db' = users db ++ [u]
    ∧ ∀ e', Py.strip e' = User.email u →
        (Py.strip raw = raw →
         AuthTokenSerializer.run_validation (Some e') (Some raw) db'
         = Ok (AuthTokenSerializer.mkAttrs (Some (User.email u)) (Some raw)
                 (Some u)))
        ∧ (Py.strip raw ≠ raw →
           AuthTokenSerializer.run_validation (Some e') (Some raw) db'
           = Raise ValidationError).
Proof.
  intros Hcheck Hnd Hpost Hraw.
  apply CreateApiView_post_inv in Hpost
    as (s & raw' & n & u & _ & Hraw' & Hne & Hlen & Hnul & Hrawne & Hrawnul
        & Hc).
  assert (raw' = raw) as -> by congruence.
  assert (∃ db' u, core_models.create_user (Some (Py.strip s)) (Some raw) n db
                   = Ok (db', u)) as Hacc by eauto.
  apply create_user_accepts in Hacc as [_ Hfree].
  pose proof (create_user_Ok_id _ _ _ _ _ _ Hc) as [Hu _].
  apply create_user_Ok in Hc as (Hemail & Hpw & _ & Hdb).
  assert (User.is_active u = true) as Hact by by rewrite Hu.
  destruct (normalize_email_bounds (Py.strip s) Hne)
    as (Hne' & Hlen' & Hnul').
  rewrite <-Hemail in Hne', Hlen', Hnul', Hfree.
  assert (NoDup (User.email <$> users db')) as Hnd'.
  { rewrite Hdb, fmap_app. apply NoDup_app. split; [done|]. split.
    - intros x Hx ->%list_elem_of_singleton. done.
    - apply NoDup_singleton. }
  assert (u ∈ users db') as Hin.
  { rewrite Hdb. apply elem_of_app. right. constructor. }
  exists u. split; [done|]. intros e' He'.
  unfold AuthTokenSerializer.run_validation.
  rewrite CharField_accepts;
    [|by rewrite He'|rewrite He'; lia|rewrite He'; tauto].
  simpl. unfold AuthTokenSerializer.password_field.
  split.
  - intros Hstrip. rewrite Hstrip, !decide_False by done. simpl.
    unfold AuthTokenSerializer.validate. simpl.
    destruct (authenticate_spec (Py.strip e') raw db' Hnd')
      as [Hauth _].
    rewrite (proj2 (Hauth u)).
    + simpl. by rewrite He'.
    + repeat split; try done. rewrite Hpw. by apply Hcheck.
  - intros Hstrip. case_decide; [done|]. case_decide; [done|]. simpl.
    unfold AuthTokenSerializer.validate. simpl.
    destruct (AuthTokenSerializer.authenticate (Some (Py.strip e'))
                (Some (Py.strip raw)) db') as [[u1|]|err] eqn:Ha; simpl;
      destruct (authenticate_spec (Py.strip e') (Py.strip raw) db' Hnd')
        as [Hauth Hnoraise].
    + exfalso. apply Hauth in Ha as (Hin1 & He1 & Hc1 & _).
      assert (u1 = u) as ->.
      { pose proof (filter_email_unique _ _ u1 Hnd' Hin1 He1) as Hf1.
        rewrite (filter_email_unique _ _ u Hnd' Hin (eq_sym He')) in Hf1.
        congruence. }
      rewrite Hpw in Hc1. by apply Hcheck in Hc1.
    + done.
    + by destruct (Hnoraise err).
Qed.

End register_login.

(** ** Uploading an image *)

Section upload.
Context `{ImageValidator} `{Storage}.

(** X15. [upload_image] raises only what the lookup of the recipe raises.
    For a recipe the lookup finds: a non-empty value that is no file, or a
    file the image check refuses, is answered with status 400 and the
    database is left as it was; a file the check accepts is answered with status 200
    and the image-only shape, and the recipe is rewritten with the name the
    storage returned for the upload path of that file as its image, every
    other field of the recipe, every other recipe and every other table
    staying the same. *)
Theorem X15_upload_image (uuid4 : string) (request : Request.t) (pk : Z)
    (data : option recpie_serializers.Upload) (db : DB) :
  (∀ e, RecipeViewSet.upload_image uuid4 request pk data db = Raise e
        ↔ RecipeViewSet.get_object request pk db = Raise e)
  ∧ (∀ recipe,
       RecipeViewSet.get_object request pk db = Ok recipe →
       (∀ text, data = Some (recpie_serializers.NotAFile text) →
          text ≠ EmptyString →
          RecipeViewSet.upload_image uuid4 request pk data db
          = Ok (db, RecipeViewSet.mkResponse 400 None))
       ∧ (∀ name content,
            data = Some (recpie_serializers.File name content) →
            valid_image name content = false →
            RecipeViewSet.upload_image uuid4 request pk data db
            = Ok (db, RecipeViewSet.mkResponse 400 None))
       ∧ (∀ name content,
            data = Some (recpie_serializers.File name content) →
            valid_image name content = true →
            let image :=
              storage_save
                (recipe_image_file_path uuid4 (Some recipe) name) in
            let r :=
              Recipe.mk (Recipe.id recipe) (Recipe.user recipe)
                (Recipe.title recipe) (Recipe.time recipe)
                (Recipe.price recipe) (Recipe.link recipe)
                (Recipe.ingredient recipe) (Recipe.tag recipe)
                (Some image) in
            ∃ db',
              RecipeViewSet.upload_image uuid4 request pk data db
              = Ok (db',
                    RecipeViewSet.mkResponse 200
                      (Some (RecipeViewSet.Image
                               (recpie_serializers.mkImage pk
                                  (Some image)))))
              ∧ r ∈ recipes db'
              ∧ (∀ x, x ∈ recipes db → Recipe.id x ≠ pk → x ∈ recipes db')
              ∧ (∀ x, x ∈ recipes db' →
                      x = r ∨ (x ∈ recipes db ∧ Recipe.id x ≠ pk))
              ∧ users db' = users db
              ∧ tags db' = tags db
              ∧ ingredients db' = ingredients db)).
Proof.
  split.
  - intros e. unfold RecipeViewSet.upload_image.
    destruct (RecipeViewSet.get_object request pk db) as [recipe|e0];
      simpl; [|by split; intros [= ->]].
    destruct (recpie_serializers.RecipeImageSerializer_validate data)
      as [v|e1] eqn:Hv; [done|].
    assert (e1 = ValidationError) as ->; [|done].
    revert Hv. unfold recpie_serializers.RecipeImageSerializer_validate.
    destruct data as [[?|n c]|]; try done.
    + case_decide; [done|]. by intros [= <-].
    + destruct (valid_image n c); [done|]. by intros [= <-].
  - intros recipe Hobj. unfold RecipeViewSet.upload_image. rewrite Hobj.
    simpl. pose proof (get_object_Ok _ _ _ _ Hobj) as [Hin Hpk].
    clear Hobj. subst pk. split; [|split].
    + intros text -> Hne. simpl. by rewrite decide_False.
    + intros name content -> Hbad. simpl. by rewrite Hbad.
    + intros name content -> Hgood. simpl. rewrite Hgood. simpl.
      eexists. split; [done|].
      split; [|split; [|split]]; [| | |done].
      * apply list_elem_of_fmap. exists recipe. split; [|done].
        simpl. by rewrite decide_True.
      * intros x Hx Hne. apply list_elem_of_fmap. exists x.
        split; [|done]. rewrite decide_False; [done|]. simpl. congruence.
      * intros x (y & -> & Hy)%list_elem_of_fmap. simpl.
        case_decide as Hid; [by left|]. right. split; [done|]. congruence.
Qed.

End upload.

(** X15 on the sample data: the upload of the repository's test, which is
    no file, and an upload the stand-in check accepts. *)
Lemma X15_witness :
  @RecipeViewSet.upload_image sample.image_validator sample.storage
    "test-uuid" (sample.request sample.alice []) 1
    (Some (recpie_serializers.NotAFile "not image")) sample.db
  = Ok (sample.db, RecipeViewSet.mkResponse 400 None)
  ∧ ∃ db',
      @RecipeViewSet.upload_image sample.image_validator sample.storage
        "test-uuid" (sample.request sample.alice []) 1
        (Some (recpie_serializers.File "MyImage.jpg" "")) sample.db
      = Ok (db',
            RecipeViewSet.mkResponse 200
              (Some (RecipeViewSet.Image
                       (recpie_serializers.mkImage 1
                          (Some "uploads/recipe/test-uuid.jpg"%string))))).
Proof.
  destruct (@X15_upload_image sample.image_validator sample.storage
              "test-uuid" (sample.request sample.alice []) 1
              (Some (recpie_serializers.NotAFile "not image")) sample.db)
    as [_ Hfound].
  destruct (@X15_upload_image sample.image_validator sample.storage
              "test-uuid" (sample.request sample.alice []) 1
              (Some (recpie_serializers.File "MyImage.jpg" "")) sample.db)
    as [_ Hfound'].
  split.
  - destruct (Hfound _ eq_refl) as (Hnot & _). by apply (Hnot "not image").
  - destruct (Hfound' _ eq_refl) as (_ & _ & Hfile).
    destruct (Hfile "MyImage.jpg" "" eq_refl eq_refl) as (db' & Hup & _).
    by exists db'.
Defined.

(** ** The query string of the tag listing *)

(** X16. Whatever the query string, the tag listing either raises
    [ValueError], exactly when [assigned_only] is present with a value
    [int] rejects (the exception handler lets it through), or returns a
    list without repetition, sorted by name downwards, of tags that are in
    the table and owned by the requesting user. *)
Theorem X16_tag_listing_any_query (request : Request.t) (db : DB) :
  (∀ e, TagViewSet.get_queryset request db = Raise e
        ↔ e = ValueError
          ∧ ∃ s, Request.query_params request !! "assigned_only"%string
                 = Some s
                 ∧ Py.int s = None)
  ∧ exception_handler ValueError = None
  ∧ (∀ l, TagViewSet.get_queryset request db = Ok l →
          NoDup l
          ∧ StronglySorted
              (λ a b, String.leb (Tag.name b) (Tag.name a) = true) l
          ∧ ∀ t, t ∈ l →
                 t ∈ tags db ∧ Tag.user t = Request.user request).
Proof.
  unfold TagViewSet.get_queryset.
  destruct (Request.query_params request !! "assigned_only"%string)
    as [s|]; [destruct (Py.int s) as [n|] eqn:Hn|]; simpl.
  - split; [|split; [done|]].
    + intros e. split; [done|]. intros [_ (? & [= <-] & ?)]. congruence.
    + intros l [= <-]. split; [apply NoDup_remove_dups|].
      split; [apply tag_listing_sorted|].
      intros t [Ht Hu]%(tag_listing_spec db). split; [|done].
      destruct (bool_decide (n ≠ 0)); [|done].
      by apply elem_of_filter_recipe_isnull_false in Ht as [? _].
  - split; [|split; [done|done]].
    intros e. split; [intros [= <-]; eauto|]. by intros [-> _].
  - split; [|split; [done|]].
    + intros e. split; [done|]. by intros [_ (? & [=] & _)].
    + intros l [= <-]. split; [apply NoDup_remove_dups|].
      split; [apply tag_listing_sorted|].
      by intros t [Ht Hu]%(tag_listing_spec db).
Qed.

(** X16 on the sample data: [assigned_only=true] is no integer. *)
Lemma X16_witness :
  TagViewSet.get_queryset
    (sample.request sample.alice [("assigned_only", "true")]%string)
    sample.db = Raise ValueError.
Proof.
  destruct (X16_tag_listing_any_query
              (sample.request sample.alice
                 [("assigned_only", "true")]%string) sample.db)
    as [Herr _].
  apply Herr. split; [done|]. by exists "true"%string.
Defined.

Lemma sample_check_password (p q : string) :
  @check_password sample.password_checker q
    (@make_password sample.hasher (Some p)) = true
  ↔ q = p.
Proof.
  unfold check_password, make_password, sample.password_checker,
    sample.hasher.
  rewrite bool_decide_eq_true. simpl. split; [|by intros ->].
  intros Heq. by injection Heq.
Qed.

(** X13 on the sample data: Alice logs in with a padded email. *)
Lemma X13_witness :
  ∃ attrs,
    @AuthTokenSerializer.run_validation sample.password_checker
      (Some " alice@example.com "%string) (Some "a"%string) sample.db
    = Ok attrs.
Proof.
  destruct (@X13_login sample.password_checker
              (Some " alice@example.com "%string) (Some "a"%string)
              sample.db) as [Hok _]; [compute_done|].
  eexists. apply Hok.
  exists " alice@example.com "%string, "a"%string,
    (User.mk sample.alice "alice@example.com" "Alice" "pbkdf2_sha256$a" true
       false false).
  repeat split; try done; try compute_done.
Defined.

(** X14 on the sample data: the registration of the spec's scenario, and
    one with a padded password. *)
Lemma X14_witness :
  (∃ db' response attrs,
     @user_serializer.CreateApiView_post sample.hasher
       sample.email_validator
       (user_serializer.mkUserData (Some "a@a.com"%string)
          (Some "A"%string) (Some "pass123"%string)) sample.db
     = Ok (db', response)
     ∧ @AuthTokenSerializer.run_validation sample.password_checker
         (Some "a@a.com"%string) (Some "pass123"%string) db'
       = Ok attrs)
  ∧ (∃ db' response,
       @user_serializer.CreateApiView_post sample.hasher
         sample.email_validator
         (user_serializer.mkUserData (Some "a@a.com"%string)
            (Some "A"%string) (Some " pass1 "%string)) sample.db
       = Ok (db', response)
       ∧ @AuthTokenSerializer.run_validation sample.password_checker
           (Some "a@a.com"%string) (Some " pass1 "%string) db'
         = Raise ValidationError).
Proof.
  assert (NoDup (User.email <$> users sample.db)) as Hnd by compute_done.
  split.
  - destruct (@user_serializer.CreateApiView_post sample.hasher
                sample.email_validator
                (user_serializer.mkUserData (Some "a@a.com"%string)
                   (Some "A"%string) (Some "pass123"%string)) sample.db)
      as [[db' response]|e] eqn:Hpost; [|vm_compute in Hpost; discriminate].
    destruct (@X14_register_then_login sample.hasher sample.email_validator
                sample.password_checker _ _ _ _ "pass123"
                sample_check_password Hnd Hpost eq_refl)
      as (u & Hdb & Hlogin).
    assert (User.email u = "a@a.com"%string) as Hemail.
    { revert Hpost Hdb. vm_compute. intros [= <- _] [= <-]. done. }
    destruct (Hlogin "a@a.com"%string) as [Hok _]; [by rewrite Hemail|].
    exists db', response. eexists. split; [done|]. by apply Hok.
  - destruct (@user_serializer.CreateApiView_post sample.hasher
                sample.email_validator
                (user_serializer.mkUserData (Some "a@a.com"%string)
                   (Some "A"%string) (Some " pass1 "%string)) sample.db)
      as [[db' response]|e] eqn:Hpost; [|vm_compute in Hpost; discriminate].
    destruct (@X14_register_then_login sample.hasher sample.email_validator
                sample.password_checker _ _ _ _ " pass1 "
                sample_check_password Hnd Hpost eq_refl)
      as (u & Hdb & Hlogin).
    assert (User.email u = "a@a.com"%string) as Hemail.
    { revert Hpost Hdb. vm_compute. intros [= <- _] [= <-]. done. }
    destruct (Hlogin "a@a.com"%string) as [_ Hbad]; [by rewrite Hemail|].
    exists db', response. split; [done|]. by apply Hbad.
Defined.
